(** * FreeSwapP2P: the balance-triggered responder and the HTTP facade

    A shallow embedding of [IotaWallet.py] and [FreeSwapP2P.py].

    - Python [float] is IEEE 754 binary64: it is Rocq's primitive [float],
      with [+], [-], [*], [/], [<], [<=], [==] the primitive operations.
    - Python [int] is [Z]. [sum] adds from left to right starting at 0 (the
      compensation term that CPython 3.12 adds to float sums changes none of
      the sums evaluated below).
    - A Python call that may raise returns a [py_result].
    - The wallet library (iota_sdk), the clock and the ledger are outside the
      repository: what they answer in a poll cycle or a request is an input of
      the model. *)

From Stdlib Require Import ZArith Lia Bool List String Ascii Floats QArith Qabs.
From Stdlib Require Import Decimal DecimalString.
From stdpp Require Import gmap strings.
Import ListNotations.

Set Warnings "-inexact-float".
Open Scope Z_scope.

(** ** Python results *)

Inductive py_exn : Type :=
| ZeroDivisionError
| IndexError
| ValueError
| OverflowError
| MemoryError.

Inductive py_result (A : Type) : Type :=
| Returned (a : A)
| Raised (e : py_exn).
Arguments Returned {A} a.
Arguments Raised {A} e.

Definition py_bind {A B} (c : py_result A) (k : A -> py_result B) : py_result B :=
  match c with
  | Returned a => k a
  | Raised e => Raised e
  end.

Notation "'let!' x ':=' c 'in' k" := (py_bind c (fun x => k))
  (at level 10, x name, c at level 100, k at level 200).

(** ** Python's float built-ins over binary64 *)

Module PyFloat.

(** [float(n)] for an int: the nearest binary64, ties to even;
    [OverflowError] when it is out of range. *)
Definition of_int (n : Z) : py_result float :=
  match binary_normalize prec emax n 0 false with
  | S754_infinity _ => Raised OverflowError
  | sf => Returned (SF2Prim sf)
  end.

(** [int(x)]: truncation towards zero; [ValueError] on NaN,
    [OverflowError] on an infinity. *)
Definition to_int (x : float) : py_result Z :=
  match Prim2SF x with
  | S754_zero _ => Returned 0
  | S754_finite s m e => Returned (cond_Zopp s (Z.shiftl (Zpos m) e))
  | S754_infinity _ => Raised OverflowError
  | S754_nan => Raised ValueError
  end.

(** The integer nearest to [n * 2^e], ties to even ([n >= 0]). *)
Definition nearest_even (n e : Z) : Z :=
  if 0 <=? e then n * 2 ^ e
  else
    let d := 2 ^ (- e) in
    let q := n / d in
    match (2 * (n mod d)) ?= d with
    | Lt => q
    | Gt => q + 1
    | Eq => if Z.even q then q else q + 1
    end.

(** [round(x)] with no digits: the nearest int, ties to even. *)
Definition round_int (x : float) : py_result Z :=
  match Prim2SF x with
  | S754_zero _ => Returned 0
  | S754_finite s m e => Returned (cond_Zopp s (nearest_even (Zpos m) e))
  | S754_infinity _ => Raised OverflowError
  | S754_nan => Raised ValueError
  end.

Definition sf_of_Z (s : bool) (q : Z) : spec_float :=
  match q with
  | Zpos p => S754_finite s p 0
  | _ => S754_zero s
  end.

(** [round(x, 8)]: the exact value of [x] is rounded to 8 decimals, ties to
    even, and the decimal is read back as the nearest binary64; a NaN, an
    infinity and a zero are returned as they are. *)
Definition round8 (x : float) : float :=
  match Prim2SF x with
  | S754_finite s m e =>
      let q := nearest_even (Zpos m * 10 ^ 8) e in
      SF2Prim (SFdiv prec emax (sf_of_Z s q) (S754_finite false 100000000 0))
  | _ => x
  end.

(** [x / n] for a float and an int. *)
Definition div_int (x : float) (n : Z) : py_result float :=
  let! d := of_int n in
  if PrimFloat.eqb d 0 then Raised ZeroDivisionError
  else Returned (x / d)%float.

(** [x > 0] *)
Definition gt0 (x : float) : bool := PrimFloat.ltb 0 x.

(** The exact value of a finite float, as a rational. *)
Definition exact (x : float) : option Q :=
  match Prim2SF x with
  | S754_zero _ => Some 0%Q
  | S754_finite s m e =>
      Some (if 0 <=? e then inject_Z (cond_Zopp s (Zpos m * 2 ^ e))
            else Qmake (cond_Zopp s (Zpos m)) (Z.to_pos (2 ^ (- e))))
  | _ => None
  end.

End PyFloat.

(** ** The response schedule (IotaWallet.py, lines 677-685)

    The construction is written once over the operations it uses, so that it
    can be read at binary64 (what the interpreter runs) and at the rationals
    (arithmetic without rounding). *)

Record arith (num : Type) : Type := {
  a_zero : num;
  a_add : num -> num -> num;
  a_sub : num -> num -> num;
  a_abs : num -> num;
  a_gt0 : num -> bool;
  a_ge : num -> num -> bool;
  a_nonzero_finite : num -> bool;
  a_div_int : num -> Z -> py_result num;
  a_round8 : num -> num
}.
Arguments a_zero {num}.
Arguments a_add {num}.
Arguments a_sub {num}.
Arguments a_abs {num}.
Arguments a_gt0 {num}.
Arguments a_ge {num}.
Arguments a_nonzero_finite {num}.
Arguments a_div_int {num}.
Arguments a_round8 {num}.

(** What the construction depends on besides its arguments. [compensated_sum]:
    the [sum] of the interpreter carries a compensation term for floats, as
    CPython does from 3.12 on. [max_list_length]: the length of the longest
    list that the memory of the machine allows, one entry at least. *)
Record platform : Type := {
  compensated_sum : bool;
  max_list_length : positive
}.

(** [sys.maxsize] of a 64-bit interpreter. *)
Definition maxsize : Z := 2 ^ 63 - 1.

Section Schedule.
Context {num : Type} (A : arith num) (py : platform).

(** The loop of the compensated [sum] (Neumaier's): the running sum [f] and
    the compensation [c]. *)
Fixpoint compensated_from (f c : num) (xs : list num) : num * num :=
  match xs with
  | [] => (f, c)
  | x :: rest =>
      let t := a_add A f x in
      let c' :=
        if a_ge A (a_abs A f) (a_abs A x)
        then a_add A c (a_add A (a_sub A f t) x)
        else a_add A c (a_add A (a_sub A x t) f) in
      compensated_from t c' rest
  end.

(** [sum(xs)]: from the int 0, so the first addition is an ordinary one; the
    later ones are ordinary too up to CPython 3.11, from 3.12 on they are
    compensated, and the compensation is added at the end unless it is zero or
    not finite. *)
Definition py_sum (xs : list num) : num :=
  match xs with
  | [] => a_zero A
  | x :: rest =>
      let first := a_add A (a_zero A) x in
      if compensated_sum py then
        let '(f, c) := compensated_from first (a_zero A) rest in
        if a_nonzero_finite A c then a_add A f c else f
      else fold_left (a_add A) rest first
  end.

(** [[x] * n]: [OverflowError] when [n] does not fit an index; the empty list
    when [n <= 0]; [MemoryError] when the list is longer than memory allows,
    which it is in any case beyond [maxsize / 8] entries of 8 bytes. *)
Definition list_times (x : num) (n : Z) : py_result (list num) :=
  if (n <? - maxsize - 1) || (maxsize <? n) then Raised OverflowError
  else if n <=? 0 then Returned []
  else if (maxsize / 8 <? n) || (Zpos (max_list_length py) <? n)
       then Raised MemoryError
       else Returned (repeat x (Z.to_nat n)).

(** [xs[-1] += d] *)
Definition add_to_last (xs : list num) (d : num) : py_result (list num) :=
  match last xs with
  | None => Raised IndexError
  | Some x => Returned (<[pred (length xs) := a_add A x d]> xs)
  end.

Definition build_response_amounts (max_response_amount : num) (divisor : Z)
  : py_result (list num) :=
  let! q := a_div_int A max_response_amount divisor in
  let per_response := a_round8 A q in
  let! response_amounts := list_times per_response divisor in
  let diff := a_sub A max_response_amount (py_sum response_amounts) in
  if a_gt0 A (a_abs A diff) then add_to_last response_amounts diff
  else Returned response_amounts.

End Schedule.

Definition float_arith : arith float := {|
  a_zero := 0%float;
  a_add := PrimFloat.add;
  a_sub := PrimFloat.sub;
  a_abs := PrimFloat.abs;
  a_gt0 := PyFloat.gt0;
  a_ge := fun x y => PrimFloat.leb y x;
  a_nonzero_finite := fun c => negb (PrimFloat.eqb c 0) && PrimFloat.is_finite c;
  a_div_int := PyFloat.div_int;
  a_round8 := PyFloat.round8
|}.

(** Rounding a rational to 8 decimals, ties to even. *)
Definition Q_round8 (x : Q) : Q :=
  let n := Qnum x * 10 ^ 8 in
  let d := Zpos (Qden x) in
  let q := n / d in
  let r :=
    match (2 * (n mod d)) ?= d with
    | Lt => q
    | Gt => q + 1
    | Eq => if Z.even q then q else q + 1
    end in
  Qmake r 100000000.

Definition Q_arith : arith Q := {|
  a_zero := 0%Q;
  a_add := Qplus;
  a_sub := Qminus;
  a_abs := Qabs;
  a_gt0 := fun x => negb (Qle_bool x 0);
  a_ge := fun x y => Qle_bool y x;
  a_nonzero_finite := fun c => negb (Qeq_bool c 0);
  a_div_int := fun x n =>
    if n =? 0 then Raised ZeroDivisionError else Returned (x / inject_Z n)%Q;
  a_round8 := Q_round8
|}.

(** Two platforms with room for a million entries: an interpreter whose [sum]
    is the plain one, and one whose [sum] is compensated. *)
Definition plain_platform : platform :=
  {| compensated_sum := false; max_list_length := 1000000 |}.

Definition compensated_platform : platform :=
  {| compensated_sum := true; max_list_length := 1000000 |}.

(** The sum of the exact values of finite floats, without rounding. *)
Fixpoint exact_sum (xs : list float) : option Q :=
  match xs with
  | [] => Some 0%Q
  | x :: rest =>
      match PyFloat.exact x, exact_sum rest with
      | Some q, Some r => Some (q + r)%Q
      | _, _ => None
      end
  end.

(** ** The wallet library, as the responder sees it *)

(** What a call into iota_sdk does: it returns or it raises. *)
Inductive lib_result (A : Type) : Type :=
| LibReturns (a : A)
| LibRaises (msg : string).
Arguments LibReturns {A} a.
Arguments LibRaises {A} msg.

(** What [send_transaction_any] returns: the SDK's transaction, or the dict
    [{"amount": "0", "timestamp": "0", "error": str(e)}] of its [except]. *)
Inductive tx_value : Type :=
| TxObject (repr : string)
| TxErrorDict (error : string).

(** [send_transaction_any] (IotaWallet.py, lines 268-312): every exception of
    the library is caught and turned into the error dict. *)
Definition send_transaction_any (library : lib_result string) : tx_value :=
  match library with
  | LibReturns tx => TxObject tx
  | LibRaises msg => TxErrorDict msg
  end.

(** ** The responder (IotaWallet.py, lines 656-726) *)

Record responder_state : Type := {
  starting_balance : float;
  total_received : float;
  total_responded : float;
  response_amounts : list float;
  idx : nat
}.

(** What one poll cycle meets: the balance [get_available_balances] reads and
    what the library would do with a transfer in that cycle. *)
Record observation : Type := {
  current_balance : float;
  send_outputs : lib_result string
}.

Inductive event : Type :=
| Sleep
| PrintNetReceived (net_increment : float)
| CallSend (custom_amount : Z)
| PrintSent (tx : tx_value)
| PrintSendError (e : py_exn)
| PrintAllSent
| PrintMaxReached
| PrintCompleted.

Inductive control : Type := NextIteration | Break.

Definition net_increment (st : responder_state) (current : float) : float :=
  (current - (starting_balance st + total_received st - total_responded st))%float.

(** The [if] of line 697. *)
Definition triggered (st : responder_state) (net : float) : bool :=
  PrimFloat.ltb 0 net || PrimFloat.eqb (total_responded st) 0.

(** The [if] of line 722, at the end of the loop body. *)
Definition check_cap (max_amount_received : float) (st : responder_state)
  : control * responder_state * list event :=
  if PrimFloat.leb max_amount_received (total_received st)
  then (Break, st, [PrintMaxReached])
  else (NextIteration, st, []).

(** The body of the [while] loop, lines 692-724. *)
Definition poll_cycle (max_amount_received : float) (o : observation)
    (st : responder_state) : control * responder_state * list event :=
  let net := net_increment st (current_balance o) in
  if triggered st net then
    let st1 := {| starting_balance := starting_balance st;
                  total_received := (total_received st + net)%float;
                  total_responded := total_responded st;
                  response_amounts := response_amounts st;
                  idx := idx st |} in
    match response_amounts st1 !! idx st1 with
    | Some send_amt =>
        match PyFloat.to_int (send_amt * 1000000)%float with
        | Returned custom_amount =>
            let tx := send_transaction_any (send_outputs o) in
            let st2 := {| starting_balance := starting_balance st1;
                          total_received := total_received st1;
                          total_responded := (total_responded st1 + send_amt)%float;
                          response_amounts := response_amounts st1;
                          idx := S (idx st1) |} in
            let '(c, st3, evs) := check_cap max_amount_received st2 in
            (c, st3,
             [Sleep; PrintNetReceived net; CallSend custom_amount; PrintSent tx] ++ evs)
        | Raised e =>
            (NextIteration, st1, [Sleep; PrintNetReceived net; PrintSendError e])
        end
    | None => (Break, st1, [Sleep; PrintNetReceived net; PrintAllSent])
    end
  else
    let '(c, st3, evs) := check_cap max_amount_received st in
    (c, st3, Sleep :: evs).

(** How a run over finitely many observations ends: the function returned, or
    the loop is in [time.sleep] waiting for the next observation. *)
Inductive run : Type :=
| Completed (st : responder_state) (trace : list event)
| Polling (st : responder_state) (trace : list event).

Definition prepend (evs : list event) (r : run) : run :=
  match r with
  | Completed st tr => Completed st (evs ++ tr)
  | Polling st tr => Polling st (evs ++ tr)
  end.

(** The [while] loop of line 691 and the [print] of line 726. *)
Fixpoint responder_loop (max_amount_received : float) (obs : list observation)
    (st : responder_state) : run :=
  if PrimFloat.ltb (total_received st) max_amount_received then
    match obs with
    | [] => Polling st []
    | o :: rest =>
        let '(c, st', evs) := poll_cycle max_amount_received o st in
        match c with
        | Break => Completed st' (evs ++ [PrintCompleted])
        | NextIteration => prepend evs (responder_loop max_amount_received rest st')
        end
    end
  else Completed st [PrintCompleted].

Definition initial_state (start : float) (amounts : list float) : responder_state :=
  {| starting_balance := start;
     total_received := 0;
     total_responded := 0;
     response_amounts := amounts;
     idx := 0 |}.

(** [responder_transaction_with_self_sent_adjustment]: the first balance read
    is [start]; the later ones are [obs]. *)
Definition responder_transaction_with_self_sent_adjustment (py : platform)
    (start : float) (obs : list observation)
    (max_amount_received max_response_amount : float) (divisor : Z)
  : py_result run :=
  let! amounts := build_response_amounts float_arith py max_response_amount divisor in
  Returned (responder_loop max_amount_received obs (initial_state start amounts)).

Definition trace_of (r : run) : list event :=
  match r with Completed _ tr => tr | Polling _ tr => tr end.

(** The number of poll cycles begun: each starts with [time.sleep(5)]. *)
Definition polls (tr : list event) : nat :=
  length (omap (fun e => match e with Sleep => Some tt | _ => None end) tr).

(** The amounts handed to [send_transaction_any], in order. *)
Definition sends (tr : list event) : list Z :=
  omap (fun e => match e with CallSend a => Some a | _ => None end) tr.

(** The failures printed by the [except] of line 715. *)
Definition send_errors (tr : list event) : list py_exn :=
  omap (fun e => match e with PrintSendError x => Some x | _ => None end) tr.

(** The net increments printed by line 699, in order. *)
Definition printed_nets (tr : list event) : list float :=
  omap (fun e => match e with PrintNetReceived n => Some n | _ => None end) tr.

(** ** Strings of the interpreter

    A Python [str] is modelled by its code points below 256 (an HTTP header is
    decoded as Latin-1); in that range [\d] is [0-9]. *)

Module PyStr.

Definition is_digit (c : ascii) : bool :=
  let n := nat_of_ascii c in (48 <=? n)%nat && (n <=? 57)%nat.

(** [str.isspace] below 256: TAB..CR, FS..US, SPACE, NEL, NBSP. *)
Definition is_space (c : ascii) : bool :=
  let n := nat_of_ascii c in
  ((9 <=? n)%nat && (n <=? 13)%nat) || ((28 <=? n)%nat && (n <=? 32)%nat)
  || (n =? 133)%nat || (n =? 160)%nat.

Definition flush (word : string) (acc : list string) : list string :=
  match word with
  | EmptyString => acc
  | _ => word :: acc
  end.

(** [s.split()]: the maximal runs of non-space characters. [word] is the
    run being read. *)
Fixpoint split_from (word : string) (s : string) : list string :=
  match s with
  | EmptyString => flush word []
  | String c rest =>
      if is_space c then flush word (split_from EmptyString rest)
      else split_from (String.append word (String c EmptyString)) rest
  end.

Definition split (s : string) : list string := split_from EmptyString s.

(** [s.startswith(p)] *)
Definition startswith (p s : string) : bool := String.prefix p s.

(** The longest prefix of digits, and what follows it. *)
Fixpoint span_digits (s : string) : string * string :=
  match s with
  | String c rest =>
      if is_digit c then let '(d, t) := span_digits rest in (String c d, t)
      else (EmptyString, s)
  | EmptyString => (EmptyString, EmptyString)
  end.

Definition digit_value (c : ascii) : Z := Z.of_nat (nat_of_ascii c) - 48.

Fixpoint decimal_from (acc : Z) (s : string) : Z :=
  match s with
  | EmptyString => acc
  | String c rest => decimal_from (10 * acc + digit_value c) rest
  end.

(** [int(s)] for a string of decimal digits. [max_str_digits] is the
    interpreter's [sys.get_int_max_str_digits()] (0: no limit; 4300 by default
    where the limit exists): more digits raise [ValueError]. *)
Definition int_of_digits (max_str_digits : Z) (s : string) : py_result Z :=
  let n := Z.of_nat (String.length s) in
  if (0 <? max_str_digits) && (640 <? n) && (max_str_digits <? n)
  then Raised ValueError
  else Returned (decimal_from 0 s).

(** [str(n)] for an int, under the same limit. *)
Definition of_int (max_str_digits : Z) (n : Z) : py_result string :=
  let s := NilZero.string_of_int (Z.to_int n) in
  let digits := Z.of_nat (String.length s) - (if n <? 0 then 1 else 0) in
  if (0 <? max_str_digits) && (640 <? digits) && (max_str_digits <? digits)
  then Raised ValueError
  else Returned s.

End PyStr.

(** ** Balance parsing (IotaWallet.py, lines 562-573; FreeSwapP2P.py, 93-101) *)

(** [s[i:]] *)
Definition suffix_from (i : nat) (s : string) : string :=
  String.substring i (String.length s - i) s.

(** [available='(\d+)'] matched at the start of [s]: the captured digits. *)
Definition match_available_here (s : string) : option string :=
  if PyStr.startswith "available='" s then
    let '(digits, tail) := PyStr.span_digits (suffix_from 11 s) in
    match digits, tail with
    | String _ _, String "'" _ => Some digits
    | _, _ => None
    end
  else None.

(** [re.search(r"available='(\d+)'", s)]: the leftmost match. *)
Fixpoint search_available (s : string) : option string :=
  match match_available_here s with
  | Some d => Some d
  | None =>
      match s with
      | EmptyString => None
      | String _ rest => search_available rest
      end
  end.

Section Parsing.
(** The interpreter's limit on the digits of an int in [int(str)] and
    [str(int)]. *)
Variable max_str_digits : Z.

Definition parse_available_balance (balance_str : string) : Z :=
  match
    match search_available balance_str with
    | Some d => PyStr.int_of_digits max_str_digits d
    | None => Returned 0
    end
  with
  | Returned n => n
  | Raised _ => 0
  end.

(** The argument of [_parse_balance_to_micros], by what the function does
    with it: [str(raw)], [isinstance(raw, (int, float))], [int(round(raw))]. *)
Inductive py_value : Type :=
| PyInt (n : Z)
| PyNumber (str : py_result string) (rounded : py_result Z)
| PyObject (str : py_result string).

Definition py_str (raw : py_value) : py_result string :=
  match raw with
  | PyInt n => PyStr.of_int max_str_digits n
  | PyNumber s _ => s
  | PyObject s => s
  end.

(** The [try] block of [_parse_balance_to_micros]. *)
Definition parse_balance_try (raw : py_value) : py_result Z :=
  let! s := py_str raw in
  let parsed := parse_available_balance s in
  let! val := PyFloat.of_int parsed in
  PyFloat.round_int (val * 1000000)%float.

(** The [except] block. *)
Definition parse_balance_except (raw : py_value) : py_result Z :=
  match raw with
  | PyInt n => Returned n
  | PyNumber _ rounded => rounded
  | PyObject _ => Returned 0
  end.

Definition _parse_balance_to_micros (raw : py_value) : py_result Z :=
  match parse_balance_try raw with
  | Returned micros => Returned micros
  | Raised _ => parse_balance_except raw
  end.

End Parsing.

(** ** The HTTP facade (FreeSwapP2P.py) *)

Open Scope string_scope.

(** The value of [_SESSIONS[token]]. *)
Record session : Type := {
  sess_wallet : string;
  sess_account_name : string;
  sess_pin : string;
  sess_password : string
}.

(** What a handler answers: a JSON body, an [HTTPException], or an exception
    nobody caught (the framework answers 500). *)
Inductive response (A : Type) : Type :=
| Ok200 (body : A)
| HTTPException (status : Z) (detail : string)
| Unhandled (e : py_exn).
Arguments Ok200 {A} body.
Arguments HTTPException {A} status detail.
Arguments Unhandled {A} e.

Definition status_code {A} (r : response A) : Z :=
  match r with
  | Ok200 _ => 200
  | HTTPException status _ => status
  | Unhandled _ => 500
  end.

(** [_auth], lines 81-88. *)
Definition _auth (sessions : gmap string session) (authorization : option string)
  : response session :=
  match authorization with
  | None => HTTPException 401 "Missing or invalid Authorization header"
  | Some a =>
      if negb (PyStr.startswith "Bearer " a)
      then HTTPException 401 "Missing or invalid Authorization header"
      else
        match PyStr.split a !! 1%nat with
        | None => Unhandled IndexError
        | Some token =>
            match sessions !! token with
            | None => HTTPException 401 "Invalid or expired session"
            | Some sess => Ok200 sess
            end
        end
  end.

(** [_SMR_ADDR_RE]: [^smr1[qpzry9x8gf2tvdw0s3jn54khce6mua7l]{59}$]. *)
Definition bech32_charset : list ascii :=
  list_ascii_of_string "qpzry9x8gf2tvdw0s3jn54khce6mua7l".

Definition in_charset (c : ascii) : bool :=
  existsb (Ascii.eqb c) bech32_charset.

(** [_SMR_ADDR_RE.match(s)]: [$] is the end of the string or the place before
    a newline that ends it. *)
Definition smr_addr_match (s : string) : bool :=
  PyStr.startswith "smr1" s
  && forallb in_charset (list_ascii_of_string (String.substring 4 59 s))
  && (String.length (String.substring 4 59 s) =? 59)%nat
  && match String.substring 63 (String.length s - 63) s with
     | EmptyString => true
     | String c EmptyString => Ascii.eqb c "010"%char
     | _ => false
     end.

(** The calls into the wallet library made while a request is served. *)
Inductive lib_call : Type :=
| LibSignIn (account_name pin password : string)
| LibSync (wallet alias : string)
| LibAddresses (wallet alias : string)
| LibSendWithParams (wallet alias recipient amount : string).

(** The SDK's transaction object, by the attributes [send] reads. *)
Record sdk_tx : Type := {
  attr_id : option string;
  attr_transactionId : option string;
  attr_hash : option string;
  attr_amount : option Z
}.

(** What the wallet library answers while one request is served, and the
    token [secrets.token_urlsafe(32)] draws. *)
Record world : Type := {
  w_sign_in : lib_result (string * list string);
  w_token : string;
  w_sync : lib_result string;
  w_addresses : lib_result (list string);
  w_send_with_params : lib_result sdk_tx
}.

(** [SignInToAccount]: [(wallet, accounts)] or [(None, None)]. *)
Definition SignInToAccount (w : world) : option (string * list string) :=
  match w_sign_in w with
  | LibReturns r => Some r
  | LibRaises _ => None
  end.

(** What [send_transaction] returns (IotaWallet.py, lines 238-265): the SDK's
    object, or the dict [{'amount':'0','timestamp':'0'}] of its [except], which
    also catches [str(amount)] raising before the library is called. *)
Inductive sent : Type :=
| SentObject (tx : sdk_tx)
| SentZeroDict.

Definition send_transaction (w : world) : sent :=
  match w_send_with_params w with
  | LibReturns tx => SentObject tx
  | LibRaises _ => SentZeroDict
  end.

(** [get_my_balance], lines 549-559: the balance object, or [0]. *)
Definition get_my_balance (w : world) : py_value :=
  match w_sync w with
  | LibReturns repr => PyObject (Returned repr)
  | LibRaises _ => PyInt 0
  end.

(** [get_my_address_Reference], lines 517-527. *)
Definition get_my_address_Reference (w : world) : string :=
  match w_addresses w with
  | LibReturns (a :: _) => a
  | LibReturns [] => ""
  | LibRaises _ => ""
  end.

(** [x or y] on optional strings: [None] and [""] are false. *)
Definition py_or (x y : option string) : option string :=
  match x with
  | Some (String _ _) => x
  | _ => y
  end.

(** [raw or 0]: an int that is zero is false; the SDK's objects are true. *)
Definition py_or_zero (raw : py_value) : py_value :=
  match raw with
  | PyInt 0 => PyInt 0
  | _ => raw
  end.

Inductive body : Type :=
| TokenBody (token : string) (account : list string)
| OkBody
| AvailableBody (micros : Z)
| AddressBody (addr : string)
| SentBody (txid : option string) (amount : Z).

Record LoginRequest : Type := {
  login_account_name : string;
  login_pin : string;
  login_password : string
}.

Record SendRequest : Type := {
  recipient : string;
  amount : Z
}.

Inductive request : Type :=
| PostLogin (b : LoginRequest)
| PostLogout (authorization : option string)
| GetBalance (authorization : option string)
| GetAddress (authorization : option string)
| PostSend (authorization : option string) (b : SendRequest).

Section Routes.
Variable max_str_digits : Z.

(** [login], lines 104-116. *)
Definition login (w : world) (b : LoginRequest) (sessions : gmap string session)
  : gmap string session * response body * list lib_call :=
  let call := LibSignIn (login_account_name b) (login_pin b) (login_password b) in
  match SignInToAccount w with
  | Some (wallet, (_ :: _) as account) =>
      let token := w_token w in
      (<[token := {| sess_wallet := wallet;
                     sess_account_name := login_account_name b;
                     sess_pin := login_pin b;
                     sess_password := login_password b |}]> sessions,
       Ok200 (TokenBody token account), [call])
  | _ =>
      (sessions, HTTPException 401 "Invalid credentials or account not found", [call])
  end.

(** [logout], lines 134-139. *)
Definition logout (authorization : option string) (sessions : gmap string session)
  : gmap string session * response body * list lib_call :=
  match authorization with
  | Some a =>
      if PyStr.startswith "Bearer " a then
        match PyStr.split a !! 1%nat with
        | None => (sessions, Unhandled IndexError, [])
        | Some token => (delete token sessions, Ok200 OkBody, [])
        end
      else (sessions, Ok200 OkBody, [])
  | None => (sessions, Ok200 OkBody, [])
  end.

(** [balance], lines 141-148, once [_auth] has returned [sess]. *)
Definition balance (w : world) (sess : session) : response body * list lib_call :=
  let raw := py_or_zero (get_my_balance w) in
  match _parse_balance_to_micros max_str_digits raw with
  | Returned micros => (Ok200 (AvailableBody micros), [LibSync (sess_wallet sess) (sess_pin sess)])
  | Raised _ =>
      (HTTPException 500 "Failed to fetch balance", [LibSync (sess_wallet sess) (sess_pin sess)])
  end.

(** [address], lines 150-162. *)
Definition address (w : world) (sess : session) : response body * list lib_call :=
  let addr := get_my_address_Reference w in
  match addr with
  | EmptyString =>
      (HTTPException 404 "Address not found", [LibAddresses (sess_wallet sess) (sess_pin sess)])
  | _ => (Ok200 (AddressBody addr), [LibAddresses (sess_wallet sess) (sess_pin sess)])
  end.

(** [send], lines 164-176. *)
Definition send (w : world) (b : SendRequest) (sess : session)
  : response body * list lib_call :=
  if (amount b <=? 0)%Z then (HTTPException 400 "Amount must be > 0 (micro-SMR)", [])
  else if negb (smr_addr_match (recipient b))
  then (HTTPException 400 "Invalid recipient address format", [])
  else
    match PyStr.of_int max_str_digits (amount b) with
    | Raised _ => (Ok200 (SentBody None (amount b)), [])
    | Returned amount_str =>
        let call := LibSendWithParams (sess_wallet sess) (sess_pin sess) (recipient b)
                      amount_str in
        match send_transaction w with
        | SentObject tx =>
            let txid :=
              py_or (py_or (attr_id tx) (attr_transactionId tx)) (attr_hash tx) in
            let sent_amt := match attr_amount tx with Some a => a | None => amount b end in
            (Ok200 (SentBody txid sent_amt), [call])
        | SentZeroDict => (Ok200 (SentBody None (amount b)), [call])
        end
    end.

(** A route that depends on [_auth]: the handler runs only with a session. *)
Definition with_auth (sessions : gmap string session) (authorization : option string)
    (handler : session -> response body * list lib_call)
  : response body * list lib_call :=
  match _auth sessions authorization with
  | Ok200 sess => handler sess
  | HTTPException status detail => (HTTPException status detail, [])
  | Unhandled e => (Unhandled e, [])
  end.

(** One request served by the application. *)
Definition serve (w : world) (r : request) (sessions : gmap string session)
  : gmap string session * response body * list lib_call :=
  match r with
  | PostLogin b => login w b sessions
  | PostLogout a => logout a sessions
  | GetBalance a => let '(resp, calls) := with_auth sessions a (balance w) in (sessions, resp, calls)
  | GetAddress a => let '(resp, calls) := with_auth sessions a (address w) in (sessions, resp, calls)
  | PostSend a b => let '(resp, calls) := with_auth sessions a (send w b) in (sessions, resp, calls)
  end.

(** The session map after a sequence of requests, each with its world. *)
Fixpoint serve_all (rs : list (world * request)) (sessions : gmap string session)
  : gmap string session :=
  match rs with
  | [] => sessions
  | (w, r) :: rest => serve_all rest (serve w r sessions).1.1
  end.

End Routes.

(** What [secrets.token_urlsafe(32)] can return: 43 characters of the URL-safe
    base64 alphabet. *)
Definition urlsafe_char (c : ascii) : bool :=
  let n := nat_of_ascii c in
  ((48 <=? n)%nat && (n <=? 57)%nat) || ((65 <=? n)%nat && (n <=? 90)%nat)
  || ((97 <=? n)%nat && (n <=? 122)%nat) || (n =? 45)%nat || (n =? 95)%nat.

Definition token_urlsafe (t : string) : bool :=
  (String.length t =? 43)%nat && forallb urlsafe_char (list_ascii_of_string t).

(** The session maps the application can hold: it starts empty and changes
    only by serving requests, every token drawn by [token_urlsafe]. *)
Inductive reachable (max_str_digits : Z) : gmap string session -> Prop :=
| reachable_start : reachable max_str_digits ∅
| reachable_serve (w : world) (r : request) (sessions : gmap string session) :
    reachable max_str_digits sessions ->
    token_urlsafe (w_token w) = true ->
    reachable max_str_digits (serve max_str_digits w r sessions).1.1.

(** The routes that depend on [_auth], called with a given header. *)
Inductive authenticated_call (authorization : option string) : request -> Prop :=
| call_balance : authenticated_call authorization (GetBalance authorization)
| call_address : authenticated_call authorization (GetAddress authorization)
| call_send (b : SendRequest) : authenticated_call authorization (PostSend authorization b).

(** Sample data for the examples below. *)
Definition sample_token : string := "kq3Xh0Zr8sV1yTn5LbWc2Gd7Ja9MePfQ4uRiYoA6Bx-".

Definition sample_recipient : string :=
  "smr1qpzry9x8gf2tvdw0s3jn54khce6mua7lqpzry9x8gf2tvdw0s3jn54khce6".

Definition sample_session : session :=
  {| sess_wallet := "wallet"; sess_account_name := "alice";
     sess_pin := "1234"; sess_password := "secret" |}.

(** A world in which the library answers every call. *)
Definition sample_world : world :=
  {| w_sign_in := LibReturns ("wallet", ["Account(alias=1234)"]);
     w_token := sample_token;
     w_sync := LibReturns "Balance(baseCoin=BaseCoinBalance(total='5000000', available='4000000'))";
     w_addresses := LibReturns [sample_recipient];
     w_send_with_params :=
       LibReturns {| attr_id := None; attr_transactionId := Some "0xabc";
                     attr_hash := None; attr_amount := None |} |}.

(** A world in which every call into the library raises. *)
Definition failing_world : world :=
  {| w_sign_in := LibRaises "node unreachable";
     w_token := sample_token;
     w_sync := LibRaises "node unreachable";
     w_addresses := LibRaises "node unreachable";
     w_send_with_params := LibRaises "insufficient funds" |}.

(** The responder of the run of C5 once its only chunk is sent: 5 received,
    1 paid back, the schedule exhausted. *)
Definition exhausted_state : responder_state :=
  {| starting_balance := 100; total_received := 5; total_responded := 1;
     response_amounts := [1%float]; idx := 1 |}.

(** A poll that reads balance [b] while the wallet works. *)
Definition steady (b : float) : observation :=
  {| current_balance := b; send_outputs := LibReturns "tx" |}.



Close Scope string_scope.

(** ** Further helpers of the model *)

(** The state a run ends in. *)
Definition state_of (r : run) : responder_state :=
  match r with Completed st _ => st | Polling st _ => st end.

(** [int(x * 1_000_000)] for each chunk in turn, as line 708 converts it. *)
Definition chunk_micros (chunks : list float) : list (py_result Z) :=
  map (fun x => PyFloat.to_int (x * 1000000)%float) chunks.

(** What may follow a word of a header: nothing, or text that starts with a
    space. *)
Definition starts_with_space_or_empty (tail : string) : bool :=
  match tail with
  | EmptyString => true
  | String c _ => PyStr.is_space c
  end.

(** A float that is not a negative finite number: a zero, a positive finite
    number, an infinity or a NaN. *)
Definition no_negative_finite (x : spec_float) : bool :=
  match x with
  | S754_finite true _ _ => false
  | _ => true
  end.

(** ** Slices and the folder helpers (IotaWallet.py, lines 730-761) *)

Module PySlice.

(** A bound of [l[start:stop:step]] brought into range, for a list of
    length [n]. *)
Definition bound (n step i : Z) : Z :=
  if i <? 0 then
    (if i + n <? 0 then (if step <? 0 then -1 else 0) else i + n)
  else if n <=? i then (if step <? 0 then n - 1 else n)
  else i.

Definition start_of (n step : Z) (start : option Z) : Z :=
  match start with
  | Some i => bound n step i
  | None => if step <? 0 then n - 1 else 0
  end.

Definition stop_of (n step : Z) (stop : option Z) : Z :=
  match stop with
  | Some i => bound n step i
  | None => if step <? 0 then -1 else n
  end.

(** The number of items of the slice. *)
Definition count (start stop step : Z) : Z :=
  if step <? 0 then
    (if stop <? start then (start - stop - 1) / (- step) + 1 else 0)
  else
    (if start <? stop then (stop - start - 1) / step + 1 else 0).

(** [l[i], l[i + step], ...], [n] items. *)
Fixpoint items {A} (l : list A) (i step : Z) (n : nat) : list A :=
  match n with
  | O => []
  | S n' =>
      match l !! Z.to_nat i with
      | Some x => x :: items l (i + step) step n'
      | None => []
      end
  end.

(** [l[start:stop:step]] for [step <> 0]. *)
Definition slice {A} (l : list A) (start stop : option Z) (step : Z) : list A :=
  let n := Z.of_nat (length l) in
  let a := start_of n step start in
  let b := stop_of n step stop in
  items l a step (Z.to_nat (count a b step)).

End PySlice.

(** [create_character_folder], lines 751-761, on a text as the list of its
    code points, whatever the code points are. [lower] is [str.lower] of the
    interpreter, taken as it is: it can change the length of a text. [slash] is
    the code point of [/]. *)
Section CharacterFolder.
Context {char : Type} (lower : list char -> list char) (slash : char).

(** [sep.join(parts)] *)
Fixpoint py_join (sep : list char) (parts : list (list char)) : list char :=
  match parts with
  | [] => []
  | [p] => p
  | p :: rest => p ++ sep ++ py_join sep rest
  end.

(** [list(s)]: the characters of [s], each a text. *)
Definition chars_of (s : list char) : list (list char) := map (fun c => [c]) s.

Definition create_character_folder (character_name : option (list char))
  : option (list char) :=
  match character_name with
  | None => None
  | Some name =>
      let s := lower name in
      let tail := PySlice.slice (PySlice.slice s (Some (-8)) None (-1)) None None (-1) in
      let parts := chars_of (PySlice.slice s (Some (-7)) None 1) in
      Some (py_join [slash] parts ++ [slash] ++ tail)
  end.

End CharacterFolder.




(** ** Transaction text (IotaWallet.py, lines 316-332 and 389-411) *)

Module PyRe.

Definition is_hex (c : ascii) : bool :=
  let n := nat_of_ascii c in
  ((48 <=? n)%nat && (n <=? 57)%nat) || ((65 <=? n)%nat && (n <=? 70)%nat)
  || ((97 <=? n)%nat && (n <=? 102)%nat).

(** The longest prefix of characters of a class, and what follows it. *)
Fixpoint span (cls : ascii -> bool) (s : string) : string * string :=
  match s with
  | String c rest =>
      if cls c then let '(run, t) := span cls rest in (String c run, t)
      else (EmptyString, s)
  | EmptyString => (EmptyString, EmptyString)
  end.

(** The pattern [lit(C+)'] matched at the start of [s], [lit] a literal text
    and [C] a class of characters: the run captured and the length of the
    match. The run is greedy, and giving characters back cannot help, since a
    character of the class is not a quote. *)
Definition match_run_here (lit : string) (cls : ascii -> bool) (s : string)
  : option (string * nat) :=
  if PyStr.startswith lit s then
    let '(run, tail) := span cls (suffix_from (String.length lit) s) in
    match run, tail with
    | String _ _, String "'" _ =>
        Some (run, (String.length lit + String.length run + 1)%nat)
    | _, _ => None
    end
  else None.

(** [re.search]: the capture of the leftmost match of a pattern given by its
    matcher at a position. *)
Fixpoint search {X} (m : string -> option (X * nat)) (s : string) : option X :=
  match m s with
  | Some (x, _) => Some x
  | None =>
      match s with
      | EmptyString => None
      | String _ rest => search m rest
      end
  end.

(** [re.findall]: the captures of the matches from left to right, each search
    resuming where the last match ended. [skip] counts the characters of the
    last match still to pass. *)
Fixpoint findall_from {X} (m : string -> option (X * nat)) (skip : nat)
    (s : string) {struct s} : list X :=
  match skip with
  | S k =>
      match s with
      | String _ rest => findall_from m k rest
      | EmptyString => []
      end
  | O =>
      match m s with
      | Some (x, len) =>
          x :: match s with
               | String _ rest => findall_from m (len - 1) rest
               | EmptyString => []
               end
      | None =>
          match s with
          | String _ rest => findall_from m 0 rest
          | EmptyString => []
          end
      end
  end.

Definition findall {X} (m : string -> option (X * nat)) (s : string) : list X :=
  findall_from m 0 s.

End PyRe.

Open Scope string_scope.

(** ['amount': '(\d+)'] *)
Definition amount_pattern (s : string) : option (string * nat) :=
  PyRe.match_run_here "'amount': '" PyStr.is_digit s.

(** [timestamp='(\d+)'] *)
Definition timestamp_pattern (s : string) : option (string * nat) :=
  PyRe.match_run_here "timestamp='" PyStr.is_digit s.

(** ['transactionId': '(0x[0-9a-fA-F]+)'|transactionId='(0x[0-9a-fA-F]+)']: the
    two groups, the one that did not take part empty. *)
Definition transaction_id_pattern (s : string) : option ((string * string) * nat) :=
  match PyRe.match_run_here "'transactionId': '0x" PyRe.is_hex s with
  | Some (run, len) => Some (("0x" ++ run, ""), len)
  | None =>
      match PyRe.match_run_here "transactionId='0x" PyRe.is_hex s with
      | Some (run, len) => Some (("", "0x" ++ run), len)
      | None => None
      end
  end.

Section TransactionText.
Variable max_str_digits : Z.

(** [int(m.group(1)) if m else None] *)
Definition int_of_match (m : option string) : py_result (option Z) :=
  match m with
  | Some d => let! n := PyStr.int_of_digits max_str_digits d in Returned (Some n)
  | None => Returned None
  end.

(** [parse_transaction_data], lines 316-332; [str] is what
    [str(transaction_data)] does. *)
Definition parse_transaction_data (str : py_result string) : option Z * option Z :=
  match
    (let! s := str in
     let! amount := int_of_match (PyRe.search amount_pattern s) in
     let! s' := str in
     let! timestamp := int_of_match (PyRe.search timestamp_pattern s') in
     Returned (amount, timestamp))
  with
  | Returned r => r
  | Raised _ => (None, None)
  end.

(** The loop of lines 408-409: [int] of each match in turn. *)
Fixpoint ints_of (matches : list string) : py_result (list Z) :=
  match matches with
  | [] => Returned []
  | d :: rest =>
      let! n := PyStr.int_of_digits max_str_digits d in
      let! ns := ints_of rest in
      Returned (n :: ns)
  end.

(** [parse_transaction_string], lines 389-411. *)
Definition parse_transaction_string (input_string : string)
  : py_result (list string * list string * list Z) :=
  let transaction_id_matches := PyRe.findall transaction_id_pattern input_string in
  let transaction_ids1 :=
    omap (fun '(match1, _) =>
            match match1 with String _ _ => Some match1 | EmptyString => None end)
      transaction_id_matches in
  let transaction_ids2 :=
    omap (fun '(match1, match2) =>
            match match1, match2 with
            | EmptyString, String _ _ => Some match2
            | _, _ => None
            end)
      transaction_id_matches in
  let! amounts := ints_of (PyRe.findall amount_pattern input_string) in
  Returned (transaction_ids1, transaction_ids2, amounts).

End TransactionText.

(** [0x] and at least one hexadecimal digit: what the identifier pattern
    captures, and how the library writes the amount of a native token. *)
Definition is_hex_literal (s : string) : bool :=
  match s with
  | String "0" (String "x" (String c rest)) =>
      forallb PyRe.is_hex (c :: list_ascii_of_string rest)
  | _ => false
  end.

(** The text of the dict that [send_transaction] returns when the library
    raises, up to its closing brace; [send_transaction_any] adds an [error]
    entry before the brace. *)
Definition zero_dict_text : string := "{'amount': '0', 'timestamp': '0'".

(** ** Outputs and native tokens (IotaWallet.py, lines 414-455) *)

Module PyInt16.

(** The characters that [int] skips around a literal, below 256: TAB..CR and
    SPACE, and of the characters above 127 those that are spaces, NEL and
    NBSP. FS..US, spaces for [str.split], are not skipped. *)
Definition is_space (c : ascii) : bool :=
  let n := nat_of_ascii c in
  ((9 <=? n)%nat && (n <=? 13)%nat) || (n =? 32)%nat || (n =? 133)%nat
  || (n =? 160)%nat.

Fixpoint lstrip (s : string) : string :=
  match s with
  | String c rest => if is_space c then lstrip rest else s
  | EmptyString => EmptyString
  end.

Definition hex_value (c : ascii) : option Z :=
  let n := nat_of_ascii c in
  if (48 <=? n)%nat && (n <=? 57)%nat then Some (Z.of_nat n - 48)
  else if (65 <=? n)%nat && (n <=? 70)%nat then Some (Z.of_nat n - 55)
  else if (97 <=? n)%nat && (n <=? 102)%nat then Some (Z.of_nat n - 87)
  else None.

(** The digits of a literal, single underscores allowed between them: the
    value and the text left. [None] is a syntax error: two underscores in a
    row, or one at the end. *)
Fixpoint hex_run (acc : Z) (prev_underscore : bool) (s : string)
  : option (Z * string) :=
  match s with
  | String c rest =>
      if Ascii.eqb c "_" then
        if prev_underscore then None else hex_run acc true rest
      else
        match hex_value c with
        | Some v => hex_run (16 * acc + v) false rest
        | None => if prev_underscore then None else Some (acc, s)
        end
  | EmptyString => if prev_underscore then None else Some (acc, EmptyString)
  end.

(** [int(s, 16)] for a string of characters below 256: spaces, a sign, [0x]
    or [0X] and one underscore, the digits, spaces. A power of two as base is
    free of the digit limit. *)
Definition int_base16 (s : string) : py_result Z :=
  let s1 := lstrip s in
  let '(sign, s2) :=
    match s1 with
    | String "+" r => (1, r)
    | String "-" r => (-1, r)
    | _ => (1, s1)
    end in
  let s3 :=
    match s2 with
    | String "0" (String x r) =>
        if Ascii.eqb x "x" || Ascii.eqb x "X" then
          match r with
          | String "_" r' => r'
          | _ => r
          end
        else s2
    | _ => s2
    end in
  match s3 with
  | String c _ =>
      match hex_value c with
      | Some _ =>
          match hex_run 0 false s3 with
          | Some (v, rest) =>
              match lstrip rest with
              | EmptyString => Returned (sign * v)
              | String _ _ => Raised ValueError
              end
          | None => Raised ValueError
          end
      | None => Raised ValueError
      end
  | EmptyString => Raised ValueError
  end.

End PyInt16.

(** A native token of an output, its amount a text. *)
Record native_token : Type := {
  token_id : string;
  token_amount : string
}.

(** What the two lookups read of an [output_data]: [outputId],
    [metadata.transactionId], [metadata.milestoneTimestampBooked],
    [output.nativeTokens] ([None] or a list), [isSpent] and
    [address.pubKeyHash]. *)
Record output_data : Type := {
  outputId : string;
  transactionId : string;
  milestoneTimestampBooked : Z;
  nativeTokens : option (list native_token);
  isSpent : bool;
  pubKeyHash : string
}.

(** The tokens that [if output.nativeTokens: for token in output.nativeTokens]
    visits. *)
Definition tokens_of (o : output_data) : list native_token :=
  match nativeTokens o with
  | Some tokens => tokens
  | None => []
  end.

(** The dict of lines 423-430. *)
Record token_match : Type := {
  match_outputId : string;
  match_transactionId : string;
  match_amount : Z;
  match_isSpent : bool;
  match_timestampBooked : Z;
  match_address : string
}.

(** The inner loop of lines 421-422: the first token of the id. *)
Fixpoint first_token (id : string) (tokens : list native_token)
  : option native_token :=
  match tokens with
  | [] => None
  | token :: rest =>
      if String.eqb (token_id token) id then Some token else first_token id rest
  end.

(** [find_transaction_by_token], lines 414-432: what it returns and the lines
    it prints. *)
Fixpoint find_transaction_by_token (outputs : list output_data) (id : string)
  : py_result (option token_match * list string) :=
  match outputs with
  | [] => Returned (None, ["No transaction found for token ID '" ++ id ++ "'."])
  | output_data :: rest =>
      match first_token id (tokens_of output_data) with
      | Some token =>
          let! amount := PyInt16.int_base16 (token_amount token) in
          Returned (Some {| match_outputId := outputId output_data;
                            match_transactionId := transactionId output_data;
                            match_amount := amount;
                            match_isSpent := isSpent output_data;
                            match_timestampBooked := milestoneTimestampBooked output_data;
                            match_address := pubKeyHash output_data |}, [])
      | None => find_transaction_by_token rest id
      end
  end.

(** The dict of lines 445-449. *)
Record latest_details : Type := {
  latest_tokenId : string;
  latest_amount : Z;
  latest_timestampBooked : Z
}.

(** The inner loop of lines 444-451 on the tokens of one output. *)
Fixpoint scan_tokens (timestamp : Z) (tokens : list native_token)
    (latest : option latest_details) : py_result (option latest_details) :=
  match tokens with
  | [] => Returned latest
  | token :: rest =>
      let! amount := PyInt16.int_base16 (token_amount token) in
      let details := {| latest_tokenId := token_id token;
                        latest_amount := amount;
                        latest_timestampBooked := timestamp |} in
      scan_tokens timestamp rest
        match latest with
        | None => Some details
        | Some l =>
            if (latest_timestampBooked l <? timestamp)%Z then Some details
            else latest
        end
  end.

(** The loop of lines 440-451. *)
Fixpoint scan_outputs (outputs : list output_data) (hex_address : string)
    (latest : option latest_details) : py_result (option latest_details) :=
  match outputs with
  | [] => Returned latest
  | output_data :: rest =>
      if String.eqb (pubKeyHash output_data) hex_address then
        let! latest' :=
          scan_tokens (milestoneTimestampBooked output_data)
            (tokens_of output_data) latest in
        scan_outputs rest hex_address latest'
      else scan_outputs rest hex_address latest
  end.

(** [find_latest_transaction_by_address], lines 435-455. *)
Definition find_latest_transaction_by_address (outputs : list output_data)
    (hex_address : string) : py_result (option latest_details * list string) :=
  let! latest := scan_outputs outputs hex_address None in
  match latest with
  | Some details => Returned (Some details, [])
  | None =>
      Returned (None, ["No transaction found for address '" ++ hex_address ++ "'."])
  end.

(** ** Balances (IotaWallet.py, lines 576-593) *)

(** A native token of a balance, its available amount a text. *)
Record balance_token : Type := {
  tokenId : string;
  available : string
}.

(** What [get_my_balance] hands over: the int 0 of its [except], or the
    balance object of the library, read through [nativeTokens] ([None] or a
    list) and through [float(balance.baseCoin.available)], an outcome of the
    interpreter. *)
Inductive balance_value : Type :=
| NoBalance
| Balance (tokens : option (list balance_token))
    (base_coin_available : py_result float).

(** The lines that [get_available_balances] prints: the id not found, or the
    line of one of its two [except] clauses. *)
Inductive balance_event : Type :=
| PrintTokenNotFound (token_id : string)
| PrintFailure.

(** The loop of lines 582-584: the first token of the id. *)
Fixpoint first_balance_token (id : string) (tokens : list balance_token)
  : option balance_token :=
  match tokens with
  | [] => None
  | token :: rest =>
      if String.eqb (tokenId token) id then Some token
      else first_balance_token id rest
  end.

(** [get_available_balances], lines 576-593. An attribute of the int 0 is an
    [AttributeError] and a loop over [None] a [TypeError]; [if token_id] holds
    for a string that is not empty. *)
Definition get_available_balances (balance : balance_value)
    (token_id : option string) : float * list balance_event :=
  match balance with
  | NoBalance => (0%float, [PrintFailure])
  | Balance tokens base_coin_available =>
      match token_id with
      | Some (String c id) =>
          match tokens with
          | Some tokens =>
              match first_balance_token (String c id) tokens with
              | Some token =>
                  match (let! n := PyInt16.int_base16 (available token) in
                         PyFloat.of_int n) with
                  | Returned x => (x, [])
                  | Raised _ => (0%float, [PrintFailure])
                  end
              | None => (0%float, [PrintTokenNotFound (String c id)])
              end
          | None => (0%float, [PrintFailure])
          end
      | _ =>
          match base_coin_available with
          | Returned x => (x, [])
          | Raised _ => (0%float, [PrintFailure])
          end
      end
  end.

(** Three outputs of one address, the last two booked at the same time. *)
Definition sample_first_output : output_data :=
  {| outputId := "0xa0"; transactionId := "0xa"; milestoneTimestampBooked := 10;
     nativeTokens := Some [{| token_id := "0x07"; token_amount := "0x5" |}];
     isSpent := false; pubKeyHash := "0x01" |}.

Definition sample_second_output : output_data :=
  {| outputId := "0xb0"; transactionId := "0xb"; milestoneTimestampBooked := 20;
     nativeTokens := Some [{| token_id := "0x08"; token_amount := "0x1f" |};
                           {| token_id := "0x09"; token_amount := "0x2" |}];
     isSpent := true; pubKeyHash := "0x01" |}.

Definition sample_third_output : output_data :=
  {| outputId := "0xc0"; transactionId := "0xc"; milestoneTimestampBooked := 20;
     nativeTokens := Some [{| token_id := "0x09"; token_amount := "zz" |}];
     isSpent := true; pubKeyHash := "0x02" |}.

Close Scope string_scope.

(** * Properties *)

(** ** Comparisons of binary64 *)

Section FloatOrder.

Lemma SFcompare_antisym (x y : spec_float) :
  SFcompare y x = option_map CompOpp (SFcompare x y).
Proof.
  destruct x as [sx|sx| |sx mx ex], y as [sy|sy| |sy my ey]; simpl;
    try reflexivity;
    try (destruct sx; reflexivity); try (destruct sy; reflexivity);
    try (destruct sx, sy; reflexivity).
  pose proof (Pos.compare_cont_antisym mx my Eq) as H. cbn in H.
  destruct sx, sy; simpl; try reflexivity;
    rewrite (Z.compare_antisym ex ey);
    destruct (ex ?= ey)%Z; simpl; try reflexivity.
  - do 2 f_equal. symmetry. exact H.
  - f_equal. symmetry. exact H.
Qed.

(** [x >= y] excludes [x < y], also when one of them is a NaN. *)
Lemma float_leb_not_ltb (x y : float) :
  PrimFloat.leb y x = true -> PrimFloat.ltb x y = false.
Proof.
  rewrite FloatAxioms.leb_spec, FloatAxioms.ltb_spec. unfold SFleb, SFltb.
  rewrite (SFcompare_antisym (Prim2SF x) (Prim2SF y)).
  destruct (SFcompare (Prim2SF x) (Prim2SF y)) as [[| |]|]; simpl; congruence.
Qed.

End FloatOrder.

(** ** The responder *)

Section Responder.

Variable max_amount_received : float.

Lemma poll_cycle_not_triggered (o : observation) (st : responder_state) :
  triggered st (net_increment st (current_balance o)) = false ->
  exists c evs,
    poll_cycle max_amount_received o st = (c, st, Sleep :: evs)
    /\ sends evs = [].
Proof.
  intros Hn. unfold poll_cycle. rewrite Hn. unfold check_cap.
  destruct (PrimFloat.leb _ _); eexists _, _; split; reflexivity.
Qed.

Lemma check_cap_state (st : responder_state) :
  (check_cap max_amount_received st).1.2 = st.
Proof. unfold check_cap. destruct (PrimFloat.leb _ _); reflexivity. Qed.

Lemma check_cap_sends (st : responder_state) :
  sends (check_cap max_amount_received st).2 = [].
Proof. unfold check_cap. destruct (PrimFloat.leb _ _); reflexivity. Qed.

(** Where the loop stands after a cycle that did not break: the cap is
    tested again at the head of the loop. *)
Lemma responder_loop_at_cap (obs : list observation) (st : responder_state) :
  PrimFloat.leb max_amount_received (total_received st) = true ->
  responder_loop max_amount_received obs st = Completed st [PrintCompleted].
Proof.
  intros H. apply float_leb_not_ltb in H.
  destruct obs; simpl; rewrite H; reflexivity.
Qed.

End Responder.

(** C1: in every poll cycle the net increment is
    [current_balance - (starting_balance + total_received - total_responded)];
    it is the value the cycle prints and adds to [total_received] when the
    cycle is triggered; for 100, 20, 15 and 112 it is 7. *)
Theorem C1_net_increment_formula :
  (forall (cap : float) (o : observation) (st : responder_state),
      let net := (current_balance o
                  - (starting_balance st + total_received st - total_responded st))%float in
      net_increment st (current_balance o) = net
      /\ total_received (poll_cycle cap o st).1.2
         = (if triggered st net then (total_received st + net)%float
            else total_received st)
      /\ printed_nets (poll_cycle cap o st).2
         = (if triggered st net then [net] else []))
  /\ net_increment
       {| starting_balance := 100; total_received := 20; total_responded := 15;
          response_amounts := []; idx := 0 |} 112 = 7%float.
Proof.
  split; [|reflexivity].
  intros cap o st net. split; [reflexivity|].
  unfold poll_cycle. fold net. change (net_increment st (current_balance o)) with net.
  destruct (triggered st net); simpl.
  - destruct (response_amounts st !! idx st) as [amt|]; simpl; [|now split].
    destruct (PyFloat.to_int _); simpl; [|now split].
    destruct (check_cap cap _) as [[c st3] evs] eqn:E. simpl.
    assert (printed_nets evs = []) as ->
      by (revert E; unfold check_cap; destruct (PrimFloat.leb _ _); intros [= _ _ <-]; reflexivity).
    pose proof (check_cap_state cap
      {| starting_balance := starting_balance st;
         total_received := (total_received st + net)%float;
         total_responded := (total_responded st + amt)%float;
         response_amounts := response_amounts st; idx := S (idx st) |}) as Hs.
    rewrite E in Hs. simpl in Hs. subst st3. now split.
  - destruct (check_cap cap st) as [[c st3] evs] eqn:E. simpl.
    assert (printed_nets evs = []) as ->
      by (revert E; unfold check_cap; destruct (PrimFloat.leb _ _); intros [= _ _ <-]; reflexivity).
    pose proof (check_cap_state cap st) as Hs. rewrite E in Hs. simpl in Hs.
    subst st3. now split.
Qed.

(** ** The response schedule *)

Section ScheduleFacts.
Context {num : Type} (A : arith num) (py : platform).

Lemma repeat_snoc (x : num) (n : nat) : repeat x (S n) = repeat x n ++ [x].
Proof. induction n as [|n IH]; simpl; [reflexivity|]. f_equal. exact IH. Qed.

Lemma add_to_last_snoc (xs : list num) (x d : num) :
  add_to_last A (xs ++ [x]) d = Returned (xs ++ [a_add A x d]).
Proof.
  unfold add_to_last. rewrite last_snoc. f_equal.
  rewrite length_app. simpl. rewrite Nat.add_1_r. simpl.
  induction xs as [|y ys IH]; simpl; [reflexivity|]. f_equal. exact IH.
Qed.

(** A length from 1 up to what memory allows gives the list. *)
Lemma list_times_fits (x : num) (n : Z) :
  1 <= n -> n <= maxsize / 8 -> n <= Zpos (max_list_length py) ->
  list_times py x n = Returned (repeat x (Z.to_nat n)).
Proof.
  intros H1 H8 Hm. unfold list_times.
  assert (maxsize / 8 <= maxsize) by (unfold maxsize; apply Z.div_le_upper_bound; lia).
  assert (0 < maxsize) by (unfold maxsize; lia).
  destruct (Z.ltb_spec n (- maxsize - 1)); [lia|].
  destruct (Z.ltb_spec maxsize n); [lia|]. cbn [orb].
  destruct (Z.leb_spec n 0); [lia|].
  destruct (Z.ltb_spec (maxsize / 8) n); [lia|].
  destruct (Z.ltb_spec (Zpos (max_list_length py)) n); [lia|]. reflexivity.
Qed.

(** A length that fits an index and is not positive gives the empty list. *)
Lemma list_times_nonpositive (x : num) (n : Z) :
  - maxsize - 1 <= n <= 0 -> list_times py x n = Returned [].
Proof.
  intros [Hlo Hhi]. unfold list_times.
  assert (0 < maxsize) by (unfold maxsize; lia).
  destruct (Z.ltb_spec n (- maxsize - 1)); [lia|].
  destruct (Z.ltb_spec maxsize n); [lia|]. cbn [orb].
  destruct (Z.leb_spec n 0); [reflexivity|lia].
Qed.

(** A length beyond [sys.maxsize] does not fit an index. *)
Lemma list_times_overflow (x : num) (n : Z) :
  maxsize < n -> list_times py x n = Raised OverflowError.
Proof.
  intros H. unfold list_times.
  destruct (Z.ltb_spec maxsize n); [|lia]. rewrite orb_true_r. reflexivity.
Qed.

(** A length that fits an index but not the memory. *)
Lemma list_times_memory (x : num) (n : Z) :
  1 <= n <= maxsize ->
  (maxsize / 8 <? n) || (Zpos (max_list_length py) <? n) = true ->
  list_times py x n = Raised MemoryError.
Proof.
  intros [H1 Hm] Hb. unfold list_times. rewrite Hb.
  assert (0 < maxsize) by (unfold maxsize; lia).
  destruct (Z.ltb_spec n (- maxsize - 1)); [lia|].
  destruct (Z.ltb_spec maxsize n); [lia|]. cbn [orb].
  destruct (Z.leb_spec n 0); [lia|reflexivity].
Qed.

(** What the construction returns once the division has returned [q] and the
    list of the equal parts fits. *)
Lemma build_response_amounts_shape (T q : num) (N : Z) :
  1 <= N -> N <= maxsize / 8 -> N <= Zpos (max_list_length py) ->
  a_div_int A T N = Returned q ->
  let p := a_round8 A q in
  let diff := a_sub A T (py_sum A py (repeat p (Z.to_nat N))) in
  build_response_amounts A py T N
  = Returned (repeat p (Z.to_nat (N - 1))
              ++ [if a_gt0 A (a_abs A diff) then a_add A p diff else p]).
Proof.
  intros HN H8 Hm Hq p diff. unfold build_response_amounts. rewrite Hq.
  cbn [py_bind]. fold p. rewrite (list_times_fits p N HN H8 Hm). cbn [py_bind].
  fold diff.
  replace (Z.to_nat N) with (S (Z.to_nat (N - 1))) by lia.
  rewrite repeat_snoc.
  destruct (a_gt0 A (a_abs A diff)); [apply add_to_last_snoc | reflexivity].
Qed.

End ScheduleFacts.

Lemma Q_gt0_abs_false (d : Q) :
  a_gt0 Q_arith (a_abs Q_arith d) = false -> (d == 0)%Q.
Proof.
  simpl. intros H. apply negb_false_iff, Qle_bool_iff in H.
  apply Qabs_Qle_condition in H. destruct H as [Hl Hu].
  apply Qle_antisym; [exact Hu | exact Hl].
Qed.

(** Without rounding the compensation stays zero. *)
Lemma Q_compensated_from (xs : list Q) (f c : Q) :
  (c == 0)%Q ->
  fst (compensated_from Q_arith f c xs) = fold_left Qplus xs f
  /\ (snd (compensated_from Q_arith f c xs) == 0)%Q.
Proof.
  revert f c. induction xs as [|x xs IH]; intros f c Hc.
  - split; [reflexivity|exact Hc].
  - cbn [compensated_from fold_left]. apply IH.
    cbn [a_ge a_abs a_add a_sub Q_arith].
    destruct (Qle_bool (Qabs x) (Qabs f)); rewrite Hc; ring.
Qed.

(** Without rounding both sums are the plain sum. *)
Lemma Q_py_sum (py : platform) (xs : list Q) :
  py_sum Q_arith py xs = fold_left Qplus xs 0%Q.
Proof.
  unfold py_sum. destruct xs as [|x xs]; [reflexivity|].
  destruct (compensated_sum py); [|reflexivity].
  destruct (Q_compensated_from xs (a_add Q_arith (a_zero Q_arith) x)
              (a_zero Q_arith)) as [Hf Hc]; [reflexivity|].
  destruct (compensated_from Q_arith _ _ xs) as [f c]. cbn [fst snd] in Hf, Hc.
  cbn [a_nonzero_finite Q_arith].
  apply Qeq_bool_iff in Hc. rewrite Hc. cbn [negb]. exact Hf.
Qed.

(** Over the rationals the schedule sums to the target. *)
Lemma Q_schedule_sum (py : platform) (T : Q) (N : Z) :
  1 <= N -> N <= maxsize / 8 -> N <= Zpos (max_list_length py) ->
  exists l, build_response_amounts Q_arith py T N = Returned l
            /\ length l = Z.to_nat N
            /\ (py_sum Q_arith py l == T)%Q.
Proof.
  intros HN H8 Hm.
  assert (a_div_int Q_arith T N = Returned (T / inject_Z N)%Q) as Hq.
  { simpl. destruct (N =? 0) eqn:E; [lia | reflexivity]. }
  pose proof (build_response_amounts_shape Q_arith py T _ N HN H8 Hm Hq) as H.
  cbv zeta in H. eexists. split; [exact H|]. split.
  - rewrite length_app, repeat_length. simpl. lia.
  - rewrite !Q_py_sum.
    replace (Z.to_nat N) with (S (Z.to_nat (N - 1))) by lia.
    rewrite repeat_snoc, !fold_left_app. cbn [fold_left].
    set (p := a_round8 Q_arith (T / inject_Z N)%Q) in *.
    set (S1 := fold_left Qplus (repeat p (Z.to_nat (N - 1))) 0%Q) in *.
    destruct (a_gt0 Q_arith (a_abs Q_arith (a_sub Q_arith T (S1 + p)%Q))) eqn:E.
    + simpl. ring.
    + apply Q_gt0_abs_false in E. simpl in *.
      rewrite <- (Qplus_0_r (S1 + p)), <- E. ring.
Qed.

(** ** Exact cases of binary64 rounding

    The operations of binary64 are specified by [SpecFloat]; these lemmas
    follow a mantissa through [binary_round_aux] when nothing is rounded off. *)

Section Binary64Exact.


Lemma digits2_log2 (p : positive) : Zpos (digits2_pos p) = Z.log2 (Zpos p) + 1.
Proof.
  induction p as [p IH|p IH|]; simpl; try reflexivity.
  - rewrite Pos2Z.inj_succ, IH. destruct p; simpl; lia.
  - rewrite Pos2Z.inj_succ, IH. destruct p; simpl; lia.
Qed.


Lemma fexp_normal (d : Z) : -1021 <= d -> fexp prec emax d = d - 53.
Proof. unfold fexp, SpecFloat.emin, prec, emax. lia. Qed.

(** A canonical mantissa is left as it is. *)
Lemma binary_round_aux_canonical (s : bool) (m : positive) (e : Z) :
  fexp prec emax (Zpos (digits2_pos m) + e) = e ->
  e <= emax - prec ->
  binary_round_aux prec emax s (Zpos m) e loc_Exact = S754_finite s m e.
Proof.
  intros Hc He. unfold binary_round_aux, shr_fexp. cbn [Zdigits2].
  rewrite Hc, Z.sub_diag. cbn [shr shr_record_of_loc shr_m loc_of_shr_record round_nearest_even].
  cbn [Zdigits2]. rewrite Hc, Z.sub_diag. cbn [shr shr_m].
  apply Z.leb_le in He. rewrite He. reflexivity.
Qed.


Lemma iter_xO (m : positive) (d : positive) :
  Zpos (Pos.iter xO m d) = Zpos m * 2 ^ Zpos d.
Proof.
  induction d as [|d IH] using Pos.peano_ind.
  - simpl. lia.
  - rewrite Pos.iter_succ, Pos2Z.inj_succ, Z.pow_succ_r by lia.
    rewrite Pos2Z.inj_xO, IH. lia.
Qed.

(** [float(n)] for [0 < n < 2^53] is [n] itself, with a 53-bit mantissa. *)
Lemma binary_normalize_small (p : positive) :
  Z.log2 (Zpos p) <= 52 ->
  exists m, binary_normalize prec emax (Zpos p) 0 false
            = S754_finite false m (Z.log2 (Zpos p) - 52)
            /\ Zpos m = Zpos p * 2 ^ (52 - Z.log2 (Zpos p))
            /\ Z.log2 (Zpos m) = 52.
Proof.
  intros Hp. pose proof (Z.log2_nonneg (Zpos p)) as H0.
  unfold binary_normalize, binary_round.
  rewrite digits2_log2, Z.add_0_r, fexp_normal by lia.
  unfold shl_align.
  destruct (Z.log2 (Zpos p) + 1 - 53 - 0) as [|d|d] eqn:E; try lia.
  - exists p. replace (Z.log2 (Zpos p) - 52) with 0 by lia.
    replace (52 - Z.log2 (Zpos p)) with 0 by lia. rewrite Z.mul_1_r.
    split; [|split; [reflexivity|lia]].
    apply binary_round_aux_canonical; [|unfold emax, prec; lia].
    rewrite digits2_log2, fexp_normal by lia. lia.
  - exists (Pos.iter xO p d).
    assert (Zpos (Pos.iter xO p d) = Zpos p * 2 ^ (52 - Z.log2 (Zpos p))) as Hm.
    { rewrite iter_xO. f_equal. f_equal. lia. }
    assert (Z.log2 (Zpos (Pos.iter xO p d)) = 52) as Hl.
    { rewrite Hm, Z.log2_mul_pow2 by lia. lia. }
    replace (Z.log2 (Zpos p) + 1 - 53) with (Z.log2 (Zpos p) - 52) by lia.
    split; [|split; assumption].
    apply binary_round_aux_canonical; [|unfold emax, prec; lia].
    rewrite digits2_log2, Hl, fexp_normal by lia. lia.
Qed.

End Binary64Exact.


Lemma Prim2SF_of_finite (s : bool) (m : positive) (e : Z) :
  Z.log2 (Zpos m) = 52 -> -1074 <= e -> e <= emax - prec ->
  Prim2SF (SF2Prim (S754_finite s m e)) = S754_finite s m e.
Proof.
  intros Hm Hlo Hhi. apply Prim2SF_SF2Prim.
  unfold SpecFloat.valid_binary, bounded, canonical_mantissa.
  rewrite digits2_log2, Hm, fexp_normal by lia.
  apply andb_true_intro. split; [apply Z.eqb_eq; lia | apply Z.leb_le; exact Hhi].
Qed.

(** [float(n)] for [0 < n < 2^53]. *)
Lemma of_int_small (n : Z) :
  0 < n < 2 ^ 53 ->
  exists (m : positive) (d : float),
    PyFloat.of_int n = Returned d
    /\ Prim2SF d = S754_finite false m (Z.log2 n - 52)
    /\ Zpos m = n * 2 ^ (52 - Z.log2 n)
    /\ Z.log2 (Zpos m) = 52.
Proof.
  intros [H0 H53]. destruct n as [|p|p]; try lia.
  assert (Z.log2 (Zpos p) <= 52) as Hl.
  { apply Z.log2_lt_pow2 in H53; lia. }
  destruct (binary_normalize_small p Hl) as (m & Hb & Hm & Hlm).
  exists m, (SF2Prim (S754_finite false m (Z.log2 (Zpos p) - 52))).
  unfold PyFloat.of_int. rewrite Hb. split; [reflexivity|].
  split; [|split; assumption].
  pose proof (Z.log2_nonneg (Zpos p)).
  apply Prim2SF_of_finite; [assumption|lia|unfold emax, prec; lia].
Qed.

(** A divisor in [1 .. 2^53 - 1] is converted without error and is not zero. *)
Lemma div_int_returns (x : float) (n : Z) :
  0 < n < 2 ^ 53 ->
  exists d, PyFloat.of_int n = Returned d /\ PyFloat.div_int x n = Returned (x / d)%float.
Proof.
  intros Hn. destruct (of_int_small n Hn) as (m & d & Hd & Hsf & _).
  exists d. split; [exact Hd|]. unfold PyFloat.div_int. rewrite Hd. simpl.
  rewrite FloatAxioms.eqb_spec, Hsf. reflexivity.
Qed.

(** C2 (as amended): for a divisor [N >= 1] whose division returns, the list of
    the [N] equal parts is built when [N] entries fit the memory; beyond
    [sys.maxsize] the construction raises [OverflowError], and beyond what
    memory allows [MemoryError]. When it is built the schedule has [N] amounts,
    the first [N - 1] equal to [p = round(T / N, 8)] and the last equal to
    [p + (T - S)], where [S] is the interpreter's [sum] of the [N] equal parts,
    plain or compensated (or to [p] when that residue is zero). The division
    returns for every [N < 2^53]. Over the rationals, where nothing is rounded,
    the schedule sums exactly to the target under either [sum]. *)
Theorem C2_schedule_shape (py : platform) (T : float) (N : Z) :
  1 <= N ->
  match PyFloat.div_int T N with
  | Raised e => build_response_amounts float_arith py T N = Raised e
  | Returned q =>
      if maxsize <? N
      then build_response_amounts float_arith py T N = Raised OverflowError
      else if (maxsize / 8 <? N) || (Zpos (max_list_length py) <? N)
      then build_response_amounts float_arith py T N = Raised MemoryError
      else
        let p := PyFloat.round8 q in
        let front := repeat p (Z.to_nat (N - 1)) in
        let S := py_sum float_arith py (repeat p (Z.to_nat N)) in
        let diff := (T - S)%float in
        let last := if PyFloat.gt0 (PrimFloat.abs diff) then (p + diff)%float else p in
        build_response_amounts float_arith py T N = Returned (front ++ [last])
        /\ length (front ++ [last]) = Z.to_nat N
  end
  /\ (N < 2 ^ 53 -> exists q, PyFloat.div_int T N = Returned q)
  /\ (N <= maxsize / 8 -> N <= Zpos (max_list_length py) ->
      forall TQ : Q, exists l,
        build_response_amounts Q_arith py TQ N = Returned l
        /\ length l = Z.to_nat N
        /\ (py_sum Q_arith py l == TQ)%Q).
Proof.
  intros HN. split; [|split].
  - destruct (PyFloat.div_int T N) as [q|e] eqn:Hq.
    + destruct (Z.ltb_spec maxsize N) as [Ho|Ho].
      * unfold build_response_amounts. cbn [a_div_int float_arith]. rewrite Hq.
        cbn [py_bind]. rewrite list_times_overflow by exact Ho. reflexivity.
      * destruct ((maxsize / 8 <? N) || (Zpos (max_list_length py) <? N)) eqn:Hb.
        -- unfold build_response_amounts. cbn [a_div_int float_arith]. rewrite Hq.
           cbn [py_bind]. rewrite list_times_memory by (try exact Hb; lia).
           reflexivity.
        -- apply orb_false_elim in Hb. destruct Hb as [H8 Hm].
           apply Z.ltb_ge in H8, Hm.
           pose proof (build_response_amounts_shape float_arith py T q N HN H8 Hm Hq)
             as H.
           cbv zeta in H. cbv zeta. split; [exact H|].
           rewrite length_app, repeat_length. simpl. lia.
    + unfold build_response_amounts. simpl. rewrite Hq. reflexivity.
  - intros H53. destruct (div_int_returns T N ltac:(lia)) as (d & _ & Hd).
    eexists. exact Hd.
  - intros H8 Hm TQ. apply Q_schedule_sum; assumption.
Qed.

Lemma C2_schedule_shape_witness :
  1 <= 4
  /\ build_response_amounts float_arith compensated_platform 1%float 4
     = Returned [0.25; 0.25; 0.25; 0.25]%float.
Proof.
  assert (1 <= 4) as H by lia. split; [exact H|].
  pose proof (C2_schedule_shape compensated_platform 1%float 4 H) as [Hs _].
  change (PyFloat.div_int 1 4) with (Returned 0.25%float : py_result float) in Hs.
  change (maxsize <? 4) with false in Hs.
  change ((maxsize / 8 <? 4) || (Zpos (max_list_length compensated_platform) <? 4))
    with false in Hs.
  cbv zeta in Hs. destruct Hs as [Hs _]. rewrite Hs. reflexivity.
Defined.

(** C2 (as stated) fails at [T = 0.3], [N = 3], under the plain [sum] and under
    the compensated one: the schedule is [0.1, 0.1, 0.09999999999999995]; its
    float sum is 0.29999999999999993 and the exact sum of its three values is
    not the value of 0.3 either. *)
Lemma C2_counterexample :
  build_response_amounts float_arith plain_platform 0.3%float 3
  = Returned [0.1; 0.1; 0.09999999999999995]%float
  /\ build_response_amounts float_arith compensated_platform 0.3%float 3
     = Returned [0.1; 0.1; 0.09999999999999995]%float
  /\ py_sum float_arith plain_platform [0.1; 0.1; 0.09999999999999995]%float
     = 0.29999999999999993%float
  /\ py_sum float_arith compensated_platform [0.1; 0.1; 0.09999999999999995]%float
     = 0.29999999999999993%float
  /\ PrimFloat.eqb 0.29999999999999993 0.3 = false
  /\ (exists q t, exact_sum [0.1; 0.1; 0.09999999999999995]%float = Some q
                  /\ PyFloat.exact 0.3 = Some t
                  /\ ~ (q == t)%Q).
Proof.
  split; [vm_compute; reflexivity|]. split; [vm_compute; reflexivity|].
  split; [vm_compute; reflexivity|]. split; [vm_compute; reflexivity|].
  split; [reflexivity|].
  eexists _, _. split; [vm_compute; reflexivity|]. split; [vm_compute; reflexivity|].
  intros H. vm_compute in H. discriminate H.
Qed.

(** ** The poll cycle *)

Section PollCycle.

Variable cap : float.

Lemma polls_check_cap (st : responder_state) : polls (check_cap cap st).2 = 0%nat.
Proof. unfold check_cap. destruct (PrimFloat.leb _ _); reflexivity. Qed.

Lemma send_errors_check_cap (st : responder_state) :
  send_errors (check_cap cap st).2 = [].
Proof. unfold check_cap. destruct (PrimFloat.leb _ _); reflexivity. Qed.

(** Every cycle sleeps once. *)
Lemma polls_poll_cycle (o : observation) (st : responder_state) :
  polls (poll_cycle cap o st).2 = 1%nat.
Proof.
  unfold poll_cycle.
  destruct (triggered _ _).
  - cbn [response_amounts idx].
    destruct (response_amounts st !! idx st) as [amt|]; [|reflexivity].
    destruct (PyFloat.to_int _); [|reflexivity].
    pose proof (polls_check_cap
      {| starting_balance := starting_balance st;
         total_received := (total_received st
                            + net_increment st (current_balance o))%float;
         total_responded := (total_responded st + amt)%float;
         response_amounts := response_amounts st; idx := S (idx st) |}) as H.
    destruct (check_cap cap _) as [[c st3] evs]. simpl in *.
    unfold polls in *. simpl. exact (f_equal S H).
  - pose proof (polls_check_cap st) as H.
    destruct (check_cap cap st) as [[c st3] evs]. simpl in *.
    unfold polls in *. simpl. exact (f_equal S H).
Qed.

(** A cycle whose chunk is there and converts to an int. *)
Lemma poll_cycle_sent (o : observation) (st : responder_state)
    (send_amt : float) (a : Z) :
  response_amounts st !! idx st = Some send_amt ->
  PyFloat.to_int (send_amt * 1000000)%float = Returned a ->
  triggered st (net_increment st (current_balance o)) = true ->
  let net := net_increment st (current_balance o) in
  let st2 := {| starting_balance := starting_balance st;
                total_received := (total_received st + net)%float;
                total_responded := (total_responded st + send_amt)%float;
                response_amounts := response_amounts st;
                idx := S (idx st) |} in
  poll_cycle cap o st
  = ((check_cap cap st2).1.1, st2,
     [Sleep; PrintNetReceived net; CallSend a;
      PrintSent (send_transaction_any (send_outputs o))] ++ (check_cap cap st2).2).
Proof.
  intros Hamt Hint Htrig net st2. unfold poll_cycle. rewrite Htrig. fold net.
  cbn [response_amounts idx]. rewrite Hamt, Hint.
  cbn [starting_balance total_received total_responded response_amounts idx].
  fold st2. pose proof (check_cap_state cap st2) as Hs.
  destruct (check_cap cap st2) as [[c st3] evs]. simpl in Hs. subst st3.
  reflexivity.
Qed.

End PollCycle.




(** C4: at a state with [total_received >= max_amount_received] the loop
    returns without a poll, whatever remains of the schedule; and a cycle that
    ends in such a state is the last one. *)
Theorem C4_terminates_at_cap (cap : float) (obs : list observation)
    (st : responder_state) :
  PrimFloat.leb cap (total_received st) = true ->
  responder_loop cap obs st = Completed st [PrintCompleted]
  /\ polls (trace_of (responder_loop cap obs st)) = 0%nat
  /\ (forall (o : observation) (st0 : responder_state),
         (poll_cycle cap o st0).1.2 = st ->
         PrimFloat.ltb (total_received st0) cap = true ->
         exists tr, responder_loop cap (o :: obs) st0 = Completed st tr
                    /\ polls tr = 1%nat).
Proof.
  intros Hcap. pose proof (responder_loop_at_cap cap obs st Hcap) as Hl.
  split; [exact Hl|]. split; [rewrite Hl; reflexivity|].
  intros o st0 Hst Hlt. cbn [responder_loop]. rewrite Hlt.
  pose proof (polls_poll_cycle cap o st0) as Hp.
  destruct (poll_cycle cap o st0) as [[c st'] evs]. simpl in Hst, Hp. subst st'.
  destruct c.
  - rewrite Hl. simpl. eexists. split; [reflexivity|].
    unfold polls in *. rewrite omap_app, length_app, Hp. reflexivity.
  - eexists. split; [reflexivity|].
    unfold polls in *. rewrite omap_app, length_app, Hp. reflexivity.
Qed.

Lemma C4_terminates_at_cap_witness :
  responder_loop 10
    [{| current_balance := 200; send_outputs := LibReturns "tx"%string |}]
    {| starting_balance := 100; total_received := 10.5; total_responded := 1;
       response_amounts := [1; 1; 1]%float; idx := 1 |}
  = Completed
      {| starting_balance := 100; total_received := 10.5; total_responded := 1;
         response_amounts := [1; 1; 1]%float; idx := 1 |} [PrintCompleted].
Proof.
  exact (proj1 (C4_terminates_at_cap 10
    [{| current_balance := 200; send_outputs := LibReturns "tx"%string |}]
    {| starting_balance := 100; total_received := 10.5; total_responded := 1;
       response_amounts := [1; 1; 1]%float; idx := 1 |} eq_refl)).
Defined.

(** ** After the last chunk *)

Lemma exhausted_keeps_polling (n : nat) :
  responder_loop 10 (repeat (steady 104) n) exhausted_state
  = Polling exhausted_state (repeat Sleep n).
Proof.
  induction n as [|n IH]; [reflexivity|].
  change (repeat (steady 104) (S n)) with (steady 104 :: repeat (steady 104) n).
  change (responder_loop 10 (steady 104 :: repeat (steady 104) n) exhausted_state)
    with (prepend [Sleep] (responder_loop 10 (repeat (steady 104) n) exhausted_state)).
  rewrite IH. reflexivity.
Qed.

(** One chunk of 1: the schedule on every platform. *)
Lemma build_response_amounts_one (py : platform) :
  build_response_amounts float_arith py 1%float 1 = Returned [1%float].
Proof.
  unfold build_response_amounts. cbn [a_div_int float_arith].
  change (PyFloat.div_int 1 1) with (Returned 1%float : py_result float).
  cbn [py_bind].
  change (a_round8 float_arith 1%float) with 1%float.
  rewrite (list_times_fits py 1%float 1);
    [|lia|unfold maxsize; vm_compute; discriminate|lia].
  change (Z.to_nat 1) with 1%nat. cbn [py_bind repeat].
  unfold py_sum. destruct (compensated_sum py); reflexivity.
Qed.

(** C5 (the code at the failing input): cap 10, one chunk of 1. The first poll
    sees 105 (5 received) and the chunk is sent; the balance then stays at 104.
    All chunks are sent ([idx] is the length of the schedule) and the cap is
    not reached, yet after any number [n] of further polls the loop has not
    returned: it is still polling. *)
Theorem C5_polls_after_schedule_exhausted (py : platform) (n : nat) :
  responder_transaction_with_self_sent_adjustment py
    100%float (steady 105 :: repeat (steady 104) n) 10%float 1%float 1
  = Returned
      (Polling exhausted_state
         ([Sleep; PrintNetReceived 5; CallSend 1000000; PrintSent (TxObject "tx")]
          ++ repeat Sleep n))
  /\ idx exhausted_state = length (response_amounts exhausted_state)
  /\ polls ([Sleep; PrintNetReceived 5; CallSend 1000000; PrintSent (TxObject "tx")]
            ++ repeat Sleep n) = S n.
Proof.
  split; [|split; [reflexivity|]].
  - unfold responder_transaction_with_self_sent_adjustment.
    rewrite build_response_amounts_one.
    cbn [py_bind].
    change (responder_loop 10 (steady 105 :: repeat (steady 104) n)
              (initial_state 100 [1%float]))
      with (prepend [Sleep; PrintNetReceived 5; CallSend 1000000;
                     PrintSent (TxObject "tx")]
              (responder_loop 10 (repeat (steady 104) n) exhausted_state)).
    rewrite exhausted_keeps_polling. reflexivity.
  - unfold polls. simpl. f_equal.
    induction n as [|n IH]; simpl; [reflexivity|]. f_equal. exact IH.
Qed.

(** C6 (the code where the wallet fails): when the library raises inside
    [send_transaction_any], the responder is handed the error dict, prints it as
    a sent transaction, adds the chunk to [total_responded] and moves [idx] to
    the next chunk; its own [except] is not entered. *)
Theorem C6_wallet_failure_counts_as_sent (cap : float) (o : observation)
    (st : responder_state) (send_amt : float) (a : Z) (msg : string) :
  response_amounts st !! idx st = Some send_amt ->
  PyFloat.to_int (send_amt * 1000000)%float = Returned a ->
  triggered st (net_increment st (current_balance o)) = true ->
  send_outputs o = LibRaises msg ->
  idx (poll_cycle cap o st).1.2 = S (idx st)
  /\ total_responded (poll_cycle cap o st).1.2 = (total_responded st + send_amt)%float
  /\ (poll_cycle cap o st).2 !! 3%nat = Some (PrintSent (TxErrorDict msg))
  /\ send_errors (poll_cycle cap o st).2 = [].
Proof.
  intros Hamt Hint Htrig Hlib.
  rewrite (poll_cycle_sent cap o st send_amt a Hamt Hint Htrig), Hlib.
  cbn [fst snd idx total_responded send_transaction_any].
  repeat split. unfold send_errors. simpl. apply send_errors_check_cap.
Qed.

Lemma C6_wallet_failure_counts_as_sent_witness :
  idx (poll_cycle 10
         {| current_balance := 105;
            send_outputs := LibRaises "insufficient funds"%string |}
         (initial_state 100 [0.5; 0.5]%float)).1.2 = 1%nat.
Proof.
  exact (proj1 (C6_wallet_failure_counts_as_sent 10
         {| current_balance := 105;
            send_outputs := LibRaises "insufficient funds"%string |}
         (initial_state 100 [0.5; 0.5]%float) 0.5%float 500000
         "insufficient funds"%string eq_refl eq_refl eq_refl eq_refl)).
Defined.

(** ** Bearer tokens *)

Section Bearer.
Open Scope string_scope.

Lemma append_empty_r (s : string) : String.append s "" = s.
Proof.
  induction s as [|a s IH]; [reflexivity|].
  change (String a (String.append s "") = String a s). f_equal. exact IH.
Qed.

Lemma append_snoc (w s : string) (c : ascii) :
  String.append (String.append w (String c "")) s = String.append w (String c s).
Proof.
  induction w as [|a w IH]; [reflexivity|].
  change (String a (String.append (String.append w (String c "")) s)
          = String a (String.append w (String c s))).
  f_equal. exact IH.
Qed.

Lemma split_from_no_space (s word : string) :
  forallb (fun c => negb (PyStr.is_space c)) (list_ascii_of_string s) = true ->
  PyStr.split_from word s = PyStr.flush (String.append word s) [].
Proof.
  revert word. induction s as [|c s IH]; intros word H; simpl in *.
  - rewrite append_empty_r. reflexivity.
  - apply andb_prop in H. destruct H as [Hc Hs].
    apply negb_true_iff in Hc. rewrite Hc, (IH _ Hs), append_snoc. reflexivity.
Qed.

Lemma urlsafe_not_space (c : ascii) :
  urlsafe_char c = true -> negb (PyStr.is_space c) = true.
Proof.
  unfold urlsafe_char, PyStr.is_space. intros H. apply negb_true_iff.
  destruct (nat_of_ascii c =? 133)%nat eqn:E1;
    [apply Nat.eqb_eq in E1; rewrite E1 in H; discriminate H|].
  destruct (nat_of_ascii c =? 160)%nat eqn:E2;
    [apply Nat.eqb_eq in E2; rewrite E2 in H; discriminate H|].
  rewrite !orb_false_r.
  repeat match type of H with
         | (_ || _)%bool = true => apply orb_prop in H; destruct H as [H|H]
         end;
    repeat match type of H with
           | (_ && _)%bool = true => apply andb_prop in H; destruct H as [? H]
           end;
    repeat match goal with
           | X : (_ <=? _)%nat = true |- _ => apply Nat.leb_le in X
           | X : (_ =? _)%nat = true |- _ => apply Nat.eqb_eq in X
           end;
    apply orb_false_intro; apply andb_false_iff;
    rewrite !Nat.leb_gt; lia.
Qed.

Lemma token_no_space (t : string) :
  token_urlsafe t = true ->
  forallb (fun c => negb (PyStr.is_space c)) (list_ascii_of_string t) = true
  /\ t <> "".
Proof.
  unfold token_urlsafe. intros H. apply andb_prop in H. destruct H as [Hl Hc].
  split.
  - rewrite forallb_forall in *. intros c Hin. apply urlsafe_not_space, Hc, Hin.
  - intros ->. discriminate Hl.
Qed.

(** ["Bearer " + t] splits into ["Bearer"] and [t]. *)
Lemma split_bearer (t : string) :
  token_urlsafe t = true ->
  PyStr.split ("Bearer " ++ t) !! 1%nat = Some t
  /\ PyStr.startswith "Bearer " ("Bearer " ++ t) = true.
Proof.
  intros H. apply token_no_space in H. destruct H as [Hs Hne]. split.
  - unfold PyStr.split. cbv [String.append]. cbn.
    rewrite (split_from_no_space t "" Hs).
    destruct t; [congruence | reflexivity].
  - unfold PyStr.startswith. cbv [String.append]. cbn. destruct t; reflexivity.
Qed.

(** With a well-formed header, [_auth] looks the token up. *)
Lemma auth_bearer (sessions : gmap string session) (t : string) :
  token_urlsafe t = true ->
  _auth sessions (Some ("Bearer " ++ t))
  = match sessions !! t with
    | None => HTTPException 401 "Invalid or expired session"
    | Some sess => Ok200 sess
    end.
Proof.
  intros H. destruct (split_bearer t H) as [Hsp Hst].
  unfold _auth. rewrite Hst, Hsp. reflexivity.
Qed.

End Bearer.

(** ** Sessions *)

Section Sessions.
Variable max_str_digits : Z.
Open Scope string_scope.

Lemma serve_sessions (w : world) (r : request) (sessions : gmap string session) :
  (serve max_str_digits w r sessions).1.1 = sessions
  \/ (exists sess, (serve max_str_digits w r sessions).1.1
                   = <[w_token w := sess]> sessions)
  \/ (exists t, (serve max_str_digits w r sessions).1.1 = delete t sessions).
Proof.
  destruct r as [b|a|a|a|a b]; simpl.
  - unfold login. destruct (SignInToAccount w) as [[wal [|acc accs]]|]; eauto.
  - unfold logout. destruct a as [a|]; [|eauto].
    destruct (PyStr.startswith _ _); [|eauto].
    destruct (PyStr.split a !! 1%nat); eauto.
  - destruct (with_auth _ _ _); eauto.
  - destruct (with_auth _ _ _); eauto.
  - destruct (with_auth _ _ _); eauto.
Qed.

(** Every token of a reachable session map was drawn by [token_urlsafe]. *)
Lemma reachable_tokens (sessions : gmap string session) :
  reachable max_str_digits sessions ->
  forall t, is_Some (sessions !! t) -> token_urlsafe t = true.
Proof.
  induction 1 as [|w r sessions Hr IH Hw]; intros t Ht.
  - rewrite lookup_empty in Ht. destruct Ht as [? Ht]. discriminate Ht.
  - destruct (serve_sessions w r sessions) as [E|[[sess E]|[t' E]]];
      rewrite E in Ht.
    + auto.
    + destruct (decide (w_token w = t)) as [<-|Hne]; [exact Hw|].
      rewrite lookup_insert_ne in Ht by exact Hne. auto.
    + destruct (decide (t' = t)) as [<-|Hne].
      * rewrite lookup_delete_eq in Ht. destruct Ht as [? Ht]. discriminate Ht.
      * rewrite lookup_delete_ne in Ht by exact Hne. auto.
Qed.

(** A token that is not in the map stays out while no login draws it. *)
Lemma serve_all_absent (t : string) (later : list (world * request))
    (sessions : gmap string session) :
  sessions !! t = None ->
  Forall (fun wr => w_token wr.1 <> t) later ->
  serve_all max_str_digits later sessions !! t = None.
Proof.
  revert sessions. induction later as [|[w r] later IH]; intros sessions Hn Hf.
  - exact Hn.
  - inversion Hf as [|? ? Hw Hf']; subst. simpl in *. apply IH; [|exact Hf'].
    destruct (serve_sessions w r sessions) as [E|[[sess E]|[t' E]]]; rewrite E.
    + exact Hn.
    + rewrite lookup_insert_ne by exact Hw. exact Hn.
    + destruct (decide (t' = t)) as [<-|Hne];
        [apply lookup_delete_eq | rewrite lookup_delete_ne by exact Hne; exact Hn].
Qed.

(** Without a session for the token every authenticated route answers 401. *)
Lemma absent_token_401 (w : world) (r : request) (t : string)
    (sessions : gmap string session) :
  token_urlsafe t = true ->
  sessions !! t = None ->
  authenticated_call (Some ("Bearer " ++ t)) r ->
  (serve max_str_digits w r sessions).1.2
  = HTTPException 401 "Invalid or expired session"
  /\ (serve max_str_digits w r sessions).2 = [].
Proof.
  intros Ht Hn Hr. destruct Hr; simpl; unfold with_auth;
    rewrite (auth_bearer sessions t Ht), Hn; split; reflexivity.
Qed.

End Sessions.

(** C8: for a token [t] of the session map, the logout with [Bearer t] removes
    [t] from the map, and from then on [/api/balance], [/api/address] and
    [/api/send] called with [Bearer t] answer 401 without calling the wallet,
    as long as no later login draws the same token again. *)
Theorem C8_logout_invalidates_token (max_str_digits : Z)
    (sessions : gmap string session) (t : string) (w : world) :
  reachable max_str_digits sessions ->
  is_Some (sessions !! t) ->
  let after := (serve max_str_digits w (PostLogout (Some ("Bearer " ++ t)%string))
                  sessions).1.1 in
  after = delete t sessions
  /\ after !! t = None
  /\ (forall (later : list (world * request)) (w' : world) (r : request),
         Forall (fun wr => w_token wr.1 <> t) later ->
         authenticated_call (Some ("Bearer " ++ t)%string) r ->
         status_code (serve max_str_digits w' r
                        (serve_all max_str_digits later after)).1.2 = 401
         /\ (serve max_str_digits w' r (serve_all max_str_digits later after)).2 = []).
Proof.
  intros Hreach Hin after.
  pose proof (reachable_tokens max_str_digits sessions Hreach t Hin) as Ht.
  destruct (split_bearer t Ht) as [Hsp Hst].
  assert (after = delete t sessions) as Hafter.
  { unfold after.
    change (serve max_str_digits w (PostLogout (Some ("Bearer " ++ t)%string)) sessions)
      with (logout (Some ("Bearer " ++ t)%string) sessions).
    unfold logout. rewrite Hst, Hsp. reflexivity. }
  split; [exact Hafter|]. split; [rewrite Hafter; apply lookup_delete_eq|].
  intros later w' r Hfresh Hr.
  assert (serve_all max_str_digits later after !! t = None) as Hn.
  { apply serve_all_absent; [rewrite Hafter; apply lookup_delete_eq | exact Hfresh]. }
  destruct (absent_token_401 max_str_digits w' r t _ Ht Hn Hr) as [E1 E2].
  rewrite E1, E2. split; reflexivity.
Qed.

Lemma C8_logout_invalidates_token_witness :
  let login_body := {| login_account_name := "alice"; login_pin := "1234";
                       login_password := "secret" |}%string in
  let header := Some ("Bearer " ++ sample_token)%string in
  let logged_in := (serve 4300 sample_world (PostLogin login_body) ∅).1.1 in
  let logged_out := (serve 4300 sample_world (PostLogout header) logged_in).1.1 in
  status_code (serve 4300 sample_world (GetBalance header) logged_in).1.2 = 200
  /\ status_code (serve 4300 sample_world (GetBalance header)
                    (serve_all 4300 [] logged_out)).1.2 = 401.
Proof.
  intros login_body header logged_in logged_out.
  split; [vm_compute; reflexivity|].
  assert (reachable 4300 logged_in) as Hr.
  { apply (reachable_serve 4300 sample_world (PostLogin login_body) ∅
             (reachable_start 4300)). reflexivity. }
  assert (is_Some (logged_in !! sample_token)) as Hin.
  { eexists. unfold logged_in. cbn. apply lookup_insert_eq. }
  exact (proj1 (proj2 (proj2 (C8_logout_invalidates_token 4300 logged_in sample_token
                                sample_world Hr Hin))
                 [] sample_world (GetBalance header) (List.Forall_nil _)
                 (call_balance header))).
Defined.

(** ** [/api/send] *)

Section Send.
Variable max_str_digits : Z.

(** The two guards of [send] answer 400 and call nothing. *)
Lemma send_guard (w : world) (b : SendRequest) (sess : session) :
  amount b <= 0 \/ smr_addr_match (recipient b) = false ->
  exists detail, send max_str_digits w b sess = (HTTPException 400 detail, []).
Proof.
  intros H. unfold send. destruct (amount b <=? 0) eqn:E; [eauto|].
  destruct H as [H|H]; [apply Z.leb_gt in E; lia|]. rewrite H. simpl. eauto.
Qed.

End Send.

(** C7 (as amended): a POST [/api/send] whose amount is [<= 0] or whose
    recipient does not match the address pattern never reaches the wallet
    library and leaves the sessions as they are; when the bearer token is accepted
    by [_auth] the answer is 400, otherwise it is the failure of [_auth]
    (401, or the unhandled [IndexError] of a header with no token). *)
Theorem C7_send_rejected_before_transfer (max_str_digits : Z) (w : world)
    (sessions : gmap string session) (authorization : option string)
    (b : SendRequest) :
  amount b <= 0 \/ smr_addr_match (recipient b) = false ->
  (serve max_str_digits w (PostSend authorization b) sessions).2 = []
  /\ (serve max_str_digits w (PostSend authorization b) sessions).1.1 = sessions
  /\ match _auth sessions authorization with
     | Ok200 sess =>
         status_code (serve max_str_digits w (PostSend authorization b) sessions).1.2
         = 400
         /\ send max_str_digits w b sess
            = ((serve max_str_digits w (PostSend authorization b) sessions).1.2, [])
     | HTTPException status detail =>
         (serve max_str_digits w (PostSend authorization b) sessions).1.2
         = HTTPException status detail
     | Unhandled e =>
         (serve max_str_digits w (PostSend authorization b) sessions).1.2 = Unhandled e
     end.
Proof.
  intros H. cbn [serve]. unfold with_auth.
  destruct (_auth sessions authorization) as [sess|status detail|e]; cbn.
  - destruct (send_guard max_str_digits w b sess H) as [detail E]. rewrite E. cbn. auto.
  - auto.
  - auto.
Qed.

Lemma C7_send_rejected_before_transfer_witness :
  let header := Some ("Bearer " ++ sample_token)%string in
  let request := {| recipient := "smr1tooshort"%string; amount := 5 |} in
  (serve 4300 sample_world (PostSend header request)
     {[ sample_token := sample_session ]}).2 = [].
Proof.
  intros header request.
  exact (proj1 (C7_send_rejected_before_transfer 4300 sample_world
                  {[ sample_token := sample_session ]} header request
                  (or_intror eq_refl))).
Defined.

(** C7 (as stated) fails for a request that carries no bearer token: with
    amount 0 and a malformed recipient the answer is 401, not 400. *)
Lemma C7_counterexample :
  let request := {| recipient := "not an address"%string; amount := 0 |} in
  amount request <= 0
  /\ smr_addr_match (recipient request) = false
  /\ serve 4300 sample_world (PostSend None request) ∅
     = (∅, HTTPException 401 "Missing or invalid Authorization header"%string, []).
Proof. cbv zeta. split; [simpl; lia|]. split; reflexivity. Qed.

(** C9 (the code where the library raises): with an accepted token, a positive
    amount and a well-formed recipient, a transfer that raises inside
    [send_transaction] is answered 200 with a null [txid] and the requested
    amount; a failed sync in [/api/balance] is answered 200 with
    [available = 0]; a failed address lookup is answered 404. None is a 500. *)
Theorem C9_library_failure_not_reported (max_str_digits : Z) (w : world)
    (sessions : gmap string session) (authorization : option string)
    (sess : session) :
  _auth sessions authorization = Ok200 sess ->
  (forall (b : SendRequest) (msg : string),
      0 < amount b -> smr_addr_match (recipient b) = true ->
      w_send_with_params w = LibRaises msg ->
      (serve max_str_digits w (PostSend authorization b) sessions).1.2
      = Ok200 (SentBody None (amount b)))
  /\ (forall msg : string,
         w_sync w = LibRaises msg ->
         (serve max_str_digits w (GetBalance authorization) sessions).1.2
         = Ok200 (AvailableBody 0))
  /\ (forall msg : string,
         w_addresses w = LibRaises msg ->
         (serve max_str_digits w (GetAddress authorization) sessions).1.2
         = HTTPException 404 "Address not found"%string).
Proof.
  intros Hauth. split; [|split].
  - intros b msg Hpos Hre Hlib. cbn [serve]. unfold with_auth. rewrite Hauth.
    unfold send, send_transaction. rewrite Hlib, Hre.
    destruct (amount b <=? 0) eqn:E; [apply Z.leb_le in E; lia|]. cbn [negb].
    destruct (PyStr.of_int max_str_digits (amount b)); reflexivity.
  - intros msg Hlib. cbn [serve]. unfold with_auth. rewrite Hauth.
    unfold balance, get_my_balance. rewrite Hlib. cbn [py_or_zero].
    unfold _parse_balance_to_micros, parse_balance_try, py_str, PyStr.of_int.
    change (NilZero.string_of_int (Z.to_int 0)) with "0"%string.
    cbn [String.length Nat.sub Z.of_nat Z.ltb Z.compare Z.sub Z.add Z.opp].
    destruct (0 <? max_str_digits); reflexivity.
  - intros msg Hlib. cbn [serve]. unfold with_auth. rewrite Hauth.
    unfold address, get_my_address_Reference. rewrite Hlib. reflexivity.
Qed.

Lemma C9_library_failure_not_reported_witness :
  let header := Some ("Bearer " ++ sample_token)%string in
  let request := {| recipient := sample_recipient; amount := 5 |} in
  status_code (serve 4300 failing_world (PostSend header request)
                 {[ sample_token := sample_session ]}).1.2 = 200.
Proof.
  intros header request.
  assert (_auth {[ sample_token := sample_session ]} header = Ok200 sample_session)
    as Hauth.
  { unfold header. rewrite auth_bearer by reflexivity.
    rewrite lookup_singleton_eq. reflexivity. }
  rewrite (proj1 (C9_library_failure_not_reported 4300 failing_world
                    {[ sample_token := sample_session ]} header sample_session Hauth)
             request "insufficient funds"%string ltac:(simpl; lia) eq_refl eq_refl).
  reflexivity.
Defined.

(** ** Balance parsing *)

Section Micros.



End Micros.

Section ParsingFacts.
Open Scope string_scope.

Lemma substring_all (s : string) : String.substring 0 (String.length s) s = s.
Proof.
induction s as [|c s IH]; [reflexivity|]. cbn [String.length String.substring].
f_equal. exact IH.
Qed.

Lemma prefix_split (p s : string) :
String.prefix p s = true ->
s = String.append p
      (String.substring (String.length p) (String.length s - String.length p) s).
Proof.
revert s. induction p as [|a p IH]; intros s H.
- cbn [String.length String.append]. rewrite Nat.sub_0_r, substring_all. reflexivity.
- destruct s as [|b s]; [discriminate H|]. cbn [String.prefix] in H.
  destruct (ascii_dec a b) as [->|]; [|discriminate H].
  change (String b s = String b (String.append p
            (String.substring (String.length p)
               (String.length s - String.length p) s))).
  f_equal. apply IH, H.
Qed.

Lemma span_digits_split (s d t : string) :
PyStr.span_digits s = (d, t) ->
s = String.append d t
/\ forallb PyStr.is_digit (list_ascii_of_string d) = true.
Proof.
revert d t. induction s as [|c s IH]; intros d t H; cbn [PyStr.span_digits] in H.
- injection H as <- <-. split; reflexivity.
- destruct (PyStr.is_digit c) eqn:Hc.
  + destruct (PyStr.span_digits s) as [d' t'] eqn:E. injection H as <- <-.
    destruct (IH d' t' eq_refl) as [Hs Hd]. split.
    * change (String c s = String c (String.append d' t')). f_equal. exact Hs.
    * cbn [list_ascii_of_string forallb]. rewrite Hc, Hd. reflexivity.
  + injection H as <- <-. split; reflexivity.
Qed.

(** What a match at the start of [s] looks like. *)
Lemma match_available_here_sound (s d : string) :
match_available_here s = Some d ->
d <> ""
/\ forallb PyStr.is_digit (list_ascii_of_string d) = true
/\ exists post,
     s = String.append "available='" (String.append d (String "'" post)).
Proof.
unfold match_available_here, PyStr.startswith. intros H.
destruct (String.prefix "available='" s) eqn:Hp; [|discriminate H].
apply prefix_split in Hp. cbn [String.length] in Hp.
change (String.substring 11 (String.length s - 11) s) with (suffix_from 11 s) in Hp.
destruct (PyStr.span_digits _) as [d' t] eqn:E.
destruct (span_digits_split _ _ _ E) as [Hs Hd].
destruct d' as [|c d']; [discriminate H|].
destruct t as [|q t]; [discriminate H|].
destruct (Ascii.eqb_spec q "'"%char) as [->|Hq].
- injection H as <-. split; [discriminate|]. split; [exact Hd|].
  exists t. rewrite Hp at 1. rewrite Hs. reflexivity.
- exfalso. revert H Hq. clear.
  destruct q as [[|] [|] [|] [|] [|] [|] [|] [|]]; intros H Hq;
    try discriminate H; congruence.
Qed.

Lemma suffix_from_0 (s : string) : suffix_from 0 s = s.
Proof. unfold suffix_from. rewrite Nat.sub_0_r. apply substring_all. Qed.

Lemma suffix_from_S (i : nat) (c : ascii) (s : string) :
  suffix_from (S i) (String c s) = suffix_from i s.
Proof. reflexivity. Qed.

(** The match found by the search is the leftmost one: [available='], the
    captured digits and a quote, with no match starting before it. *)
Lemma search_available_sound (s d : string) :
  search_available s = Some d ->
  d <> ""
  /\ forallb PyStr.is_digit (list_ascii_of_string d) = true
  /\ exists pre post,
       s = String.append pre
             (String.append "available='" (String.append d (String "'" post)))
       /\ forall i, (i < String.length pre)%nat ->
                    match_available_here (suffix_from i s) = None.
Proof.
induction s as [|c s IH]; intros H; cbn [search_available] in H.
- destruct (match_available_here "") eqn:E; [|discriminate H].
  injection H as ->. destruct (match_available_here_sound _ _ E) as (H1 & H2 & post & H3).
  split; [exact H1|]. split; [exact H2|]. exists "", post.
  split; [exact H3|]. intros i Hi. cbn in Hi. lia.
- destruct (match_available_here (String c s)) eqn:E.
  + injection H as ->.
    destruct (match_available_here_sound _ _ E) as (H1 & H2 & post & H3).
    split; [exact H1|]. split; [exact H2|]. exists "", post.
    split; [exact H3|]. intros i Hi. cbn in Hi. lia.
  + destruct (IH H) as (H1 & H2 & pre & post & H3 & H4).
    split; [exact H1|]. split; [exact H2|]. exists (String c pre), post.
    split; [rewrite H3 at 1; reflexivity|].
    intros [|i] Hi.
    * rewrite suffix_from_0. exact E.
    * rewrite suffix_from_S. apply H4. cbn in Hi. lia.
Qed.

Lemma decimal_from_nonneg (d : string) (acc : Z) :
0 <= acc ->
forallb PyStr.is_digit (list_ascii_of_string d) = true ->
0 <= PyStr.decimal_from acc d.
Proof.
revert acc. induction d as [|c d IH]; intros acc Ha H; cbn in *; [exact Ha|].
apply andb_prop in H. destruct H as [Hc Hd]. apply IH; [|exact Hd].
unfold PyStr.is_digit in Hc. apply andb_prop in Hc. destruct Hc as [H1 H2].
apply Nat.leb_le in H1. unfold PyStr.digit_value. lia.
Qed.

Lemma parse_available_balance_nonneg (max_str_digits : Z) (s : string) :
0 <= parse_available_balance max_str_digits s.
Proof.
unfold parse_available_balance.
destruct (search_available s) as [d|] eqn:E; [|cbn; lia].
destruct (search_available_sound s d E) as (_ & Hd & _).
unfold PyStr.int_of_digits.
destruct (_ && _); [cbn; lia|]. apply decimal_from_nonneg; [lia|exact Hd].
Qed.





End ParsingFacts.




(** * Further properties of the code *)

(** ** What a run of the responder keeps *)

Section ResponderInvariants.
Variable cap : float.

Lemma sends_app (tr1 tr2 : list event) : sends (tr1 ++ tr2) = sends tr1 ++ sends tr2.
Proof. unfold sends. apply omap_app. Qed.

(** One cycle: the schedule and the starting balance are not touched, and
  either nothing is sent, or the chunk at [idx] is sent and [idx] moves on. *)
Lemma poll_cycle_step (o : observation) (st : responder_state) :
let st' := (poll_cycle cap o st).1.2 in
let evs := (poll_cycle cap o st).2 in
response_amounts st' = response_amounts st
/\ starting_balance st' = starting_balance st
/\ ((idx st' = idx st /\ sends evs = []
     /\ total_responded st' = total_responded st)
    \/ (exists send_amt a,
           response_amounts st !! idx st = Some send_amt
           /\ PyFloat.to_int (send_amt * 1000000)%float = Returned a
           /\ idx st' = S (idx st) /\ sends evs = [a]
           /\ total_responded st' = (total_responded st + send_amt)%float)).
Proof.
cbv zeta.
destruct (triggered st (net_increment st (current_balance o))) eqn:Ht.
- destruct (response_amounts st !! idx st) as [amt|] eqn:Ha.
  + destruct (PyFloat.to_int (amt * 1000000)%float) as [a|e] eqn:Hi.
    * rewrite (poll_cycle_sent cap o st amt a Ha Hi Ht). cbn [fst snd].
      split; [reflexivity|]. split; [reflexivity|]. right. exists amt, a.
      repeat split; try assumption.
      rewrite sends_app, check_cap_sends. reflexivity.
    * unfold poll_cycle. rewrite Ht. cbn [response_amounts idx]. rewrite Ha, Hi.
      cbn. split; [reflexivity|]. split; [reflexivity|]. left. auto.
  + unfold poll_cycle. rewrite Ht. cbn [response_amounts idx]. rewrite Ha.
    cbn. split; [reflexivity|]. split; [reflexivity|]. left. auto.
- destruct (poll_cycle_not_triggered cap o st Ht) as (c & evs & -> & Hs).
  cbn [fst snd]. split; [reflexivity|]. split; [reflexivity|]. left.
  repeat split. exact Hs.
Qed.

Lemma state_of_prepend (evs : list event) (r : run) :
state_of (prepend evs r) = state_of r.
Proof. destruct r; reflexivity. Qed.

Lemma trace_of_prepend (evs : list event) (r : run) :
trace_of (prepend evs r) = evs ++ trace_of r.
Proof. destruct r; reflexivity. Qed.

(** The state and trace of a run that starts with a poll. *)
Lemma responder_loop_cons (o : observation) (obs : list observation)
  (st : responder_state) :
PrimFloat.ltb (total_received st) cap = true ->
let st1 := (poll_cycle cap o st).1.2 in
let evs := (poll_cycle cap o st).2 in
(state_of (responder_loop cap (o :: obs) st) = st1
 /\ trace_of (responder_loop cap (o :: obs) st) = evs ++ [PrintCompleted]
 /\ (poll_cycle cap o st).1.1 = Break)
\/ (state_of (responder_loop cap (o :: obs) st)
    = state_of (responder_loop cap obs st1)
    /\ trace_of (responder_loop cap (o :: obs) st)
       = evs ++ trace_of (responder_loop cap obs st1)
    /\ (poll_cycle cap o st).1.1 = NextIteration).
Proof.
intros Hlt. cbn [responder_loop]. rewrite Hlt.
destruct (poll_cycle cap o st) as [[c st1] evs]. cbn [fst snd].
destruct c; [right | left].
- rewrite state_of_prepend, trace_of_prepend. auto.
- auto.
Qed.

Lemma responder_loop_stopped (obs : list observation) (st : responder_state) :
PrimFloat.ltb (total_received st) cap = false ->
responder_loop cap obs st = Completed st [PrintCompleted].
Proof. intros H. destruct obs; cbn [responder_loop]; rewrite H; reflexivity. Qed.

End ResponderInvariants.

(** X1: over a whole run the schedule and the starting balance stay as they
    were, [idx] only grows, and the amounts handed to the wallet are the chunks
    of the schedule from the first [idx] up to the last one, in order, each
    converted by [int(x * 1_000_000)]. *)
Theorem responder_sends_schedule_in_order (cap : float) (obs : list observation)
    (st : responder_state) :
  let final := state_of (responder_loop cap obs st) in
  let tr := trace_of (responder_loop cap obs st) in
  response_amounts final = response_amounts st
  /\ starting_balance final = starting_balance st
  /\ (idx st <= idx final)%nat
  /\ map Returned (sends tr)
     = chunk_micros (take (idx final - idx st) (drop (idx st) (response_amounts st)))
  /\ (length (sends tr) <= length (response_amounts st) - idx st)%nat.
Proof.
  cbv zeta.
  cut (response_amounts (state_of (responder_loop cap obs st)) = response_amounts st
       /\ starting_balance (state_of (responder_loop cap obs st)) = starting_balance st
       /\ (idx st <= idx (state_of (responder_loop cap obs st)))%nat
       /\ map Returned (sends (trace_of (responder_loop cap obs st)))
          = chunk_micros (take (idx (state_of (responder_loop cap obs st)) - idx st)
                            (drop (idx st) (response_amounts st)))).
  { intros (H1 & H2 & H3 & H4). repeat split; try assumption.
    apply (f_equal length) in H4. unfold chunk_micros in H4.
    rewrite !length_map, length_take, length_drop in H4. lia. }
  revert st. induction obs as [|o obs IH]; intros st; cbv zeta.
  - assert (state_of (responder_loop cap [] st) = st
            /\ sends (trace_of (responder_loop cap [] st)) = []) as [-> ->].
    { cbn [responder_loop]. destruct (PrimFloat.ltb _ _); split; reflexivity. }
    rewrite Nat.sub_diag. repeat split; try reflexivity; lia.
  - destruct (PrimFloat.ltb (total_received st) cap) eqn:Hlt.
    + pose proof (poll_cycle_step cap o st) as Hstep. cbv zeta in Hstep.
      destruct Hstep as (Hra & Hsb & Hcase).
      specialize (IH (poll_cycle cap o st).1.2). cbv zeta in IH.
      destruct IH as (IH1 & IH2 & IH3 & IH4).
      assert (forall final tr,
        (final = (poll_cycle cap o st).1.2 /\ sends tr = sends (poll_cycle cap o st).2)
        \/ (final = state_of (responder_loop cap obs (poll_cycle cap o st).1.2)
            /\ sends tr = sends (poll_cycle cap o st).2
                          ++ sends (trace_of (responder_loop cap obs
                                                (poll_cycle cap o st).1.2))) ->
        response_amounts final = response_amounts st
        /\ starting_balance final = starting_balance st
        /\ (idx st <= idx final)%nat
        /\ map Returned (sends tr)
           = chunk_micros (take (idx final - idx st)
                             (drop (idx st) (response_amounts st)))) as Hgen.
      { intros final tr [[-> Hs]|[-> Hs]]; rewrite Hs.
        - split; [exact Hra|]. split; [exact Hsb|].
          destruct Hcase as [(Hi & Hse & _)|(amt & a & Ha & Hint & Hi & Hse & _)];
            rewrite Hi, Hse.
          + rewrite Nat.sub_diag. split; [lia|reflexivity].
          + split; [lia|]. replace (S (idx st) - idx st)%nat with 1%nat by lia.
            rewrite (drop_S _ amt _ Ha). cbn [take chunk_micros map app].
          rewrite Hint. reflexivity.
        - rewrite IH1, IH2, Hra, Hsb. split; [reflexivity|]. split; [reflexivity|].
          rewrite map_app, IH4, Hra.
          destruct Hcase as [(Hi & Hse & _)|(amt & a & Ha & Hint & Hi & Hse & _)];
            rewrite Hse; rewrite Hi in *.
          + split; [exact IH3|]. reflexivity.
          + split; [lia|].
            replace (idx (state_of (responder_loop cap obs (poll_cycle cap o st).1.2))
                     - idx st)%nat
              with (S (idx (state_of (responder_loop cap obs (poll_cycle cap o st).1.2))
                       - S (idx st)))%nat by lia.
            rewrite (drop_S _ amt _ Ha). cbn [take chunk_micros map app].
            rewrite Hint. reflexivity. }
      apply Hgen.
      destruct (responder_loop_cons cap o obs st Hlt) as [(E1 & E2 & _)|(E1 & E2 & _)];
        rewrite E2, sends_app; [left | right]; split; try exact E1.
      * change (sends [PrintCompleted]) with (@nil Z). rewrite app_nil_r. reflexivity.
      * reflexivity.
    + rewrite (responder_loop_stopped cap (o :: obs) st Hlt). cbn [state_of trace_of].
      rewrite Nat.sub_diag. repeat split; try reflexivity; lia.
Qed.

Section ResponderStops.
Variable cap : float.

(** Why a cycle breaks out of the loop. *)
Lemma poll_cycle_break (o : observation) (st : responder_state) :
(poll_cycle cap o st).1.1 = Break ->
PrimFloat.leb cap (total_received (poll_cycle cap o st).1.2) = true
\/ (response_amounts st !! idx st = None
    /\ In PrintAllSent (poll_cycle cap o st).2).
Proof.
unfold poll_cycle.
destruct (triggered _ _); cbn [response_amounts idx].
- destruct (response_amounts st !! idx st) as [amt|].
  + destruct (PyFloat.to_int _); [|discriminate].
    unfold check_cap. cbn [total_received].
    destruct (PrimFloat.leb _ _) eqn:E; [|discriminate].
    intros _. left. exact E.
  + intros _. right. split; [reflexivity|]. cbn. auto.
- unfold check_cap.
  destruct (PrimFloat.leb _ _) eqn:E; [|discriminate].
  intros _. left. exact E.
Qed.

End ResponderStops.

(** X2: a run returns only with [total_received < max_amount_received] false,
    or after a triggered poll found the schedule exhausted; otherwise it has used
    every observation, one poll each, and is still below the cap. A run never
    polls more often than there are observations. *)
Theorem responder_stops_for_a_reason (cap : float) (obs : list observation)
    (st : responder_state) :
  match responder_loop cap obs st with
  | Completed final tr =>
      (PrimFloat.ltb (total_received final) cap = false
       \/ ((length (response_amounts final) <= idx final)%nat
           /\ In PrintAllSent tr))
      /\ (polls tr <= length obs)%nat
  | Polling final tr =>
      PrimFloat.ltb (total_received final) cap = true
      /\ polls tr = length obs
  end.
Proof.
  revert st. induction obs as [|o obs IH]; intros st.
  - cbn [responder_loop]. destruct (PrimFloat.ltb _ _) eqn:E.
    + split; [exact E | reflexivity].
    + split; [left; exact E | cbn; lia].
  - cbn [responder_loop]. destruct (PrimFloat.ltb (total_received st) cap) eqn:E.
    + pose proof (poll_cycle_break cap o st) as Hb.
      pose proof (polls_poll_cycle cap o st) as Hp.
      pose proof (poll_cycle_step cap o st) as Hs. cbv zeta in Hs.
      destruct Hs as (Hra & _ & Hidx).
      specialize (IH (poll_cycle cap o st).1.2).
      destruct (poll_cycle cap o st) as [[c st1] evs]. cbn [fst snd] in *.
      destruct c.
      * destruct (responder_loop cap obs st1) as [final tr|final tr];
          cbn [prepend]; unfold polls in *; rewrite omap_app, length_app, Hp.
        -- destruct IH as [[IH|[IH1 IH2]] IHp]; (split; [|cbn; lia]).
           ++ left. exact IH.
           ++ right. split; [exact IH1|]. apply in_or_app. right. exact IH2.
        -- destruct IH as [IH IHp]. split; [exact IH|]. cbn. lia.
      * unfold polls in *. rewrite omap_app, length_app, Hp. split; [|cbn; lia].
        destruct (Hb eq_refl) as [Hc|[Hn Hin]].
        -- left. apply float_leb_not_ltb. exact Hc.
        -- right. split; [|apply in_or_app; left; exact Hin].
           rewrite Hra.
           destruct Hidx as [(Hi & _)|(amt & a & Ha & _)]; [|congruence].
           apply lookup_ge_None in Hn. lia.
    + split; [left; exact E | cbn; lia].
Qed.

(** ** The schedule for a divisor that is not positive *)

Section NegativeDivisor.

(** [float(n)] for [-2^53 < n < 0] is a negative finite float. *)
Lemma binary_round_small (s : bool) (p : positive) :
Z.log2 (Zpos p) <= 52 ->
exists m, binary_round prec emax s p 0 = S754_finite s m (Z.log2 (Zpos p) - 52)
          /\ Z.log2 (Zpos m) = 52.
Proof.
intros Hp. pose proof (Z.log2_nonneg (Zpos p)) as H0.
unfold binary_round.
rewrite digits2_log2, Z.add_0_r, fexp_normal by lia.
unfold shl_align.
destruct (Z.log2 (Zpos p) + 1 - 53 - 0) as [|d|d] eqn:E; try lia.
- exists p. replace (Z.log2 (Zpos p) - 52) with 0 by lia.
  split; [|lia].
  apply binary_round_aux_canonical; [|unfold emax, prec; lia].
  rewrite digits2_log2, fexp_normal by lia. lia.
- exists (Pos.iter xO p d).
  assert (Z.log2 (Zpos (Pos.iter xO p d)) = 52) as Hl.
  { rewrite iter_xO, Z.log2_mul_pow2 by lia. lia. }
  replace (Z.log2 (Zpos p) + 1 - 53) with (Z.log2 (Zpos p) - 52) by lia.
  split; [|assumption].
  apply binary_round_aux_canonical; [|unfold emax, prec; lia].
  rewrite digits2_log2, Hl, fexp_normal by lia. lia.
Qed.

Lemma div_int_negative (x : float) (n : Z) :
- 2 ^ 53 < n < 0 -> exists q, PyFloat.div_int x n = Returned q.
Proof.
intros [Hlo Hhi]. destruct n as [|p|p]; try lia.
assert (Z.log2 (Zpos p) <= 52) as Hl.
{ assert (Zpos p < 2 ^ 53) as H by lia. apply Z.log2_lt_pow2 in H; lia. }
destruct (binary_round_small true p Hl) as (m & Hb & Hm).
pose proof (Z.log2_nonneg (Zpos p)) as H0.
exists (x / SF2Prim (S754_finite true m (Z.log2 (Zpos p) - 52)))%float.
unfold PyFloat.div_int, PyFloat.of_int, binary_normalize. rewrite Hb.
cbn [py_bind]. rewrite FloatAxioms.eqb_spec.
rewrite Prim2SF_of_finite by (try assumption; unfold emax, prec; lia).
reflexivity.
Qed.

End NegativeDivisor.

(** X3: with [divisor = 0] the construction raises [ZeroDivisionError]; with a
    negative divisor the list of parts is empty, so it raises [IndexError] at
    [response_amounts[-1]] when [abs(max_response_amount) > 0] and returns the
    empty schedule otherwise. *)
Theorem build_response_amounts_nonpositive_divisor (py : platform) (T : float)
    (N : Z) :
  - 2 ^ 53 < N <= 0 ->
  build_response_amounts float_arith py T N
  = if N =? 0 then Raised ZeroDivisionError
    else if PyFloat.gt0 (PrimFloat.abs (T - 0)%float) then Raised IndexError
         else Returned [].
Proof.
  intros [Hlo Hhi]. destruct (N =? 0) eqn:E.
  - apply Z.eqb_eq in E. subst N. reflexivity.
  - apply Z.eqb_neq in E.
    destruct (div_int_negative T N ltac:(lia)) as [q Hq].
    unfold build_response_amounts. cbn [a_div_int float_arith]. rewrite Hq.
    cbn [py_bind].
    rewrite list_times_nonpositive by (unfold maxsize; lia).
    cbn [py_bind py_sum a_zero a_sub a_abs a_gt0 float_arith].
    destruct (PyFloat.gt0 _); reflexivity.
Qed.

Lemma build_response_amounts_nonpositive_divisor_witness :
  build_response_amounts float_arith compensated_platform 1.5%float (-2)
  = Raised IndexError.
Proof.
  exact (build_response_amounts_nonpositive_divisor compensated_platform
           1.5%float (-2) ltac:(lia)).
Defined.

(** ** The recipient pattern *)

Section RecipientPattern.
Open Scope string_scope.

Lemma length_append (a b : string) :
String.length (String.append a b) = (String.length a + String.length b)%nat.
Proof.
induction a as [|c a IH]; [reflexivity|].
change (S (String.length (String.append a b))
        = S (String.length a + String.length b)).
f_equal. exact IH.
Qed.

Lemma substring_append_l (a b : string) :
String.substring 0 (String.length a) (String.append a b) = a.
Proof.
induction a as [|c a IH].
- destruct b; reflexivity.
- change (String c (String.substring 0 (String.length a) (String.append a b))
          = String c a).
  f_equal. exact IH.
Qed.

Lemma substring_append_r (a b : string) :
String.substring (String.length a) (String.length b) (String.append a b) = b.
Proof.
induction a as [|c a IH]; [apply substring_all|].
change (String.substring (String.length a) (String.length b) (String.append a b) = b).
exact IH.
Qed.

Lemma substring_split (k : nat) (s : string) :
s = String.append (String.substring 0 k s)
      (String.substring k (String.length s - k) s).
Proof.
revert s. induction k as [|k IH]; intros s.
- assert (String.substring 0 0 s = "") as -> by (destruct s; reflexivity).
  rewrite Nat.sub_0_r, substring_all. reflexivity.
- destruct s as [|c s]; [reflexivity|].
  change (String c s
          = String c (String.append (String.substring 0 k s)
                        (String.substring k (String.length s - k) s))).
  f_equal. apply IH.
Qed.

Lemma length_substring_full (k : nat) (s : string) :
String.length (String.substring 0 k s) = k -> (k <= String.length s)%nat.
Proof.
revert s. induction k as [|k IH]; intros s H; [lia|].
destruct s as [|c s]; [discriminate H|].
cbn [String.substring String.length] in *. injection H as H. apply IH in H. lia.
Qed.

End RecipientPattern.

(** X4: [_SMR_ADDR_RE] accepts exactly [smr1] followed by 59 characters of the
    bech32 alphabet, and the same followed by one newline (Python's [$] also
    matches before a final newline). *)
Theorem smr_addr_match_spec (s : string) :
  smr_addr_match s = true
  <-> exists body,
        String.length body = 59%nat
        /\ forallb in_charset (list_ascii_of_string body) = true
        /\ (s = String.append "smr1" body
            \/ s = String.append "smr1" (String.append body (String "010" ""))).
Proof.
  unfold smr_addr_match, PyStr.startswith. split.
  - intros H. apply andb_prop in H. destruct H as [H Htail].
    apply andb_prop in H. destruct H as [H Hlen].
    apply andb_prop in H. destruct H as [Hpre Hcs].
    apply Nat.eqb_eq in Hlen. apply prefix_split in Hpre.
    cbn [String.length] in Hpre.
    set (r := String.substring 4 (String.length s - 4) s) in *.
    assert (String.substring 4 59 s = String.substring 0 59 r) as E1
      by (rewrite Hpre; reflexivity).
    assert (String.length s = (4 + String.length r)%nat) as El
      by (rewrite Hpre at 1; reflexivity).
    assert (String.substring 63 (String.length s - 63) s
            = String.substring 59 (String.length r - 59) r) as E2.
    { rewrite El. replace (4 + String.length r - 63)%nat
        with (String.length r - 59)%nat by lia.
      rewrite Hpre. reflexivity. }
    rewrite E1 in Hcs, Hlen. rewrite E2 in Htail.
    exists (String.substring 0 59 r). split; [exact Hlen|]. split; [exact Hcs|].
    pose proof (substring_split 59 r) as Hr.
    destruct (String.substring 59 (String.length r - 59) r) as [|c [|c' t]];
      try discriminate Htail.
    + left. rewrite Hpre. f_equal. rewrite Hr at 1. apply append_empty_r.
    + right. apply Ascii.eqb_eq in Htail. subst c. rewrite Hpre. f_equal. exact Hr.
  - intros (body & Hlen & Hcs & [->| ->]).
    + change (String.prefix "smr1" (String.append "smr1" body)) with (String.prefix "" body).
      change (String.substring 4 59 (String.append "smr1" body))
        with (String.substring 0 59 body).
      change (String.length (String.append "smr1" body)) with (4 + String.length body)%nat.
      rewrite Hlen. cbn [Nat.add Nat.sub].
      change (String.substring 63 0 (String.append "smr1" body))
        with (String.substring 59 0 body).
      rewrite <- Hlen at 1 2. rewrite substring_all, Hcs, Hlen, Nat.eqb_refl.
      rewrite <- Hlen.
      assert (String.substring (String.length body) 0 body = "") as ->.
      { rewrite <- (append_empty_r body) at 2.
        apply (substring_append_r body ""). }
      destruct body; reflexivity.
    + assert (String.substring 0 59 (String.append body (String "010" "")) = body) as A1
        by (rewrite <- Hlen; apply substring_append_l).
      assert (String.substring 59 1 (String.append body (String "010" ""))
              = String "010" "") as A2
        by (rewrite <- Hlen; apply (substring_append_r body (String "010" ""))).
      assert (String.length (String.append "smr1" (String.append body (String "010" "")))
              = 64%nat) as A3.
      { change (S (S (S (S (String.length (String.append body (String "010" ""))))))
                = 64%nat).
        rewrite length_append, Hlen. reflexivity. }
      rewrite A3. cbn [Nat.sub].
      change (String.prefix "smr1" (String.append "smr1" (String.append body (String "010" ""))))
        with (String.prefix "" (String.append body (String "010" ""))).
      change (String.substring 4 59 (String.append "smr1" (String.append body (String "010" ""))))
        with (String.substring 0 59 (String.append body (String "010" ""))).
      change (String.substring 63 1 (String.append "smr1" (String.append body (String "010" ""))))
        with (String.substring 59 1 (String.append body (String "010" ""))).
      rewrite A1, A2, Hcs, Hlen.
      destruct (String.append body (String "010" "")); reflexivity.
Qed.

(** ** Authorization headers *)

Section Headers.
Open Scope string_scope.

Lemma split_from_all_space (ws word : string) :
forallb PyStr.is_space (list_ascii_of_string ws) = true ->
PyStr.split_from word ws = PyStr.flush word [].
Proof.
revert word. induction ws as [|c ws IH]; intros word H; [reflexivity|].
cbn [list_ascii_of_string forallb] in H. apply andb_prop in H.
destruct H as [Hc Hws]. cbn [PyStr.split_from]. rewrite Hc, (IH "" Hws).
reflexivity.
Qed.

Lemma split_from_leading_space (ws s word : string) :
forallb PyStr.is_space (list_ascii_of_string ws) = true ->
ws <> "" ->
PyStr.split_from word (String.append ws s)
= PyStr.flush word (PyStr.split_from "" s).
Proof.
revert word. induction ws as [|c ws IH]; intros word H Hne; [congruence|].
cbn [list_ascii_of_string forallb] in H. apply andb_prop in H.
destruct H as [Hc Hws].
change (String.append (String c ws) s) with (String c (String.append ws s)).
cbn [PyStr.split_from]. rewrite Hc. f_equal.
destruct ws as [|c' ws']; [reflexivity|].
rewrite (IH "" Hws) by discriminate. reflexivity.
Qed.

Lemma split_from_word (t tail word : string) :
forallb (fun c => negb (PyStr.is_space c)) (list_ascii_of_string t) = true ->
starts_with_space_or_empty tail = true ->
PyStr.split_from word (String.append t tail)
= PyStr.flush (String.append word t) (PyStr.split_from "" tail).
Proof.
revert word. induction t as [|c t IH]; intros word H Ht.
- rewrite append_empty_r. change (String.append "" tail) with tail.
  destruct tail as [|c tail]; [reflexivity|].
  cbn [starts_with_space_or_empty] in Ht. cbn [PyStr.split_from]. rewrite Ht.
  reflexivity.
- cbn [list_ascii_of_string forallb] in H. apply andb_prop in H.
  destruct H as [Hc Hs]. apply negb_true_iff in Hc.
  change (String.append (String c t) tail) with (String c (String.append t tail)).
  cbn [PyStr.split_from]. rewrite Hc, (IH _ Hs Ht), append_snoc. reflexivity.
Qed.

(** The token that [authorization.split()[1]] reads from a header that starts
  with [Bearer], spaces, a word [t], and then nothing or more text. *)
Lemma split_bearer_word (ws t tail : string) :
forallb PyStr.is_space (list_ascii_of_string ws) = true ->
forallb (fun c => negb (PyStr.is_space c)) (list_ascii_of_string t) = true ->
t <> "" ->
starts_with_space_or_empty tail = true ->
PyStr.split (String.append "Bearer " (String.append ws (String.append t tail)))
  !! 1%nat = Some t.
Proof.
intros Hws Ht Hne Htail. unfold PyStr.split.
change (String.append "Bearer " (String.append ws (String.append t tail)))
  with (String.append "Bearer"
          (String.append (String " " ws) (String.append t tail))).
rewrite (split_from_word "Bearer"
           (String.append (String " " ws) (String.append t tail)) "" eq_refl eq_refl).
rewrite (split_from_leading_space (String " " ws)); [| |discriminate].
- rewrite (split_from_word t tail "" Ht Htail).
  destruct t; [congruence|]. reflexivity.
- cbn [list_ascii_of_string forallb]. rewrite Hws. reflexivity.
Qed.

Lemma startswith_bearer (rest : string) :
PyStr.startswith "Bearer " (String.append "Bearer " rest) = true.
Proof.
unfold PyStr.startswith.
change (String.append "Bearer " rest)
  with (String "B" (String "e" (String "a" (String "r" (String "e" (String "r"
          (String " " rest))))))).
cbn. destruct rest; reflexivity.
Qed.

End Headers.

(** X5: a header [Bearer ] followed by nothing but white space has no second
    word: [authorization.split()[1]] raises [IndexError], which neither [_auth]
    nor [logout] catches, so every route that reads the header answers with an
    unhandled error (500) instead of 401, without calling the wallet. *)
Theorem bearer_without_token_is_unhandled (max_str_digits : Z) (w : world)
    (sessions : gmap string session) (ws : string) :
  forallb PyStr.is_space (list_ascii_of_string ws) = true ->
  let header := Some (String.append "Bearer " ws) in
  _auth sessions header = Unhandled IndexError
  /\ logout header sessions = (sessions, Unhandled IndexError, [])
  /\ (forall r, authenticated_call header r ->
                serve max_str_digits w r sessions
                = (sessions, Unhandled IndexError, [])).
Proof.
  intros Hws header.
  assert (PyStr.split (String.append "Bearer " ws) !! 1%nat = None) as Hsplit.
  { unfold PyStr.split.
    change (String.append "Bearer " ws)
      with (String.append "Bearer" (String " " ws)).
    rewrite (split_from_word "Bearer" (String " " ws) "" eq_refl eq_refl).
    rewrite split_from_all_space; [reflexivity|].
    cbn [list_ascii_of_string forallb]. rewrite Hws. reflexivity. }
  assert (_auth sessions header = Unhandled IndexError) as Hauth.
  { unfold _auth, header. rewrite startswith_bearer, Hsplit. reflexivity. }
  split; [exact Hauth|]. split.
  - unfold logout, header. rewrite startswith_bearer, Hsplit. reflexivity.
  - intros r Hr. destruct Hr; cbn [serve]; unfold with_auth; rewrite Hauth;
      reflexivity.
Qed.

Lemma bearer_without_token_is_unhandled_witness :
  status_code (serve 4300 sample_world (GetBalance (Some "Bearer  "%string))
                 {[ sample_token := sample_session ]}).1.2 = 500.
Proof.
  rewrite (proj2 (proj2 (bearer_without_token_is_unhandled 4300 sample_world
                           {[ sample_token := sample_session ]} " "%string eq_refl))
             (GetBalance (Some "Bearer  "%string)) (call_balance _)).
  reflexivity.
Defined.

(** X6: the token of a header is its second word: extra spaces after [Bearer]
    and any text after the token are ignored, by [_auth] and by [logout]. *)
Theorem auth_reads_second_word (sessions : gmap string session)
    (ws t tail : string) :
  forallb PyStr.is_space (list_ascii_of_string ws) = true ->
  forallb (fun c => negb (PyStr.is_space c)) (list_ascii_of_string t) = true ->
  t <> ""%string ->
  starts_with_space_or_empty tail = true ->
  let header := Some (String.append "Bearer " (String.append ws (String.append t tail))) in
  _auth sessions header
  = match sessions !! t with
    | None => HTTPException 401 "Invalid or expired session"
    | Some sess => Ok200 sess
    end
  /\ logout header sessions = (delete t sessions, Ok200 OkBody, []).
Proof.
  intros Hws Ht Hne Htail header.
  pose proof (split_bearer_word ws t tail Hws Ht Hne Htail) as Hsplit.
  split.
  - unfold _auth, header. rewrite startswith_bearer, Hsplit. reflexivity.
  - unfold logout, header. rewrite startswith_bearer, Hsplit. reflexivity.
Qed.

Lemma auth_reads_second_word_witness :
  _auth {[ sample_token := sample_session ]}
    (Some (String.append "Bearer "
             (String.append " " (String.append sample_token " trailing text"))))
  = Ok200 sample_session.
Proof.
  rewrite (proj1 (auth_reads_second_word {[ sample_token := sample_session ]}
                    " "%string sample_token " trailing text"%string
                    eq_refl eq_refl ltac:(discriminate) eq_refl)).
  rewrite lookup_singleton_eq. reflexivity.
Defined.

(** X7: a login that succeeds stores the credentials of the request under the
    token it returns: [_auth] with [Bearer <token>] then yields that session,
    and the sessions of all other tokens are as before. *)
Theorem login_then_auth (max_str_digits : Z) (w : world) (b : LoginRequest)
    (sessions : gmap string session) (wallet account : string)
    (accounts : list string) :
  w_sign_in w = LibReturns (wallet, account :: accounts) ->
  token_urlsafe (w_token w) = true ->
  let after := (serve max_str_digits w (PostLogin b) sessions).1.1 in
  (serve max_str_digits w (PostLogin b) sessions).1.2
  = Ok200 (TokenBody (w_token w) (account :: accounts))
  /\ _auth after (Some (String.append "Bearer " (w_token w)))
     = Ok200 {| sess_wallet := wallet;
                sess_account_name := login_account_name b;
                sess_pin := login_pin b;
                sess_password := login_password b |}
  /\ (forall t, t <> w_token w -> after !! t = sessions !! t).
Proof.
  intros Hsign Htok after.
  assert (serve max_str_digits w (PostLogin b) sessions
          = (<[w_token w := {| sess_wallet := wallet;
                               sess_account_name := login_account_name b;
                               sess_pin := login_pin b;
                               sess_password := login_password b |}]> sessions,
             Ok200 (TokenBody (w_token w) (account :: accounts)),
             [LibSignIn (login_account_name b) (login_pin b) (login_password b)])) as E.
  { cbn [serve]. unfold login, SignInToAccount. rewrite Hsign. reflexivity. }
  unfold after. rewrite E. cbn [fst snd]. split; [reflexivity|]. split.
  - rewrite (auth_bearer _ _ Htok), lookup_insert_eq. reflexivity.
  - intros t Hne. apply lookup_insert_ne. congruence.
Qed.

Lemma login_then_auth_witness :
  let b := {| login_account_name := "alice"; login_pin := "1234";
              login_password := "secret" |}%string in
  _auth (serve 4300 sample_world (PostLogin b) ∅).1.1
    (Some (String.append "Bearer " sample_token))
  = Ok200 sample_session.
Proof.
  intros b.
  exact (proj1 (proj2 (login_then_auth 4300 sample_world b ∅ "wallet"%string
                         "Account(alias=1234)"%string [] eq_refl eq_refl))).
Defined.

(** X8: a logout with [Bearer t] answers 200 without a call into the wallet
    library and touches no session but that of [t], which is gone afterwards;
    it changes nothing when [t] has no session, so a second logout changes
    nothing; and a logout with no header, or a header that does not start with
    [Bearer ], answers 200 and changes nothing. *)
Theorem logout_touches_one_session (sessions : gmap string session) (t : string) :
  token_urlsafe t = true ->
  let header := Some (String.append "Bearer " t) in
  let after := (logout header sessions).1.1 in
  logout header sessions = (after, Ok200 OkBody, [])
  /\ (forall t', t' <> t -> after !! t' = sessions !! t')
  /\ after !! t = None
  /\ (sessions !! t = None -> after = sessions)
  /\ logout header after = (after, Ok200 OkBody, [])
  /\ logout None sessions = (sessions, Ok200 OkBody, [])
  /\ (forall a, PyStr.startswith "Bearer " a = false ->
                logout (Some a) sessions = (sessions, Ok200 OkBody, [])).
Proof.
  intros Ht header after.
  destruct (split_bearer t Ht) as [Hsp Hst].
  assert (forall S, logout header S = (delete t S, Ok200 OkBody, [])) as E.
  { intros S. unfold logout, header. rewrite Hst, Hsp. reflexivity. }
  unfold after. rewrite E. cbn [fst].
  split; [|split; [|split; [|split; [|split; [|split]]]]].
  - reflexivity.
  - intros t' Hne. apply lookup_delete_ne. congruence.
  - apply lookup_delete_eq.
  - apply delete_id.
  - rewrite E. f_equal. f_equal. apply delete_id, lookup_delete_eq.
  - reflexivity.
  - intros a Ha. unfold logout. rewrite Ha. reflexivity.
Qed.

Lemma logout_touches_one_session_witness :
  status_code (logout (Some (String.append "Bearer " sample_token))
                 {[ sample_token := sample_session ]}).1.2 = 200
  /\ (logout (Some (String.append "Bearer " sample_token))
        {[ sample_token := sample_session ]}).1.1 !! sample_token = None.
Proof.
  destruct (logout_touches_one_session {[ sample_token := sample_session ]}
              sample_token eq_refl) as (Hr & _ & Hgone & _).
  split; [rewrite Hr; reflexivity|exact Hgone].
Defined.

(** ** The balance route *)

Section BalanceSign.

Lemma binary_round_aux_sign (m e : Z) (l : location) :
no_negative_finite (binary_round_aux prec emax false m e l) = true.
Proof.
unfold binary_round_aux.
destruct (shr_fexp prec emax m e l) as [mrs' e'].
destruct (shr_fexp prec emax _ e' loc_Exact) as [mrs'' e''].
destruct (shr_m mrs''); try reflexivity.
destruct (e'' <=? emax - prec); reflexivity.
Qed.

Lemma binary_round_sign (m : positive) (e : Z) :
no_negative_finite (binary_round prec emax false m e) = true.
Proof.
unfold binary_round. destruct (shl_align _ _ _). apply binary_round_aux_sign.
Qed.

Lemma binary_normalize_sign (n : Z) :
0 <= n -> no_negative_finite (binary_normalize prec emax n 0 false) = true.
Proof.
intros Hn. destruct n as [|p|p]; [reflexivity|apply binary_round_sign|lia].
Qed.

(** Reading back a float built from a value that is not negative. *)
Lemma Prim2SF_SF2Prim_sign (x : spec_float) :
no_negative_finite x = true ->
no_negative_finite (Prim2SF (SF2Prim x)) = true.
Proof.
destruct x as [s|s| |s m e]; intros H.
- destruct s; reflexivity.
- destruct s; reflexivity.
- reflexivity.
- destruct s; [discriminate H|]. cbn [SF2Prim].
  rewrite Z_ldexp_spec, of_uint63_spec.
  assert (no_negative_finite
            (binary_normalize prec emax (Uint63Axioms.to_Z (Uint63Axioms.of_Z (Zpos m))) 0 false)
          = true) as Hn.
  { apply binary_normalize_sign.
    destruct (Uint63.to_Z_bounded (Uint63Axioms.of_Z (Zpos m))). lia. }
  destruct (binary_normalize prec emax _ 0 false) as [s|s| |s m' e'];
    try exact Hn.
  destruct s; [discriminate Hn|]. cbn [SFldexp]. apply binary_round_sign.
Qed.

Lemma SFmul_sign (x : spec_float) (m : positive) (e : Z) :
no_negative_finite x = true ->
no_negative_finite (SFmul prec emax x (S754_finite false m e)) = true.
Proof.
destruct x as [s|s| |s mx ex]; intros H; try reflexivity.
destruct s; [discriminate H|]. cbn [SFmul xorb]. apply binary_round_aux_sign.
Qed.

Lemma nearest_even_nonneg (n e : Z) : 0 <= n -> 0 <= PyFloat.nearest_even n e.
Proof.
intros Hn. unfold PyFloat.nearest_even. destruct (0 <=? e) eqn:E.
- apply Z.leb_le in E. pose proof (Z.pow_nonneg 2 e). nia.
- assert (0 < 2 ^ (- e)) as Hd by (apply Z.pow_pos_nonneg; apply Z.leb_gt in E; lia).
  pose proof (Z.div_pos n (2 ^ (- e)) Hn Hd) as Hq.
  destruct (_ ?= _); [destruct (Z.even _)| |]; lia.
Qed.

(** [round] of a float that is not a negative finite number. *)
Lemma round_int_nonneg (x : float) :
no_negative_finite (Prim2SF x) = true ->
match PyFloat.round_int x with
| Returned m => 0 <= m
| Raised _ => True
end.
Proof.
unfold PyFloat.round_int. destruct (Prim2SF x) as [s|s| |s m e]; intros H;
  try exact I; try (cbn; lia).
destruct s; [discriminate H|]. cbn [cond_Zopp]. apply nearest_even_nonneg. lia.
Qed.

(** The [try] block on a text: a result that is not negative, or an exception. *)
Lemma parse_balance_try_nonneg (max_str_digits : Z) (s : string) :
match parse_balance_try max_str_digits (PyObject (Returned s)) with
| Returned m => 0 <= m
| Raised _ => True
end.
Proof.
unfold parse_balance_try. cbn [py_str py_bind].
pose proof (parse_available_balance_nonneg max_str_digits s) as Hp.
set (p := parse_available_balance max_str_digits s) in *.
unfold PyFloat.of_int.
pose proof (binary_normalize_sign p Hp) as Hn.
destruct (binary_normalize prec emax p 0 false) as [sg|sg| |sg m e] eqn:E;
  try exact I; cbn [py_bind]; apply round_int_nonneg;
  rewrite FloatAxioms.mul_spec;
  change (Prim2SF 1000000) with (S754_finite false 8589934592000000 (-33));
  apply SFmul_sign, Prim2SF_SF2Prim_sign; exact Hn.
Qed.

End BalanceSign.

(** X9: for an argument that is not a number, [_parse_balance_to_micros] always
    returns, and what it returns is not negative: the binary64 detour can round
    the amount but cannot change its sign. *)
Theorem parse_balance_to_micros_nonneg (max_str_digits : Z)
    (str : py_result string) :
  exists micros,
    _parse_balance_to_micros max_str_digits (PyObject str) = Returned micros
    /\ 0 <= micros.
Proof.
  unfold _parse_balance_to_micros. destruct str as [s|e].
  - pose proof (parse_balance_try_nonneg max_str_digits s) as H.
    destruct (parse_balance_try max_str_digits (PyObject (Returned s))) as [m|x].
    + exists m. split; [reflexivity|exact H].
    + exists 0. split; [reflexivity|lia].
  - exists 0. split; [reflexivity|lia].
Qed.

(** X10: [/api/balance] never answers 500: whatever the library does, the
    handler answers 200 with an amount that is not negative, after one sync; the
    amount is 0 when the sync raised. The [except] of the handler is never
    entered. *)
Theorem balance_always_answers_200 (max_str_digits : Z) (w : world) (sess : session) :
  exists micros,
    balance max_str_digits w sess
    = (Ok200 (AvailableBody micros), [LibSync (sess_wallet sess) (sess_pin sess)])
    /\ 0 <= micros
    /\ (forall msg, w_sync w = LibRaises msg -> micros = 0).
Proof.
  unfold balance, get_my_balance. destruct (w_sync w) as [repr|msg].
  - cbn [py_or_zero].
    destruct (parse_balance_to_micros_nonneg max_str_digits (Returned repr))
      as (m & Hm & Hnn).
    rewrite Hm. exists m. split; [reflexivity|]. split; [exact Hnn|]. discriminate.
  - cbn [py_or_zero]. exists 0.
    assert (_parse_balance_to_micros max_str_digits (PyInt 0) = Returned 0) as ->.
    { unfold _parse_balance_to_micros, parse_balance_try, py_str, PyStr.of_int.
      change (NilZero.string_of_int (Z.to_int 0)) with "0"%string.
      cbn [String.length Nat.sub Z.of_nat Z.ltb Z.compare Z.sub Z.add Z.opp].
      destruct (0 <? max_str_digits); reflexivity. }
    split; [reflexivity|]. split; [lia|]. reflexivity.
Qed.

(** ** Slices and folder names *)

Section Slices.
Context {A : Type}.

Lemma items_forward (l : list A) (i : nat) (c : nat) :
(i + c <= length l)%nat ->
PySlice.items l (Z.of_nat i) 1 c = take c (drop i l).
Proof.
revert i. induction c as [|c IH]; intros i H; [reflexivity|].
cbn [PySlice.items]. rewrite Nat2Z.id.
destruct (l !! i) as [x|] eqn:E.
- rewrite (drop_S l x i E). cbn [take]. f_equal.
  replace (Z.of_nat i + 1) with (Z.of_nat (S i)) by lia. apply IH. lia.
- apply lookup_ge_None in E. lia.
Qed.

Lemma items_backward (l : list A) (c : nat) :
(c <= length l)%nat ->
PySlice.items l (Z.of_nat c - 1) (-1) c = rev (take c l).
Proof.
induction c as [|c IH]; intros H; [reflexivity|].
cbn [PySlice.items].
replace (Z.of_nat (S c) - 1) with (Z.of_nat c) by lia. rewrite Nat2Z.id.
destruct (l !! c) as [x|] eqn:E.
- rewrite (take_S_r l c x E), rev_app_distr. cbn [rev app]. f_equal.
  replace (Z.of_nat c + -1) with (Z.of_nat c - 1) by lia. apply IH. lia.
- apply lookup_ge_None in E. lia.
Qed.

(** [l[-k:]] is the last [k] items, or all of [l] when it is shorter. *)
Lemma slice_last (l : list A) (k : nat) :
(0 < k)%nat ->
PySlice.slice l (Some (- Z.of_nat k)) None 1 = drop (length l - k) l.
Proof.
intros Hk. unfold PySlice.slice, PySlice.start_of, PySlice.stop_of,
  PySlice.bound, PySlice.count.
change (1 <? 0) with false. cbv iota.
destruct (- Z.of_nat k <? 0) eqn:E1; [|apply Z.ltb_ge in E1; lia].
destruct (- Z.of_nat k + Z.of_nat (length l) <? 0) eqn:E2.
- apply Z.ltb_lt in E2. replace (length l - k)%nat with 0%nat by lia.
  destruct (0 <? Z.of_nat (length l)) eqn:E3.
  + rewrite Z.div_1_r.
    replace (Z.to_nat (Z.of_nat (length l) - 0 - 1 + 1)) with (length l) by lia.
    pose proof (items_forward l 0 (length l) ltac:(lia)) as Hf.
    change (Z.of_nat 0) with 0 in Hf. rewrite Hf. cbn [drop]. apply firstn_all.
  + apply Z.ltb_ge in E3. destruct l; [reflexivity|cbn in E3; lia].
- apply Z.ltb_ge in E2.
  replace (- Z.of_nat k + Z.of_nat (length l)) with (Z.of_nat (length l - k)) by lia.
  destruct (Z.of_nat (length l - k) <? Z.of_nat (length l)) eqn:E3.
  + rewrite Z.div_1_r.
    replace (Z.to_nat (Z.of_nat (length l) - Z.of_nat (length l - k) - 1 + 1))
      with k by lia.
    rewrite items_forward by lia. apply take_ge. rewrite length_drop. lia.
  + apply Z.ltb_ge in E3. lia.
Qed.

(** [l[-k::-1]] walks back from the item [k] places before the end: it is the
  first [length l - k + 1] items, reversed. *)
Lemma slice_back_from (l : list A) (k : nat) :
(0 < k)%nat ->
PySlice.slice l (Some (- Z.of_nat k)) None (-1) = rev (take (length l - (k - 1)) l).
Proof.
intros Hk. unfold PySlice.slice, PySlice.start_of, PySlice.stop_of,
  PySlice.bound, PySlice.count.
change (-1 <? 0) with true. cbv iota. change (- -1) with 1.
destruct (- Z.of_nat k <? 0) eqn:E1; [|apply Z.ltb_ge in E1; lia].
destruct (- Z.of_nat k + Z.of_nat (length l) <? 0) eqn:E2.
- apply Z.ltb_lt in E2. replace (length l - (k - 1))%nat with 0%nat by lia.
  reflexivity.
- apply Z.ltb_ge in E2.
  destruct (-1 <? - Z.of_nat k + Z.of_nat (length l)) eqn:E3;
    [|apply Z.ltb_ge in E3; lia].
  rewrite Z.div_1_r.
  replace (Z.to_nat (- Z.of_nat k + Z.of_nat (length l) - -1 - 1 + 1))
    with (length l - (k - 1))%nat by lia.
  replace (- Z.of_nat k + Z.of_nat (length l))
    with (Z.of_nat (length l - (k - 1)) - 1) by lia.
  apply items_backward. lia.
Qed.

(** [l[::-1]] is [l] reversed. *)
Lemma slice_reverse (l : list A) : PySlice.slice l None None (-1) = rev l.
Proof.
unfold PySlice.slice, PySlice.start_of, PySlice.stop_of, PySlice.count.
change (-1 <? 0) with true. cbv iota. change (- -1) with 1.
destruct (-1 <? Z.of_nat (length l) - 1) eqn:E.
- rewrite Z.div_1_r.
  replace (Z.to_nat (Z.of_nat (length l) - 1 - -1 - 1 + 1)) with (length l) by lia.
  rewrite items_backward by lia. rewrite firstn_all. reflexivity.
- apply Z.ltb_ge in E. destruct l; [reflexivity|cbn [length] in E; lia].
Qed.

End Slices.

(** X11: [create_character_folder] returns [None] only for [None]. For a name,
    the last seven characters of its lower-case form (all of them when it is
    shorter) become one folder each, joined by [/], and the characters before
    them follow the last [/] as the tail: tail and folders together spell the
    lower-cased name. The counts are those of the lower-cased name, which need
    not be as long as the name. *)
Theorem create_character_folder_spells_name {char : Type}
    (lower : list char -> list char) (slash : char) (name : list char) :
  create_character_folder lower slash None = None
  /\ exists tail parts : list char,
       create_character_folder lower slash (Some name)
       = Some (py_join [slash] (chars_of parts) ++ [slash] ++ tail)
       /\ tail ++ parts = lower name
       /\ length parts = Nat.min 7 (length (lower name))
       /\ length tail = (length (lower name) - 7)%nat.
Proof.
  split; [reflexivity|].
  set (s := lower name).
  exists (take (length s - 7) s), (drop (length s - 7) s).
  split; [|split; [apply take_drop|split]].
  - unfold create_character_folder. fold s.
    pose proof (slice_back_from s 8 ltac:(lia)) as H8.
    change (- Z.of_nat 8) with (-8) in H8. change (8 - 1)%nat with 7%nat in H8.
    pose proof (slice_last s 7 ltac:(lia)) as H7.
    change (- Z.of_nat 7) with (-7) in H7.
    rewrite H8, slice_reverse, rev_involutive, H7. reflexivity.
  - rewrite length_drop. lia.
  - rewrite length_take. lia.
Qed.


(** ** Transaction text *)

Section TransactionTextFacts.
Open Scope string_scope.

Lemma span_split (cls : ascii -> bool) (s run t : string) :
PyRe.span cls s = (run, t) ->
s = run ++ t /\ forallb cls (list_ascii_of_string run) = true.
Proof.
revert run t. induction s as [|c s IH]; intros run t H; cbn [PyRe.span] in H.
- injection H as <- <-. split; reflexivity.
- destruct (cls c) eqn:Hc.
  + destruct (PyRe.span cls s) as [r' t'] eqn:E. injection H as <- <-.
    destruct (IH _ _ eq_refl) as [-> Hr]. split; [reflexivity|].
    cbn [list_ascii_of_string forallb]. rewrite Hc. exact Hr.
  + injection H as <- <-. split; reflexivity.
Qed.

(** A match of [lit(C+)'] at the start of a text: the literal, a run of the
  class that is not empty, and a quote. *)
Lemma match_run_here_sound (lit : string) (cls : ascii -> bool) (s run : string)
  (len : nat) :
PyRe.match_run_here lit cls s = Some (run, len) ->
run <> ""
/\ forallb cls (list_ascii_of_string run) = true
/\ len = (String.length lit + String.length run + 1)%nat
/\ exists post, s = lit ++ run ++ String "'" post.
Proof.
unfold PyRe.match_run_here, PyStr.startswith. intros H.
destruct (String.prefix lit s) eqn:Hp; [|discriminate H].
apply prefix_split in Hp.
change (String.substring (String.length lit) (String.length s - String.length lit) s)
  with (suffix_from (String.length lit) s) in Hp.
destruct (PyRe.span cls _) as [r t] eqn:E.
destruct (span_split _ _ _ _ E) as [Hs Hr].
destruct r as [|c r]; [discriminate H|].
destruct t as [|q t]; [discriminate H|].
destruct (Ascii.eqb_spec q "'"%char) as [->|Hq].
- injection H as <- <-. split; [discriminate|]. split; [exact Hr|].
  split; [reflexivity|]. exists t. rewrite Hp at 1. rewrite Hs. reflexivity.
- exfalso. revert H Hq. clear.
  destruct q as [[|] [|] [|] [|] [|] [|] [|] [|]]; intros H Hq;
    try discriminate H; congruence.
Qed.

Lemma findall_from_captures {X} (m : string -> option (X * nat)) (P : X -> Prop) :
(forall s x len, m s = Some (x, len) -> P x) ->
forall s skip, Forall P (PyRe.findall_from m skip s).
Proof.
intros Hm. induction s as [|c s IH]; intros skip.
- destruct skip; cbn [PyRe.findall_from]; [|constructor].
  destruct (m "") as [[x len]|] eqn:E; [|constructor].
  constructor; [eapply Hm, E|constructor].
- destruct skip; cbn [PyRe.findall_from]; [|apply IH].
  destruct (m (String c s)) as [[x len]|] eqn:E; [|apply IH].
  constructor; [eapply Hm, E|apply IH].
Qed.

(** The first match of [re.findall] is the match of [re.search]. *)
Lemma head_findall {X} (m : string -> option (X * nat)) (s : string) :
head (PyRe.findall m s) = PyRe.search m s.
Proof.
unfold PyRe.findall. induction s as [|c s IH].
- cbn [PyRe.findall_from PyRe.search]. destruct (m "") as [[x len]|]; reflexivity.
- cbn [PyRe.findall_from PyRe.search].
  destruct (m (String c s)) as [[x len]|]; [reflexivity|exact IH].
Qed.

Lemma is_hex_run_id (run : string) :
run <> "" -> forallb PyRe.is_hex (list_ascii_of_string run) = true ->
is_hex_literal ("0x" ++ run) = true.
Proof.
intros Hne Hr. destruct run as [|c r]; [congruence|]. exact Hr.
Qed.

Lemma transaction_id_pattern_sound (s g1 g2 : string) (len : nat) :
transaction_id_pattern s = Some ((g1, g2), len) ->
(is_hex_literal g1 = true /\ g2 = "")
\/ (g1 = "" /\ is_hex_literal g2 = true).
Proof.
unfold transaction_id_pattern. intros H.
destruct (PyRe.match_run_here "'transactionId': '0x" _ s) as [[run l]|] eqn:E1.
- injection H as <- <- <-. left.
  destruct (match_run_here_sound _ _ _ _ _ E1) as (Hne & Hr & _).
  split; [apply is_hex_run_id; assumption|reflexivity].
- destruct (PyRe.match_run_here "transactionId='0x" _ s) as [[run l]|] eqn:E2;
    [|discriminate H].
  injection H as <- <- <-. right.
  destruct (match_run_here_sound _ _ _ _ _ E2) as (Hne & Hr & _).
  split; [reflexivity|apply is_hex_run_id; assumption].
Qed.

Lemma ints_of_returns (max_str_digits : Z) (ds : list string) (ns : list Z) :
ints_of max_str_digits ds = Returned ns ->
ns = map (PyStr.decimal_from 0) ds
/\ Forall (fun d => PyStr.int_of_digits max_str_digits d
                    = Returned (PyStr.decimal_from 0 d)) ds.
Proof.
revert ns. induction ds as [|d ds IH]; intros ns H; cbn [ints_of] in H.
- injection H as <-. split; [reflexivity|constructor].
- destruct (PyStr.int_of_digits max_str_digits d) as [n|e] eqn:Ed; [|discriminate H].
  assert (Hn : n = PyStr.decimal_from 0 d).
  { unfold PyStr.int_of_digits in Ed. destruct (_ && _); [discriminate Ed|].
    injection Ed as <-. reflexivity. }
  subst n. cbn [py_bind] in H.
  destruct (ints_of max_str_digits ds) as [ns'|e] eqn:E; [|discriminate H].
  cbn [py_bind] in H. injection H as <-.
  destruct (IH _ eq_refl) as [-> HF]. split; [reflexivity|].
  constructor; [exact Ed|exact HF].
Qed.

End TransactionTextFacts.

Section TransactionTextResults.
Open Scope string_scope.

Lemma ints_of_raises (max_str_digits : Z) (ds : list string) (e : py_exn) :
ints_of max_str_digits ds = Raised e ->
e = ValueError
/\ 0 < max_str_digits
/\ exists d, In d ds /\ 640 < Z.of_nat (String.length d)
             /\ max_str_digits < Z.of_nat (String.length d).
Proof.
induction ds as [|d ds IH]; intros H; cbn [ints_of] in H; [discriminate H|].
destruct (PyStr.int_of_digits max_str_digits d) as [n|e'] eqn:Ed.
- cbn [py_bind] in H.
  destruct (ints_of max_str_digits ds) as [ns|e''] eqn:E; [discriminate H|].
  cbn [py_bind] in H. injection H as <-.
  destruct (IH eq_refl) as (He & Hl & d' & Hin & H1 & H2).
  split; [exact He|]. split; [exact Hl|]. exists d'.
  split; [right; exact Hin|]. split; assumption.
- cbn [py_bind] in H. injection H as <-.
  unfold PyStr.int_of_digits in Ed.
  destruct (0 <? max_str_digits)%Z eqn:B1; [|discriminate Ed].
  destruct (640 <? Z.of_nat (String.length d))%Z eqn:B2; [|discriminate Ed].
  destruct (max_str_digits <? Z.of_nat (String.length d))%Z eqn:B3; [|discriminate Ed].
  cbn [andb] in Ed. injection Ed as <-.
  apply Z.ltb_lt in B1, B2, B3.
  split; [reflexivity|]. split; [exact B1|]. exists d.
  split; [left; reflexivity|]. split; assumption.
Qed.

Lemma findall_amount_digits (s : string) :
Forall (fun d => forallb PyStr.is_digit (list_ascii_of_string d) = true)
  (PyRe.findall amount_pattern s).
Proof.
apply findall_from_captures. intros t x len H.
apply match_run_here_sound in H. tauto.
Qed.

Lemma findall_transaction_ids (s : string) :
Forall (fun g => (is_hex_literal (fst g) = true /\ snd g = "")
                 \/ (fst g = "" /\ is_hex_literal (snd g) = true))
  (PyRe.findall transaction_id_pattern s).
Proof.
apply findall_from_captures. intros t [g1 g2] len H.
exact (transaction_id_pattern_sound _ _ _ _ H).
Qed.

Lemma omap_Forall {X Y} (f : X -> option Y) (Q : X -> Prop) (P : Y -> Prop)
  (l : list X) :
(forall x y, Q x -> f x = Some y -> P y) -> Forall Q l -> Forall P (omap f l).
Proof.
intros Hf HQ. induction HQ as [|x l Hx _ IH]; cbn [omap list_omap]; [constructor|].
destruct (f x) as [y|] eqn:E; [|exact IH].
constructor; [exact (Hf _ _ Hx E)|exact IH].
Qed.

End TransactionTextResults.

(** X13: The dict that [send_transaction] and [send_transaction_any] return
    when the wallet library raises reads as a transaction of amount 0, whatever
    error text follows: its ['timestamp': '0'] entry is not what the timestamp
    pattern looks for, so the timestamp is the one found in the error text, if
    any, and a timestamp there with too many digits loses the amount as well. *)
Theorem failed_send_parses_as_zero (max_str_digits : Z) (tail : string) :
  parse_transaction_data max_str_digits
    (Returned (String.append zero_dict_text tail)) =
  match PyRe.search timestamp_pattern tail with
  | None => (Some 0, None)
  | Some d =>
      match PyStr.int_of_digits max_str_digits d with
      | Returned t => (Some 0, Some t)
      | Raised _ => (None, None)
      end
  end.
Proof.
  assert (Ha : PyRe.search amount_pattern (String.append zero_dict_text tail)
               = Some "0"%string).
  { cbv [String.append zero_dict_text]. cbn [PyRe.search].
    reflexivity. }
  assert (Ht : PyRe.search timestamp_pattern (String.append zero_dict_text tail)
               = PyRe.search timestamp_pattern tail).
  { cbv [String.append zero_dict_text]. reflexivity. }
  unfold parse_transaction_data. cbn [py_bind]. rewrite Ha, Ht.
  unfold int_of_match. unfold PyStr.int_of_digits at 1.
  change (Z.of_nat (String.length "0")) with 1.
  replace ((0 <? max_str_digits) && (640 <? 1) && (max_str_digits <? 1)) with false
    by (destruct (0 <? max_str_digits); reflexivity).
  cbn [py_bind].
  destruct (PyRe.search timestamp_pattern tail) as [d|]; [|reflexivity].
  destruct (PyStr.int_of_digits max_str_digits d); reflexivity.
Qed.

(** X14: [parse_transaction_string] returns identifiers that are [0x] and at
    least one hexadecimal digit, in both lists, and amounts that are not
    negative; it raises only [ValueError], and only where the digit limit of
    [int] is on and some amount in the text has more digits than the limit
    allows. *)
Theorem parse_transaction_string_wellformed (max_str_digits : Z) (s : string) :
  match parse_transaction_string max_str_digits s with
  | Returned (ids1, ids2, amounts) =>
      Forall (fun i => is_hex_literal i = true) ids1
      /\ Forall (fun i => is_hex_literal i = true) ids2
      /\ Forall (fun a => 0 <= a) amounts
      /\ (length ids1 + length ids2 =
          length (PyRe.findall transaction_id_pattern s))%nat
      /\ length amounts = length (PyRe.findall amount_pattern s)
  | Raised e =>
      e = ValueError
      /\ 0 < max_str_digits
      /\ exists d, In d (PyRe.findall amount_pattern s)
                   /\ 640 < Z.of_nat (String.length d)
                   /\ max_str_digits < Z.of_nat (String.length d)
  end.
Proof.
  unfold parse_transaction_string.
  destruct (ints_of max_str_digits (PyRe.findall amount_pattern s)) as [ns|e] eqn:E;
    cbn [py_bind].
  - destruct (ints_of_returns _ _ _ E) as [-> _].
    pose proof (findall_transaction_ids s) as Hids.
    split; [|split; [|split; [|split]]].
    + eapply omap_Forall; [|exact Hids]. intros [g1 g2] y HQ Hy. cbn in HQ.
      destruct g1 as [|c g1]; [discriminate Hy|]. injection Hy as <-.
      destruct HQ as [[H _]|[H _]]; [exact H|discriminate H].
    + eapply omap_Forall; [|exact Hids]. intros [g1 g2] y HQ Hy. cbn in HQ.
      destruct g1 as [|c g1]; [|discriminate Hy].
      destruct g2 as [|c g2]; [discriminate Hy|]. injection Hy as <-.
      destruct HQ as [[H _]|[_ H]]; [discriminate H|exact H].
    + apply Forall_map. eapply Forall_impl; [apply findall_amount_digits|].
      intros d Hd. cbn. apply decimal_from_nonneg; [lia|exact Hd].
    + induction Hids as [|[g1 g2] l Hx _ IH]; [reflexivity|].
      cbn [omap list_omap length]. cbn in Hx.
      destruct g1 as [|c g1].
      * destruct g2 as [|c2 g2]; [destruct Hx as [[H _]|[_ H]]; discriminate H|].
        cbn [length]. lia.
      * cbn [length]. lia.
    + apply length_map.
  - exact (ints_of_raises _ _ _ E).
Qed.

(** X15: The two parsers agree on the amount: when [parse_transaction_string]
    returns, the first of its amounts is the amount that
    [parse_transaction_data] reads from the same text, and there is none exactly
    when the list is empty. [parse_transaction_data] gives the amount up only
    where converting the timestamp raises. *)
Theorem parse_transaction_data_reads_first_amount (max_str_digits : Z)
    (s : string) (ids1 ids2 : list string) (amounts : list Z) :
  parse_transaction_string max_str_digits s = Returned (ids1, ids2, amounts) ->
  match int_of_match max_str_digits (PyRe.search timestamp_pattern s) with
  | Returned timestamp =>
      parse_transaction_data max_str_digits (Returned s) = (head amounts, timestamp)
  | Raised _ => parse_transaction_data max_str_digits (Returned s) = (None, None)
  end.
Proof.
  unfold parse_transaction_string. intros H.
  destruct (ints_of max_str_digits (PyRe.findall amount_pattern s)) as [ns|e] eqn:E;
    [|discriminate H].
  cbn [py_bind] in H. injection H as _ _ <-.
  destruct (ints_of_returns _ _ _ E) as [-> HF].
  unfold parse_transaction_data. cbn [py_bind].
  rewrite <- (head_findall amount_pattern s).
  destruct (PyRe.findall amount_pattern s) as [|d ds].
  - cbn [head int_of_match py_bind map].
    destruct (int_of_match _ _); reflexivity.
  - apply Forall_cons in HF. destruct HF as [Hd _].
    cbn [head int_of_match map]. rewrite Hd. cbn [py_bind].
    destruct (int_of_match _ _); reflexivity.
Qed.

Lemma parse_transaction_data_reads_first_amount_witness :
  parse_transaction_data 4300
    (Returned "Tx('transactionId': '0xAbC12' 'amount': '120', 'amount': '7' timestamp='1700')"%string)
  = (Some 120, Some 1700).
Proof.
  exact (parse_transaction_data_reads_first_amount 4300
           "Tx('transactionId': '0xAbC12' 'amount': '120', 'amount': '7' timestamp='1700')"%string
           ["0xAbC12"%string] [] [120; 7] eq_refl).
Defined.

(** ** Outputs and native tokens *)

Section OutputLookups.

Lemma first_token_none (id : string) (tokens : list native_token) :
first_token id tokens = None <->
forall t, In t tokens -> token_id t <> id.
Proof.
induction tokens as [|t ts IH]; cbn [first_token].
- split; [intros _ t []|reflexivity].
- destruct (String.eqb_spec (token_id t) id) as [E|E].
  + split; [discriminate|]. intros H. exfalso. apply (H t); [left; reflexivity|exact E].
  + rewrite IH. split.
    * intros H t' [<-|Hin]; [exact E|apply H, Hin].
    * intros H t' Hin. apply H. right. exact Hin.
Qed.

Lemma first_token_some (id : string) (tokens : list native_token)
  (t : native_token) :
first_token id tokens = Some t <->
exists pre post, tokens = pre ++ t :: post /\ token_id t = id
                 /\ forall t', In t' pre -> token_id t' <> id.
Proof.
revert t. induction tokens as [|t0 ts IH]; intros t; cbn [first_token].
- split; [discriminate|]. intros (pre & post & H & _). destruct pre; discriminate H.
- destruct (String.eqb_spec (token_id t0) id) as [E|E].
  + split.
    * intros [= <-]. exists [], ts. split; [reflexivity|]. split; [exact E|intros ? []].
    * intros (pre & post & H & Hid & Hpre). destruct pre as [|p pre].
      -- injection H as -> _. reflexivity.
      -- injection H as -> _. exfalso. apply (Hpre p); [left; reflexivity|exact E].
  + rewrite IH. split.
    * intros (pre & post & -> & Hid & Hpre). exists (t0 :: pre), post.
      split; [reflexivity|]. split; [exact Hid|].
      intros t' [<-|Hin]; [exact E|apply Hpre, Hin].
    * intros (pre & post & H & Hid & Hpre). destruct pre as [|p pre].
      -- injection H as -> _. congruence.
      -- injection H as -> ->. exists pre, post. split; [reflexivity|].
         split; [exact Hid|]. intros t' Hin. apply Hpre. right. exact Hin.
Qed.

Lemma int_base16_raises (s : string) (e : py_exn) :
PyInt16.int_base16 s = Raised e -> e = ValueError.
Proof.
unfold PyInt16.int_base16.
destruct (match PyInt16.lstrip s with
          | String "+" r => (1, r) | String "-" r => (-1, r)
          | _ => (1, PyInt16.lstrip s) end) as [sign s2].
destruct (match s2 with
          | String "0" (String x r) =>
              if Ascii.eqb x "x" || Ascii.eqb x "X"
              then match r with String "_" r' => r' | _ => r end
              else s2
          | _ => s2 end) as [|c s3]; [congruence|].
destruct (PyInt16.hex_value c); [|congruence].
destruct (PyInt16.hex_run 0 false (String c s3)) as [[v rest]|]; [|congruence].
destruct (PyInt16.lstrip rest); [discriminate|congruence].
Qed.

End OutputLookups.

Section HexAmounts.

Lemma hex_value_is_hex (c : ascii) :
PyRe.is_hex c = true ->
Ascii.eqb c "_" = false
/\ exists v, PyInt16.hex_value c = Some v /\ 0 <= v < 16.
Proof.
destruct c as [[|] [|] [|] [|] [|] [|] [|] [|]]; intros H;
  try discriminate H; (split; [reflexivity|]);
  eexists; (split; [vm_compute; reflexivity|]); lia.
Qed.

Lemma hex_run_all_hex (s : string) (acc : Z) :
forallb PyRe.is_hex (list_ascii_of_string s) = true -> 0 <= acc ->
exists v, PyInt16.hex_run acc false s = Some (v, EmptyString) /\ 0 <= v.
Proof.
revert acc. induction s as [|c s IH]; intros acc H Hacc.
- exists acc. split; [reflexivity|exact Hacc].
- cbn [list_ascii_of_string forallb] in H. apply andb_prop in H.
  destruct H as [Hc Hs].
  destruct (hex_value_is_hex c Hc) as (Hu & v & Hv & Hr).
  cbn [PyInt16.hex_run]. rewrite Hu, Hv. apply IH; [exact Hs|lia].
Qed.

Lemma is_hex_literal_split (s : string) :
is_hex_literal s = true ->
exists c rest, s = String "0" (String "x" (String c rest))
               /\ forallb PyRe.is_hex (c :: list_ascii_of_string rest) = true.
Proof.
destruct s as [|a [|b [|c rest]]]; intros H; try discriminate H;
  try (destruct a as [[|] [|] [|] [|] [|] [|] [|] [|]]; discriminate H);
  try (destruct a as [[|] [|] [|] [|] [|] [|] [|] [|]]; try discriminate H;
       destruct b as [[|] [|] [|] [|] [|] [|] [|] [|]]; discriminate H).
destruct a as [[|] [|] [|] [|] [|] [|] [|] [|]]; try discriminate H;
  destruct b as [[|] [|] [|] [|] [|] [|] [|] [|]]; try discriminate H.
exists c, rest. split; [reflexivity|exact H].
Qed.

(** An amount written as [0x] and hexadecimal digits converts, to a number
  that is not negative. *)
Lemma int_base16_hex_literal (s : string) :
is_hex_literal s = true ->
exists v, PyInt16.int_base16 s = Returned v /\ 0 <= v.
Proof.
intros H. destruct (is_hex_literal_split s H) as (c & rest & -> & Hh).
cbn [forallb] in Hh. apply andb_prop in Hh. destruct Hh as [Hc Hrest].
destruct (hex_value_is_hex c Hc) as (Hu & v0 & Hv0 & Hr0).
destruct (hex_run_all_hex (String c rest) 0) as (v & Hv & Hpos).
{ cbn [list_ascii_of_string forallb]. rewrite Hc. exact Hrest. }
{ lia. }
exists v. split; [|exact Hpos].
unfold PyInt16.int_base16.
change (PyInt16.lstrip (String "0" (String "x" (String c rest))))
  with (String "0" (String "x" (String c rest))).
cbv beta iota.
assert (Hs3 : match String c rest with
              | String "_"%char r' => r'
              | _ => String c rest
              end = String c rest).
{ revert Hu. clear.
  destruct c as [[|] [|] [|] [|] [|] [|] [|] [|]]; intros Hu;
    try reflexivity; discriminate Hu. }
change (Ascii.eqb "x" "x" || Ascii.eqb "x" "X") with true. cbv iota.
rewrite Hs3. rewrite Hv0, Hv.
cbn [PyInt16.lstrip]. f_equal. lia.
Qed.

End HexAmounts.

Section LatestByAddress.
Variable hex_address : string.

Lemma scan_tokens_settled (timestamp : Z) (tokens : list native_token)
  (l : latest_details) (r : option latest_details) :
timestamp <= latest_timestampBooked l ->
scan_tokens timestamp tokens (Some l) = Returned r -> r = Some l.
Proof.
intros Hl. induction tokens as [|t ts IH]; cbn [scan_tokens]; intros H.
- injection H as <-. reflexivity.
- destruct (PyInt16.int_base16 (token_amount t)) as [v|e]; [|discriminate H].
  cbn [py_bind] in H.
  destruct (latest_timestampBooked l <? timestamp) eqn:B;
    [apply Z.ltb_lt in B; lia|].
  apply IH, H.
Qed.

Lemma scan_tokens_converts (timestamp : Z) (tokens : list native_token)
  (latest r : option latest_details) :
scan_tokens timestamp tokens latest = Returned r ->
forall t, In t tokens -> exists v, PyInt16.int_base16 (token_amount t) = Returned v.
Proof.
revert latest. induction tokens as [|t0 ts IH]; intros latest H t Hin;
  [destruct Hin|].
cbn [scan_tokens] in H.
destruct (PyInt16.int_base16 (token_amount t0)) as [v|e] eqn:E; [|discriminate H].
cbn [py_bind] in H. destruct Hin as [<-|Hin]; [exists v; exact E|].
exact (IH _ H t Hin).
Qed.

Lemma scan_tokens_raises (timestamp : Z) (tokens : list native_token)
  (latest : option latest_details) (e : py_exn) :
scan_tokens timestamp tokens latest = Raised e ->
exists t, In t tokens /\ PyInt16.int_base16 (token_amount t) = Raised ValueError.
Proof.
revert latest. induction tokens as [|t0 ts IH]; intros latest H;
  cbn [scan_tokens] in H; [discriminate H|].
destruct (PyInt16.int_base16 (token_amount t0)) as [v|e'] eqn:E.
- cbn [py_bind] in H. destruct (IH _ H) as (t & Hin & Ht).
  exists t. split; [right; exact Hin|exact Ht].
- exists t0. split; [left; reflexivity|].
  rewrite E. f_equal. exact (int_base16_raises _ _ E).
Qed.

(** All tokens of an output carry its timestamp: only the first of them can
  replace what was found before. *)
Lemma scan_tokens_cons (timestamp : Z) (token : native_token)
  (rest : list native_token) (latest r : option latest_details) :
scan_tokens timestamp (token :: rest) latest = Returned r ->
exists v,
  PyInt16.int_base16 (token_amount token) = Returned v
  /\ r = match latest with
         | None => Some {| latest_tokenId := token_id token; latest_amount := v;
                           latest_timestampBooked := timestamp |}
         | Some l =>
             if latest_timestampBooked l <? timestamp
             then Some {| latest_tokenId := token_id token; latest_amount := v;
                          latest_timestampBooked := timestamp |}
             else latest
         end.
Proof.
cbn [scan_tokens]. intros H.
destruct (PyInt16.int_base16 (token_amount token)) as [v|e]; [|discriminate H].
cbn [py_bind] in H. exists v. split; [reflexivity|].
destruct latest as [l|].
- destruct (latest_timestampBooked l <? timestamp) eqn:B.
  + apply scan_tokens_settled in H; [exact H|cbn; lia].
  + apply Z.ltb_ge in B. apply scan_tokens_settled in H; [exact H|exact B].
- apply scan_tokens_settled in H; [exact H|cbn; lia].
Qed.

Lemma scan_outputs_spec (outputs : list output_data)
  (latest r : option latest_details) :
scan_outputs outputs hex_address latest = Returned r ->
(r = latest
 /\ forall o', In o' outputs -> pubKeyHash o' = hex_address ->
      tokens_of o' <> [] ->
      exists l, latest = Some l
                /\ milestoneTimestampBooked o' <= latest_timestampBooked l)
\/ exists pre o post token rest v,
     outputs = pre ++ o :: post
     /\ pubKeyHash o = hex_address
     /\ tokens_of o = token :: rest
     /\ PyInt16.int_base16 (token_amount token) = Returned v
     /\ r = Some {| latest_tokenId := token_id token; latest_amount := v;
                    latest_timestampBooked := milestoneTimestampBooked o |}
     /\ (forall o', In o' pre -> pubKeyHash o' = hex_address ->
           tokens_of o' <> [] ->
           milestoneTimestampBooked o' < milestoneTimestampBooked o)
     /\ (forall o', In o' post -> pubKeyHash o' = hex_address ->
           tokens_of o' <> [] ->
           milestoneTimestampBooked o' <= milestoneTimestampBooked o)
     /\ (forall l, latest = Some l ->
           latest_timestampBooked l < milestoneTimestampBooked o).
Proof.
revert latest. induction outputs as [|o outs IH]; intros latest H.
- cbn [scan_outputs] in H. injection H as <-. left.
  split; [reflexivity|]. intros o' [].
- cbn [scan_outputs] in H.
  destruct (String.eqb_spec (pubKeyHash o) hex_address) as [Ha|Ha].
  + destruct (tokens_of o) as [|token rest] eqn:T.
    * cbn [scan_tokens py_bind] in H.
      destruct (IH _ H) as [[-> Hall]|(pre & o2 & post & tk & rs & v & -> & H2)].
      -- left. split; [reflexivity|].
         intros o' [<-|Hin] Hk Ht; [congruence|exact (Hall _ Hin Hk Ht)].
      -- right. exists (o :: pre), o2, post, tk, rs, v.
         split; [reflexivity|].
         destruct H2 as (? & ? & ? & ? & Hpre & ? & ?).
         repeat (split; [assumption|]). split; [|split; assumption].
         intros o' [<-|Hin] Hk Ht; [congruence|exact (Hpre _ Hin Hk Ht)].
    * destruct (scan_tokens (milestoneTimestampBooked o) (token :: rest) latest)
        as [latest'|e] eqn:S; [|discriminate H].
      cbn [py_bind] in H.
      destruct (scan_tokens_cons _ _ _ _ _ S) as (v & Hv & Hl').
      set (d := {| latest_tokenId := token_id token; latest_amount := v;
                   latest_timestampBooked := milestoneTimestampBooked o |}) in *.
      assert (Hcase :
        (latest' = Some d
         /\ forall l, latest = Some l ->
              latest_timestampBooked l < milestoneTimestampBooked o)
        \/ (latest' = latest
            /\ exists l, latest = Some l
                 /\ milestoneTimestampBooked o <= latest_timestampBooked l)).
      { destruct latest as [l|].
        - destruct (latest_timestampBooked l <? milestoneTimestampBooked o) eqn:B.
          + left. split; [exact Hl'|]. intros l0 [= <-].
            apply Z.ltb_lt in B. exact B.
          + right. split; [exact Hl'|]. exists l. split; [reflexivity|].
            apply Z.ltb_ge in B. exact B.
        - left. split; [exact Hl'|]. intros l0 [=]. }
      destruct Hcase as [[-> Hlt]|[-> (l & -> & Hle)]].
      -- destruct (IH _ H) as [[-> Hall]|(pre & o2 & post & tk & rs & v2 & -> & H2)].
         ++ right. exists [], o, outs, token, rest, v.
            split; [reflexivity|]. split; [exact Ha|]. split; [exact T|].
            split; [exact Hv|]. split; [reflexivity|].
            split; [intros o' []|]. split; [|exact Hlt].
            intros o' Hin Hk Ht.
            destruct (Hall _ Hin Hk Ht) as (l & [= <-] & Hle). exact Hle.
         ++ right. exists (o :: pre), o2, post, tk, rs, v2.
            split; [reflexivity|].
            destruct H2 as (? & ? & ? & ? & Hpre & ? & Hd).
            repeat (split; [assumption|]).
            specialize (Hd d eq_refl). cbn in Hd.
            split; [|split; [assumption|]].
            ** intros o' [<-|Hin] Hk Ht; [exact Hd|exact (Hpre _ Hin Hk Ht)].
            ** intros l Hl. specialize (Hlt l Hl). lia.
      -- destruct (IH _ H) as [[-> Hall]|(pre & o2 & post & tk & rs & v2 & -> & H2)].
         ++ left. split; [reflexivity|].
            intros o' [<-|Hin] Hk Ht; [|exact (Hall _ Hin Hk Ht)].
            exists l. split; [reflexivity|exact Hle].
         ++ right. exists (o :: pre), o2, post, tk, rs, v2.
            split; [reflexivity|].
            destruct H2 as (? & ? & ? & ? & Hpre & ? & Hd).
            repeat (split; [assumption|]).
            split; [|split; assumption].
            specialize (Hd l eq_refl).
            intros o' [<-|Hin] Hk Ht; [lia|exact (Hpre _ Hin Hk Ht)].
  + destruct (IH _ H) as [[-> Hall]|(pre & o2 & post & tk & rs & v & -> & H2)].
    * left. split; [reflexivity|].
      intros o' [<-|Hin] Hk Ht; [congruence|exact (Hall _ Hin Hk Ht)].
    * right. exists (o :: pre), o2, post, tk, rs, v.
      split; [reflexivity|].
      destruct H2 as (? & ? & ? & ? & Hpre & ? & ?).
      repeat (split; [assumption|]). split; [|split; assumption].
      intros o' [<-|Hin] Hk Ht; [congruence|exact (Hpre _ Hin Hk Ht)].
Qed.

Lemma scan_outputs_converts (outputs : list output_data)
  (latest r : option latest_details) :
scan_outputs outputs hex_address latest = Returned r ->
forall o t, In o outputs -> pubKeyHash o = hex_address -> In t (tokens_of o) ->
  exists v, PyInt16.int_base16 (token_amount t) = Returned v.
Proof.
revert latest. induction outputs as [|o0 outs IH]; intros latest H o t Hin Hk Ht;
  [destruct Hin|].
cbn [scan_outputs] in H.
destruct (String.eqb_spec (pubKeyHash o0) hex_address) as [Ha|Ha].
- destruct (scan_tokens _ _ latest) as [l'|e] eqn:S; [|discriminate H].
  cbn [py_bind] in H. destruct Hin as [<-|Hin].
  + exact (scan_tokens_converts _ _ _ _ S t Ht).
  + exact (IH _ H o t Hin Hk Ht).
- destruct Hin as [<-|Hin]; [congruence|]. exact (IH _ H o t Hin Hk Ht).
Qed.

Lemma scan_outputs_raises (outputs : list output_data)
  (latest : option latest_details) (e : py_exn) :
scan_outputs outputs hex_address latest = Raised e ->
exists o t, In o outputs /\ pubKeyHash o = hex_address /\ In t (tokens_of o)
            /\ PyInt16.int_base16 (token_amount t) = Raised ValueError.
Proof.
revert latest. induction outputs as [|o0 outs IH]; intros latest H;
  cbn [scan_outputs] in H; [discriminate H|].
destruct (String.eqb_spec (pubKeyHash o0) hex_address) as [Ha|Ha].
- destruct (scan_tokens _ _ latest) as [l'|e'] eqn:S.
  + cbn [py_bind] in H. destruct (IH _ H) as (o & t & Hin & Hr).
    exists o, t. split; [right; exact Hin|exact Hr].
  + destruct (scan_tokens_raises _ _ _ _ S) as (t & Hin & Ht).
    exists o0, t. split; [left; reflexivity|]. split; [exact Ha|].
    split; [exact Hin|exact Ht].
- destruct (IH _ H) as (o & t & Hin & Hr).
  exists o, t. split; [right; exact Hin|exact Hr].
Qed.

End LatestByAddress.

(** X16: [find_transaction_by_token] reports the first token of the id in the
    order of the outputs and, within an output, of its tokens: what follows it
    is not read, its amount is the only one converted, and the lookup raises
    exactly when that amount is not a number in base 16. *)
Theorem find_transaction_by_token_first_match (pre post : list output_data)
    (o : output_data) (before after : list native_token) (token : native_token)
    (id : string) :
  (forall o' t, In o' pre -> In t (tokens_of o') -> token_id t <> id) ->
  tokens_of o = before ++ token :: after ->
  (forall t, In t before -> token_id t <> id) ->
  token_id token = id ->
  find_transaction_by_token (pre ++ o :: post) id =
  let! amount := PyInt16.int_base16 (token_amount token) in
  Returned (Some {| match_outputId := outputId o;
                    match_transactionId := transactionId o;
                    match_amount := amount;
                    match_isSpent := isSpent o;
                    match_timestampBooked := milestoneTimestampBooked o;
                    match_address := pubKeyHash o |}, []).
Proof.
  intros Hpre Ho Hbefore Hid.
  assert (Hfirst : first_token id (tokens_of o) = Some token).
  { apply first_token_some. exists before, after. repeat split; assumption. }
  induction pre as [|p pre IH]; cbn [app find_transaction_by_token].
  - rewrite Hfirst. reflexivity.
  - assert (Hp : first_token id (tokens_of p) = None).
    { apply first_token_none. intros t Ht. apply (Hpre p t); [left; reflexivity|exact Ht]. }
    rewrite Hp. apply IH. intros o' t Hin. apply Hpre. right. exact Hin.
Qed.

Lemma find_transaction_by_token_first_match_witness :
  find_transaction_by_token
    ([sample_first_output] ++ sample_second_output :: [sample_third_output])
    "0x09"
  = Returned (Some {| match_outputId := "0xb0"; match_transactionId := "0xb";
                      match_amount := 2; match_isSpent := true;
                      match_timestampBooked := 20; match_address := "0x01" |}, []).
Proof.
  refine (find_transaction_by_token_first_match [sample_first_output]
            [sample_third_output] sample_second_output
            [{| token_id := "0x08"; token_amount := "0x1f" |}] []
            {| token_id := "0x09"; token_amount := "0x2" |} "0x09"
            _ eq_refl _ eq_refl).
  - intros o' t [<-|[]] [<-|[]]. discriminate.
  - intros t [<-|[]]. discriminate.
Defined.

(** X17: [find_transaction_by_token] returns [None] exactly when no output
    carries a token of the id, and then it has printed its one line and has
    converted no amount: an amount that is not a number does no harm on a token
    of another id. *)
Theorem find_transaction_by_token_none_iff (outputs : list output_data)
    (id : string) :
  ((exists printed, find_transaction_by_token outputs id = Returned (None, printed))
   <-> forall o t, In o outputs -> In t (tokens_of o) -> token_id t <> id)
  /\ forall printed,
       find_transaction_by_token outputs id = Returned (None, printed) ->
       printed = [String.append "No transaction found for token ID '"
                    (String.append id "'.")].
Proof.
  induction outputs as [|o outs [IH1 IH2]]; cbn [find_transaction_by_token].
  - split.
    + split; [intros _ o t []|]. intros _. eexists. reflexivity.
    + intros printed [= <-]. reflexivity.
  - destruct (first_token id (tokens_of o)) as [token|] eqn:E.
    + assert (Hno : forall printed : list string,
                ~ (let! amount := PyInt16.int_base16 (token_amount token) in
                   Returned (Some {| match_outputId := outputId o;
                                     match_transactionId := transactionId o;
                                     match_amount := amount;
                                     match_isSpent := isSpent o;
                                     match_timestampBooked := milestoneTimestampBooked o;
                                     match_address := pubKeyHash o |}, []))
                  = Returned (None, printed)).
      { intros printed H.
        destruct (PyInt16.int_base16 (token_amount token)); discriminate H. }
      split.
      * split.
        -- intros [printed H]. destruct (Hno _ H).
        -- intros H. exfalso.
           apply first_token_some in E. destruct E as (b & a & Hs & Hid & _).
           apply (H o token); [left; reflexivity| |exact Hid].
           rewrite Hs. apply in_elt.
      * intros printed H. destruct (Hno _ H).
    + split; [|exact IH2]. rewrite IH1. split.
      * intros H o' t [<-|Hin] Ht; [|exact (H o' t Hin Ht)].
        revert t Ht. apply first_token_none. exact E.
      * intros H o' t Hin. apply H. right. exact Hin.
Qed.

(** X18: What [find_latest_transaction_by_address] returns is the first token
    of an output of the address, with the booked timestamp of that output: no
    output of the address with tokens is booked later, and those before it in
    the list are booked strictly earlier, so the first of the latest wins. Other
    tokens of the same output are never returned. *)
Theorem find_latest_transaction_by_address_latest (outputs : list output_data)
    (hex_address : string) (details : latest_details) (printed : list string) :
  find_latest_transaction_by_address outputs hex_address
    = Returned (Some details, printed) ->
  printed = []
  /\ exists pre o post token rest,
       outputs = pre ++ o :: post
       /\ pubKeyHash o = hex_address
       /\ tokens_of o = token :: rest
       /\ latest_tokenId details = token_id token
       /\ PyInt16.int_base16 (token_amount token) = Returned (latest_amount details)
       /\ latest_timestampBooked details = milestoneTimestampBooked o
       /\ (forall o', In o' pre -> pubKeyHash o' = hex_address ->
             tokens_of o' <> [] ->
             milestoneTimestampBooked o' < milestoneTimestampBooked o)
       /\ (forall o', In o' post -> pubKeyHash o' = hex_address ->
             tokens_of o' <> [] ->
             milestoneTimestampBooked o' <= milestoneTimestampBooked o).
Proof.
  unfold find_latest_transaction_by_address. intros H.
  destruct (scan_outputs outputs hex_address None) as [r|e] eqn:S; [|discriminate H].
  cbn [py_bind] in H. destruct r as [d|]; [|discriminate H].
  injection H as -> <-. split; [reflexivity|].
  destruct (scan_outputs_spec _ _ _ _ S)
    as [[Hd _]|(pre & o & post & tk & rs & v & Ho & Hk & Ht & Hv & Hd & Hpre & Hpost & _)];
    [discriminate Hd|].
  injection Hd as ->. exists pre, o, post, tk, rs.
  repeat (split; [first [assumption|reflexivity]|]). exact Hpost.
Qed.

Lemma find_latest_transaction_by_address_latest_witness :
  exists pre o post token rest,
    [sample_first_output; sample_second_output] = pre ++ o :: post
    /\ tokens_of o = token :: rest
    /\ token_id token = "0x08"%string
    /\ milestoneTimestampBooked o = 20.
Proof.
  destruct (find_latest_transaction_by_address_latest
              [sample_first_output; sample_second_output] "0x01"
              {| latest_tokenId := "0x08"; latest_amount := 31;
                 latest_timestampBooked := 20 |} [] eq_refl)
    as (_ & pre & o & post & token & rest & Ho & _ & Ht & Hid & _ & Hts & _).
  exists pre, o, post, token, rest.
  split; [exact Ho|]. split; [exact Ht|]. split; [symmetry; exact Hid|].
  symmetry. exact Hts.
Defined.

(** X19: [find_latest_transaction_by_address] converts the amount of every
    token of every output of the address before it returns: it raises exactly
    when one of them is not a number in base 16, be it on an output that is not
    the latest, and the exception is [ValueError]. It returns [None], having
    printed its line, exactly when no output of the address has a token. *)
Theorem find_latest_transaction_by_address_failures (outputs : list output_data)
    (hex_address : string) :
  ((exists e, find_latest_transaction_by_address outputs hex_address = Raised e)
   <-> exists o t, In o outputs /\ pubKeyHash o = hex_address /\ In t (tokens_of o)
                   /\ PyInt16.int_base16 (token_amount t) = Raised ValueError)
  /\ (forall e, find_latest_transaction_by_address outputs hex_address = Raised e ->
        e = ValueError)
  /\ (find_latest_transaction_by_address outputs hex_address
        = Returned (None, [String.append "No transaction found for address '"
                             (String.append hex_address "'.")])
      <-> forall o, In o outputs -> pubKeyHash o = hex_address -> tokens_of o = []).
Proof.
  unfold find_latest_transaction_by_address.
  destruct (scan_outputs outputs hex_address None) as [r|e] eqn:S; cbn [py_bind].
  - split; [|split].
    + split.
      * intros [e H]. destruct r; discriminate H.
      * intros (o & t & Hin & Hk & Ht & Hr). exfalso.
        destruct (scan_outputs_converts _ _ _ _ S o t Hin Hk Ht) as [v Hv].
        congruence.
    + intros e H. destruct r; discriminate H.
    + destruct (scan_outputs_spec _ _ _ _ S)
        as [[-> Hall]|(pre & o & post & tk & rs & v & -> & Hk & Ht & _ & -> & _)].
      * split; [|reflexivity]. intros _ o Hin Hk.
        destruct (tokens_of o) as [|t ts] eqn:T; [reflexivity|]. exfalso.
        destruct (Hall o Hin Hk) as (l & Hl & _); [rewrite T; discriminate|].
        discriminate Hl.
      * split; [discriminate|]. intros H. exfalso.
        specialize (H o (in_elt _ _ _) Hk). congruence.
  - destruct (scan_outputs_raises _ _ _ _ S) as (o & t & Hin & Hk & Ht & Hr).
    split; [|split].
    + split; [|intros _; exists e; reflexivity].
      intros _. exists o, t. repeat split; assumption.
    + intros e' [= <-].
      clear -S. revert S. generalize (@None latest_details).
      induction outputs as [|o0 outs IH]; intros latest S; cbn [scan_outputs] in S;
        [discriminate S|].
      destruct (String.eqb (pubKeyHash o0) hex_address); [|exact (IH _ S)].
      destruct (scan_tokens _ _ latest) as [l'|e'] eqn:St.
      * exact (IH _ S).
      * cbn [py_bind] in S. injection S as <-. clear IH. revert latest St.
        induction (tokens_of o0) as [|t0 ts IHt]; intros latest St;
          cbn [scan_tokens] in St; [discriminate St|].
        destruct (PyInt16.int_base16 (token_amount t0)) as [v|e0] eqn:E.
        -- exact (IHt _ St).
        -- cbn [py_bind] in St. injection St as <-.
           exact (int_base16_raises _ _ E).
    + split; [discriminate|]. intros H. exfalso.
      rewrite (H o Hin Hk) in Ht. destruct Ht.
Qed.

(** X20: On outputs whose token amounts are all written as [0x] and
    hexadecimal digits, as the library writes them, neither lookup raises, and
    the amount that either reports is not negative. *)
Theorem lookups_on_hex_amounts (outputs : list output_data) (key : string) :
  (forall o t, In o outputs -> In t (tokens_of o) ->
     is_hex_literal (token_amount t) = true) ->
  (exists r printed,
     find_transaction_by_token outputs key = Returned (r, printed)
     /\ forall m, r = Some m -> 0 <= match_amount m)
  /\ (exists r printed,
        find_latest_transaction_by_address outputs key = Returned (r, printed)
        /\ forall d, r = Some d -> 0 <= latest_amount d).
Proof.
  intros Hhex. split.
  - induction outputs as [|o outs IH]; cbn [find_transaction_by_token].
    + eexists _, _. split; [reflexivity|]. intros m [=].
    + destruct (first_token key (tokens_of o)) as [token|] eqn:E.
      * apply first_token_some in E. destruct E as (b & a & Hs & _).
        destruct (int_base16_hex_literal (token_amount token)) as (v & Hv & Hpos).
        { apply (Hhex o); [left; reflexivity|]. rewrite Hs. apply in_elt. }
        rewrite Hv. cbn [py_bind]. eexists _, _. split; [reflexivity|].
        intros m [= <-]. exact Hpos.
      * apply IH. intros o' t Hin. apply Hhex. right. exact Hin.
  - destruct (find_latest_transaction_by_address outputs key) as [[r printed]|e] eqn:F.
    + exists r, printed. split; [reflexivity|]. intros d ->.
      unfold find_latest_transaction_by_address in F.
      destruct (scan_outputs outputs key None) as [r|e] eqn:S; [|discriminate F].
      cbn [py_bind] in F. destruct r as [d'|]; [|discriminate F].
      injection F as -> <-.
      destruct (scan_outputs_spec _ _ _ _ S)
        as [[Hd _]|(pre & o & post & tk & rs & v & -> & Hk & Ht & Hv & Hd & _)];
        [discriminate Hd|].
      injection Hd as ->. cbn.
      destruct (int_base16_hex_literal (token_amount tk)) as (v' & Hv' & Hpos).
      { apply (Hhex o); [apply in_elt|]. rewrite Ht. left. reflexivity. }
      congruence.
    + exfalso. unfold find_latest_transaction_by_address in F.
      destruct (scan_outputs outputs key None) as [r|e'] eqn:S;
        [destruct r; discriminate F|].
      destruct (scan_outputs_raises _ _ _ _ S) as (o & t & Hin & _ & Ht & Hr).
      destruct (int_base16_hex_literal (token_amount t) (Hhex o t Hin Ht))
        as (v & Hv & _).
      congruence.
Qed.

Lemma lookups_on_hex_amounts_witness :
  exists r printed,
    find_transaction_by_token [sample_first_output; sample_second_output] "0x09"
    = Returned (r, printed)
    /\ forall m, r = Some m -> 0 <= match_amount m.
Proof.
  refine (proj1 (lookups_on_hex_amounts
                   [sample_first_output; sample_second_output] "0x09" _)).
  intros o t [<-|[<-|[]]]; [intros [<-|[]]|intros [<-|[<-|[]]]]; reflexivity.
Defined.

(** ** Balances *)

Section TokenBalances.

Lemma first_balance_token_first (id : string) (before after : list balance_token)
  (token : balance_token) :
(forall t, In t before -> tokenId t <> id) ->
tokenId token = id ->
first_balance_token id (before ++ token :: after) = Some token.
Proof.
intros Hb Hid. induction before as [|b bs IH]; cbn [app first_balance_token].
- rewrite Hid, String.eqb_refl. reflexivity.
- destruct (String.eqb_spec (tokenId b) id) as [E|E].
  + destruct (Hb b); [left; reflexivity|exact E].
  + apply IH. intros t Hin. apply Hb. right. exact Hin.
Qed.

(** An int below 2^53 passes through a float unchanged. *)
Lemma to_int_of_int_small (v : Z) :
0 <= v < 2 ^ 53 ->
exists x, PyFloat.of_int v = Returned x /\ PyFloat.to_int x = Returned v.
Proof.
intros [H0 H53]. destruct (Z.eq_dec v 0) as [->|Hv].
- eexists. split; vm_compute; reflexivity.
- destruct (of_int_small v) as (m & d & Hd & Hsf & Hm & _); [lia|].
  exists d. split; [exact Hd|]. unfold PyFloat.to_int. rewrite Hsf.
  cbn [cond_Zopp]. f_equal.
  assert (Hl : Z.log2 v <= 52). { apply Z.log2_lt_pow2 in H53; lia. }
  rewrite Z.shiftl_div_pow2 by lia. rewrite Hm.
  replace (- (Z.log2 v - 52)) with (52 - Z.log2 v) by lia.
  apply Z.div_mul. apply Z.pow_nonzero; lia.
Qed.

End TokenBalances.

(** X21: [get_available_balances] reports the available amount of the first
    token of the id in the balance, and an amount below 2^53 exactly: the float
    it returns is that integer, and nothing is printed. *)
Theorem get_available_balances_token_exact (before after : list balance_token)
    (token : balance_token) (c : ascii) (id : string)
    (base_coin_available : py_result float) (v : Z) :
  (forall t, In t before -> tokenId t <> String c id) ->
  tokenId token = String c id ->
  PyInt16.int_base16 (available token) = Returned v ->
  0 <= v < 2 ^ 53 ->
  exists x,
    get_available_balances
      (Balance (Some (before ++ token :: after)) base_coin_available)
      (Some (String c id)) = (x, [])
    /\ PyFloat.to_int x = Returned v.
Proof.
  intros Hb Hid Hv Hr.
  destruct (to_int_of_int_small v Hr) as (x & Hx & Hback).
  exists x. split; [|exact Hback].
  cbn [get_available_balances].
  rewrite (first_balance_token_first _ _ _ _ Hb Hid), Hv. cbn [py_bind].
  rewrite Hx. reflexivity.
Qed.

Lemma get_available_balances_token_exact_witness :
  exists x,
    get_available_balances
      (Balance (Some [{| tokenId := "0x08"; available := "0x1f" |}])
         (Returned 0%float))
      (Some "0x08"%string) = (x, [])
    /\ PyFloat.to_int x = Returned 31.
Proof.
  refine (get_available_balances_token_exact [] []
            {| tokenId := "0x08"; available := "0x1f" |} "0" "x08"
            (Returned 0%float) 31 _ eq_refl eq_refl _).
  - intros t [].
  - lia.
Defined.
